(** * Activity-score back-fill of the Community Tools add-in (Code.js)

    A shallow embedding of [updateActivityLevels] and
    [generateRecentDistinctDates] together with the platform operations they
    call (string trimming and case folding, [parseInt], the ECMAScript date
    algorithms, sheet ranges), followed by the properties of the score
    computation, of the date walk and of the rows written to the
    'Event Attendance' tab.

    Conventions of the embedding
    - JavaScript numbers that the script handles are counts, scores, ids and
      time values in milliseconds; they are integers and are modelled as [Z].
    - Strings are sequences of characters with code points below 256; white
      space and letter case are those of that range.
    - A time zone is a fixed offset from UTC in milliseconds (no change of
      daylight-saving time within the days a run looks at).  The script's own
      zone (the one behind [getFullYear], [getMonth], [getDate], [setDate] and
      [new Date(y, m, d)]) is the parameter [tza]; the spreadsheet's zone,
      handed to [Utilities.formatDate], is the parameter [timeZone].
    - [new Date(year, month, date)] reads a year 0..99 as 1900 + year, as the
      Date constructor does.  The clipping of time values beyond 8.64e15 ms is
      left out: the only date the script builds from is the clock reading
      [today].
    - Arithmetic on [Z] is exact.  It agrees with the script's double
      arithmetic on the integers of magnitude up to 2^52, whose sums and
      differences with one another and with the constants of the script are
      exact, and whose numerals [String] prints in full and [parseInt] reads
      back exactly.  Statements that would differ beyond that range carry the
      bound as a hypothesis ([inExactRange]). *)

From Stdlib Require Import ZArith List String Ascii Bool Lia FinFun.
From Stdlib Require Import DecimalString DecimalN DecimalPos.
Import ListNotations.

Local Open Scope string_scope.
Local Open Scope list_scope.
Local Open Scope Z_scope.

(* ================================================================== *)
(** * Part I: the embedding                                            *)
(* ================================================================== *)

(** ** Strings: [String.prototype.trim], [toLowerCase], [parseInt] *)

Module Text.

(** StrWhiteSpaceChar below code point 256: TAB, LF, VT, FF, CR, SP, NBSP. *)
Definition isWhiteSpace (c : ascii) : bool :=
  let n := nat_of_ascii c in
  ((9 <=? n)%nat && (n <=? 13)%nat) || (n =? 32)%nat || (n =? 160)%nat.

Fixpoint trimStart (s : string) : string :=
  match s with
  | String c r => if isWhiteSpace c then trimStart r else s
  | EmptyString => EmptyString
  end.

Fixpoint trimEnd (s : string) : string :=
  match s with
  | String c r =>
      match trimEnd r with
      | EmptyString => if isWhiteSpace c then EmptyString else String c EmptyString
      | r' => String c r'
      end
  | EmptyString => EmptyString
  end.

Definition trim (s : string) : string := trimEnd (trimStart s).

(** Upper-case letters are A..Z and the code points 192..222 other than 215;
    each has its lower-case letter 32 places further. *)
Definition lowerChar (c : ascii) : ascii :=
  let n := nat_of_ascii c in
  if ((65 <=? n)%nat && (n <=? 90)%nat)
     || ((192 <=? n)%nat && (n <=? 222)%nat && negb (n =? 215)%nat)
  then ascii_of_nat (n + 32) else c.

Fixpoint toLowerCase (s : string) : string :=
  match s with
  | String c r => String (lowerChar c) (toLowerCase r)
  | EmptyString => EmptyString
  end.

Definition digitValue (c : ascii) : option Z :=
  let n := nat_of_ascii c in
  if ((48 <=? n)%nat && (n <=? 57)%nat)%bool then Some (Z.of_nat (n - 48)) else None.

(** Value of the longest prefix of decimal digits, most significant first. *)
Fixpoint parseDigits (s : string) (acc : Z) : Z :=
  match s with
  | String c r =>
      match digitValue c with
      | Some d => parseDigits r (10 * acc + d)
      | None => acc
      end
  | EmptyString => acc
  end.

Definition startsWithDigit (s : string) : bool :=
  match s with
  | String c _ => match digitValue c with Some _ => true | None => false end
  | EmptyString => false
  end.

(** [parseInt(s, 10)]: leading white space is skipped, one sign is read, then
    the longest run of digits; [None] stands for NaN. *)
Definition parseInt10 (s : string) : option Z :=
  let S := trimStart s in
  let '(sign, R) :=
    match S with
    | String "-" r => (-1, r)
    | String "+" r => (1, r)
    | _ => (1, S)
    end in
  if startsWithDigit R then Some (sign * parseDigits R 0) else None.

(** Decimal rendering of a non-negative integer. *)
Definition decimal (n : N) : string := NilEmpty.string_of_uint (N.to_uint n).

(** [Number.prototype.toString] on an integer. *)
Definition numberToString (n : Z) : string :=
  if n <? 0 then ("-" ++ decimal (Z.to_N (- n)))%string else decimal (Z.to_N n).

End Text.

(** ** JavaScript values found in sheet cells and rows *)

Inductive value : Type :=
| VUndefined
| VNull
| VBool (b : bool)
| VNumber (n : Z)
| VString (s : string).

(** [String(v)] *)
Definition ToString (v : value) : string :=
  match v with
  | VUndefined => "undefined"
  | VNull => "null"
  | VBool true => "true"
  | VBool false => "false"
  | VNumber n => Text.numberToString n
  | VString s => s
  end.

(** Truthiness of [v] as tested by [v && ...]. *)
Definition ToBoolean (v : value) : bool :=
  match v with
  | VUndefined | VNull => false
  | VBool b => b
  | VNumber n => negb (n =? 0)
  | VString s => negb (s =? "")%string
  end.

(** [parseInt(v, 10) || 0]: NaN and zero both give 0. *)
Definition parseIntOrZero (v : value) : Z :=
  match Text.parseInt10 (ToString v) with
  | Some n => n
  | None => 0
  end.

Definition row : Type := list value.

(** [r[i]]: reading past the end of an array gives [undefined]. *)
Definition cell (r : row) (i : nat) : value := nth i r VUndefined.

(** ** Constants of Code.js (column indices are 1-based) *)

Definition UAT_COL_ID : nat := 1.
Definition UAT_COL_FULL_NAME : nat := 2.
Definition UAT_COL_LAST_NAME : nat := 3.
Definition UAT_COL_FIRST_NAME : nat := 4.
Definition UAT_COL_ACTIVITY_LEVEL : nat := 5.

Definition STATS_COL_PERSON_ID : nat := 1.
Definition STATS_COL_FIRST_NAME : nat := 3.
Definition STATS_COL_LAST_NAME : nat := 4.
Definition STATS_COL_QUARTER_EVENTS : nat := 5.
Definition STATS_COL_ACTIVITY_SCORE : nat := 12.

Definition TARGET_SUM_ACTIVE_MIN : Z := 3.
Definition TARGET_SUM_ACTIVE_MAX : Z := 11.
Definition CORE_K_MIN_VALUE : Z := 12.

(** ** The score switch of [updateActivityLevels] (lines 324-344)

    [None] is the [default] branch, which leaves [newCalculatedScoreK]
    unassigned and continues with the next person. *)

Definition newCalculatedScoreK
  (uatActivityLevelTrimmed : string) (current_E_val current_K_val : Z) : option Z :=
  if (uatActivityLevelTrimmed =? "inactive")%string then Some 1
  else if (uatActivityLevelTrimmed =? "active")%string then
    let points_to_add_active := 3 in
    let tentative_K_active := current_K_val + points_to_add_active in
    let target_sum_active := current_E_val + tentative_K_active in
    let target_sum_active := Z.max TARGET_SUM_ACTIVE_MIN target_sum_active in
    let target_sum_active := Z.min TARGET_SUM_ACTIVE_MAX target_sum_active in
    let newCalculatedScoreK := target_sum_active - current_E_val in
    Some (Z.max 0 newCalculatedScoreK)
  else if (uatActivityLevelTrimmed =? "core")%string then Some CORE_K_MIN_VALUE
  else None.

(** ** ECMAScript time values and the Date operations the script calls

    A Date object is its time value: milliseconds since the epoch, in UTC.
    The functions below are the abstract operations of the language
    specification (Day, TimeWithinDay, DayFromYear, YearFromTime,
    MonthFromTime, DateFromTime, MakeDay, MakeDate, LocalTime, UTC). *)

Module JsDate.

Definition msPerDay : Z := 86400000.

Definition Day (t : Z) : Z := t / msPerDay.
Definition TimeWithinDay (t : Z) : Z := t mod msPerDay.

Definition DaysInYear (y : Z) : Z :=
  if negb (y mod 4 =? 0) then 365
  else if negb (y mod 100 =? 0) then 366
  else if negb (y mod 400 =? 0) then 365
  else 366.

Definition DayFromYear (y : Z) : Z :=
  365 * (y - 1970) + (y - 1969) / 4 - (y - 1901) / 100 + (y - 1601) / 400.

(** The largest year [y] with [DayFromYear y <= d]: the mean year has
    146097/400 days, which places [y] within one of the estimate. *)
Definition YearFromDay (d : Z) : Z :=
  let y0 := 1970 + (400 * d) / 146097 in
  if DayFromYear (y0 + 1) <=? d then y0 + 1
  else if DayFromYear y0 <=? d then y0
  else y0 - 1.

Definition YearFromTime (t : Z) : Z := YearFromDay (Day t).

Definition InLeapYear (t : Z) : Z :=
  if DaysInYear (YearFromTime t) =? 366 then 1 else 0.

Definition DayWithinYear (t : Z) : Z := Day t - DayFromYear (YearFromTime t).

Definition MonthFromTime (t : Z) : Z :=
  let d := DayWithinYear t in
  let leap := InLeapYear t in
  if d <? 31 then 0
  else if d <? 59 + leap then 1
  else if d <? 90 + leap then 2
  else if d <? 120 + leap then 3
  else if d <? 151 + leap then 4
  else if d <? 181 + leap then 5
  else if d <? 212 + leap then 6
  else if d <? 243 + leap then 7
  else if d <? 273 + leap then 8
  else if d <? 304 + leap then 9
  else if d <? 334 + leap then 10
  else 11.

(** Day within the year on which month [m] (0..11) begins. *)
Definition monthStart (m leap : Z) : Z :=
  match m with
  | 0 => 0
  | 1 => 31
  | 2 => 59 + leap
  | 3 => 90 + leap
  | 4 => 120 + leap
  | 5 => 151 + leap
  | 6 => 181 + leap
  | 7 => 212 + leap
  | 8 => 243 + leap
  | 9 => 273 + leap
  | 10 => 304 + leap
  | _ => 334 + leap
  end.

Definition DateFromTime (t : Z) : Z :=
  DayWithinYear t - monthStart (MonthFromTime t) (InLeapYear t) + 1.

(** MakeDay: the day number of day 1 of month [month mod 12] of year
    [year + floor(month / 12)], plus [date - 1]. *)
Definition MakeDay (year month date : Z) : Z :=
  let ym := year + month / 12 in
  let mn := month mod 12 in
  let leap := if DaysInYear ym =? 366 then 1 else 0 in
  DayFromYear ym + monthStart mn leap + date - 1.

Definition MakeDate (day time : Z) : Z := day * msPerDay + time.

Definition LocalTime (tza t : Z) : Z := t + tza.
Definition UTC (tza t : Z) : Z := t - tza.

(** *** Methods of Date objects, in the script's zone [tza] *)

Definition getTime (d : Z) : Z := d.
Definition getFullYear (tza d : Z) : Z := YearFromTime (LocalTime tza d).
Definition getMonth (tza d : Z) : Z := MonthFromTime (LocalTime tza d).
Definition getDate (tza d : Z) : Z := DateFromTime (LocalTime tza d).

(** [d.setDate(dt)]: the new time value of [d]. *)
Definition setDate (tza d dt : Z) : Z :=
  let t := LocalTime tza d in
  let newDate :=
    MakeDate (MakeDay (YearFromTime t) (MonthFromTime t) dt) (TimeWithinDay t) in
  UTC tza newDate.

(** [new Date(year, month, date)]: local midnight of that day.  A year from
    0 to 99 stands for 1900 + year. *)
Definition twoDigitYear (year : Z) : bool := (0 <=? year) && (year <=? 99).

Definition constructorYear (year : Z) : Z :=
  if twoDigitYear year then 1900 + year else year.

Definition newDate (tza year month date : Z) : Z :=
  let yr := constructorYear year in
  UTC tza (MakeDate (MakeDay yr month date) 0).

(** *** [Utilities.formatDate(d, timeZone, "M/d/yyyy")] *)

(** Calendar fields (month 1..12, day of month, year) of [d] in the zone [tz]. *)
Definition fields (tz d : Z) : Z * Z * Z :=
  let t := LocalTime tz d in
  (MonthFromTime t + 1, DateFromTime t, YearFromTime t).

Fixpoint zeros (n : nat) : string :=
  match n with
  | O => EmptyString
  | S n' => String "0" (zeros n')
  end.

(** [yyyy]: the year of the era, left-padded with zeros to four digits. *)
Definition yyyy (y : Z) : string :=
  let s := Text.decimal (Z.to_N (if 1 <=? y then y else 1 - y)) in
  (zeros (4 - String.length s) ++ s)%string.

Definition render (f : Z * Z * Z) : string :=
  let '(M, d, y) := f in
  (Text.decimal (Z.to_N M) ++ "/" ++ Text.decimal (Z.to_N d) ++ "/" ++ yyyy y)%string.

Definition formatDate (d timeZone : Z) : string := render (fields timeZone d).

End JsDate.

(** ** [generateRecentDistinctDates] (lines 658-678) *)

Definition quarterStartMonth (month : Z) : Z :=
  if month <? 3 then 0
  else if month <? 6 then 3
  else if month <? 9 then 6
  else 9.

Definition quarterStartDate (tza referenceDate : Z) : Z :=
  let year := JsDate.getFullYear tza referenceDate in
  let month := JsDate.getMonth tza referenceDate in
  JsDate.newDate tza year (quarterStartMonth month) 1.

(** The [for] loop: [i] is the loop counter and [datesArray] the array built so
    far; [fuel] bounds the number of iterations still allowed. *)
Fixpoint datesLoop (tza N referenceDate timeZone quarterStartDate : Z)
  (fuel : nat) (i : Z) (datesArray : list string) : list string :=
  match fuel with
  | O => datesArray
  | S fuel' =>
      if i <? N then
        let eventDate := JsDate.getTime referenceDate in
        let eventDate := JsDate.setDate tza eventDate (JsDate.getDate tza referenceDate - i) in
        if JsDate.getTime eventDate <? JsDate.getTime quarterStartDate then datesArray
        else datesLoop tza N referenceDate timeZone quarterStartDate fuel' (i + 1)
               (datesArray ++ [JsDate.formatDate eventDate timeZone])
      else datesArray
  end.

Definition generateRecentDistinctDates (tza N referenceDate timeZone : Z) : list string :=
  if N <=? 0 then []
  else
    datesLoop tza N referenceDate timeZone (quarterStartDate tza referenceDate)
      (Z.to_nat N) 0 [].

(** ** Sheets of the community's stats spreadsheet

    A sheet is the list of its rows down to the last row with content, so
    [getLastRow] is its length; [getRange(r, 1, n, w).setValues(rows)]
    overwrites the first cells of rows [r .. r+n-1] and creates the rows that
    do not exist yet. *)

Definition sheet : Type := list row.

Definition getLastRow (s : sheet) : nat := List.length s.

(** [getDataRange().getValues()]: an empty sheet reads as one blank cell. *)
Definition getValues (s : sheet) : list row :=
  match s with
  | [] => [[VString ""]]
  | _ => s
  end.

Fixpoint overwriteRows (s : sheet) (rows : list row) : sheet :=
  match rows with
  | [] => s
  | new :: rows' =>
      match s with
      | [] => new :: overwriteRows [] rows'
      | old :: s' => (new ++ skipn (List.length new) old) :: overwriteRows s' rows'
      end
  end.

(** [skip] rows are kept (or created blank) above the first row written. *)
Fixpoint setValuesBelow (s : sheet) (skip : nat) (rows : list row) : sheet :=
  match skip with
  | O => overwriteRows s rows
  | S skip' =>
      match s with
      | [] => [] :: setValuesBelow [] skip' rows
      | r :: s' => r :: setValuesBelow s' skip' rows
      end
  end.

Definition setValues (s : sheet) (startRow : nat) (rows : list row) : sheet :=
  setValuesBelow s (startRow - 1) rows.

(** The two tabs of [statsSpreadsheets] that the script looks up by name;
    [None] is a tab that does not exist. *)
Record spreadsheet : Type := {
  attendanceStats : option sheet;
  eventAttendance : option sheet
}.

Definition eventAttendanceHeader : row :=
  [VString "Person ID"; VString "Full Name"; VString "Event";
   VString "First Name"; VString "Last Name";
   VNull; VNull; VNull; VNull; VNull;
   VString "Event Date";
   VNull; VNull;
   VString "Update Timestamp"].

(** ** The body of [updateActivityLevels] (lines 253-378) *)

(** [v && String(v).trim() !== ""] *)
Definition hasContent (v : value) : bool :=
  ToBoolean v && negb (Text.trim (ToString v) =? "")%string.

(** The test of lines 312-314 on one stats row. *)
Definition statsRowMatches (r : row) (personIdUAT firstNameUAT lastNameUAT : value) : bool :=
  (Text.trim (ToString (cell r (STATS_COL_PERSON_ID - 1)))
     =? Text.trim (ToString personIdUAT))%string
  && (Text.toLowerCase (Text.trim (ToString (cell r (STATS_COL_FIRST_NAME - 1))))
        =? Text.toLowerCase (Text.trim (ToString firstNameUAT)))%string
  && (Text.toLowerCase (Text.trim (ToString (cell r (STATS_COL_LAST_NAME - 1))))
        =? Text.toLowerCase (Text.trim (ToString lastNameUAT)))%string.

(** The scan of lines 308-320: the pair [(current_E_val, current_K_val)],
    taken from the first matching row, [(0, 0)] when the scan finds none. *)
Fixpoint currentStats (statsData : list row)
  (personIdUAT firstNameUAT lastNameUAT : value) : Z * Z :=
  match statsData with
  | [] => (0, 0)
  | r :: rest =>
      if statsRowMatches r personIdUAT firstNameUAT lastNameUAT then
        (parseIntOrZero (cell r (STATS_COL_QUARTER_EVENTS - 1)),
         parseIntOrZero (cell r (STATS_COL_ACTIVITY_SCORE - 1)))
      else currentStats rest personIdUAT firstNameUAT lastNameUAT
  end.

(** [a[i] = v] on an array: assignment past the end extends the array. *)
Fixpoint setIndex (a : row) (i : nat) (v : value) : row :=
  match i, a with
  | O, [] => [v]
  | O, _ :: a' => v :: a'
  | S i', [] => VUndefined :: setIndex [] i' v
  | S i', x :: a' => x :: setIndex a' i' v
  end.

(** Lines 351-358: one row of the 'Event Attendance' tab. *)
Definition newEventAttendanceRow
  (personIdUAT fullNameUAT firstNameUAT lastNameUAT : value)
  (eventCounter : Z) (eventDate formattedExecutionDate : string) : row :=
  let r := repeat VNull 14 in
  let r := setIndex r 0 personIdUAT in
  let r := setIndex r 1 fullNameUAT in
  let r := setIndex r 2
             (VString ("BASELINE ADJUSTMENT " ++ Text.numberToString eventCounter)%string) in
  let r := setIndex r 4 firstNameUAT in
  let r := setIndex r 5 lastNameUAT in
  let r := setIndex r 10 (VString eventDate) in
  setIndex r 13 (VString formattedExecutionDate).

(** The [for ... of eventDates] loop of lines 350-362. *)
Fixpoint rowsLoop (personIdUAT fullNameUAT firstNameUAT lastNameUAT : value)
  (formattedExecutionDate : string) (eventDates : list string)
  (eventCounter : Z) (rowsForEventAttendance : list row) : list row :=
  match eventDates with
  | [] => rowsForEventAttendance
  | eventDate :: rest =>
      rowsLoop personIdUAT fullNameUAT firstNameUAT lastNameUAT
        formattedExecutionDate rest (eventCounter + 1)
        (rowsForEventAttendance ++
           [newEventAttendanceRow personIdUAT fullNameUAT firstNameUAT lastNameUAT
              eventCounter eventDate formattedExecutionDate])
  end.

Definition rowsForEventAttendance
  (personIdUAT fullNameUAT firstNameUAT lastNameUAT : value)
  (eventDates : list string) (formattedExecutionDate : string) : list row :=
  rowsLoop personIdUAT fullNameUAT firstNameUAT lastNameUAT
    formattedExecutionDate eventDates 1 [].

(** What the loop over the people carries from one row to the next: the
    spreadsheet it writes to, its four counters and the console. *)
Record runState : Type := {
  statsSpreadsheets : spreadsheet;
  recordsToProcessCount : Z;
  recordsSkippedOrFailed : list string;
  recordsMissingDetailsUAT : Z;
  eventAttendancesLogged : Z;
  console : list string
}.

(** Lines 363-370: the rows go below the last row of the 'Event Attendance'
    tab. *)
Definition appendEventAttendance (ss : spreadsheet) (rows : list row) : spreadsheet :=
  match eventAttendance ss with
  | Some eventAttendanceSheet =>
      {| attendanceStats := attendanceStats ss;
         eventAttendance :=
           Some (setValues eventAttendanceSheet
                   (getLastRow eventAttendanceSheet + 1) rows) |}
  | None => ss
  end.

(** The double-quote character. *)
Definition dquote : string := String (ascii_of_nat 34) EmptyString.

Definition unknownLevelLog (activityLevelUAT firstNameUAT lastNameUAT : value) : string :=
  ("Unknown activity level " ++ dquote ++ ToString activityLevelUAT ++ dquote ++ " for "
    ++ ToString firstNameUAT ++ " " ++ ToString lastNameUAT ++ ".")%string.

Definition unknownLevelDetail (personIdUAT firstNameUAT lastNameUAT : value) : string :=
  (ToString firstNameUAT ++ " " ++ ToString lastNameUAT
    ++ " (ID: " ++ ToString personIdUAT ++ ") - Unknown Level")%string.

(** One iteration of the loop of line 293 on the row [r] of [uatData]. *)
Definition processPerson (tza today timeZone : Z) (formattedExecutionDate : string)
  (statsData : list row) (st : runState) (r : row) : runState :=
  let personIdUAT := cell r (UAT_COL_ID - 1) in
  let fullNameUAT := cell r (UAT_COL_FULL_NAME - 1) in
  let lastNameUAT := cell r (UAT_COL_LAST_NAME - 1) in
  let firstNameUAT := cell r (UAT_COL_FIRST_NAME - 1) in
  let activityLevelUAT := cell r (UAT_COL_ACTIVITY_LEVEL - 1) in
  if hasContent personIdUAT && hasContent lastNameUAT
     && hasContent firstNameUAT && hasContent activityLevelUAT then
    let '(current_E_val, current_K_val) :=
      currentStats statsData personIdUAT firstNameUAT lastNameUAT in
    let uatActivityLevelTrimmed :=
      Text.toLowerCase (Text.trim (ToString activityLevelUAT)) in
    match newCalculatedScoreK uatActivityLevelTrimmed current_E_val current_K_val with
    | None =>
        {| statsSpreadsheets := statsSpreadsheets st;
           recordsToProcessCount := recordsToProcessCount st + 1;
           recordsSkippedOrFailed :=
             recordsSkippedOrFailed st
               ++ [unknownLevelDetail personIdUAT firstNameUAT lastNameUAT];
           recordsMissingDetailsUAT := recordsMissingDetailsUAT st;
           eventAttendancesLogged := eventAttendancesLogged st;
           console :=
             console st ++ [unknownLevelLog activityLevelUAT firstNameUAT lastNameUAT] |}
    | Some newCalculatedScoreK =>
        let rows :=
          if 0 <? newCalculatedScoreK then
            rowsForEventAttendance personIdUAT fullNameUAT firstNameUAT lastNameUAT
              (generateRecentDistinctDates tza newCalculatedScoreK today timeZone)
              formattedExecutionDate
          else [] in
        if (0 <? List.length rows)%nat then
          {| statsSpreadsheets := appendEventAttendance (statsSpreadsheets st) rows;
             recordsToProcessCount := recordsToProcessCount st + 1;
             recordsSkippedOrFailed := recordsSkippedOrFailed st;
             recordsMissingDetailsUAT := recordsMissingDetailsUAT st;
             eventAttendancesLogged :=
               eventAttendancesLogged st + Z.of_nat (List.length rows);
             console := console st |}
        else
          {| statsSpreadsheets := statsSpreadsheets st;
             recordsToProcessCount := recordsToProcessCount st + 1;
             recordsSkippedOrFailed := recordsSkippedOrFailed st;
             recordsMissingDetailsUAT := recordsMissingDetailsUAT st;
             eventAttendancesLogged := eventAttendancesLogged st;
             console := console st |}
    end
  else if hasContent activityLevelUAT
          && negb (hasContent personIdUAT && hasContent lastNameUAT
                   && hasContent firstNameUAT) then
    {| statsSpreadsheets := statsSpreadsheets st;
       recordsToProcessCount := recordsToProcessCount st;
       recordsSkippedOrFailed := recordsSkippedOrFailed st;
       recordsMissingDetailsUAT := recordsMissingDetailsUAT st + 1;
       eventAttendancesLogged := eventAttendancesLogged st;
       console := console st |}
  else st.

(** How a run ends: with one of the two alerts raised before the loop, or
    with the counters that the closing message reports. *)
Inductive outcome : Type :=
| StatsTabNotFound
| NoDataRows
| ProcessingComplete (final : runState).

(** [updateActivityLevels] from line 253 on: the community's stats spreadsheet
    has been opened, [uatData] are the rows of the tracker from
    [UAT_START_DATA_ROW] down to its last row, [today] is the clock reading.
    The result is the spreadsheet after the run and the way the run ended. *)
Definition updateActivityLevels (tza : Z) (ss : spreadsheet) (uatData : list row)
  (today timeZone : Z) : spreadsheet * outcome :=
  match attendanceStats ss with
  | None => (ss, StatsTabNotFound)
  | Some statsSheet =>
      let ss :=
        match eventAttendance ss with
        | Some _ => ss
        | None =>
            {| attendanceStats := attendanceStats ss;
               eventAttendance := Some [eventAttendanceHeader] |}
        end in
      let statsData := getValues statsSheet in
      match uatData with
      | [] => (ss, NoDataRows)
      | _ =>
          let formattedExecutionDate := JsDate.formatDate today timeZone in
          let st0 :=
            {| statsSpreadsheets := ss;
               recordsToProcessCount := 0;
               recordsSkippedOrFailed := [];
               recordsMissingDetailsUAT := 0;
               eventAttendancesLogged := 0;
               console := [] |} in
          let final :=
            fold_left (processPerson tza today timeZone formattedExecutionDate statsData)
              uatData st0 in
          (statsSpreadsheets final, ProcessingComplete final)
      end
  end.

(** ** [getCommunityUrls] (lines 63-87)

    The Settings rows are compared with the community id by the loose
    equality [==] of the language, whose verdict on a number and a string
    goes through floating point; it is the parameter [looseEq] here. *)

Inductive urlsResult : Type :=
| NoCommunitySelected
| SettingsTabNotFound
| CommunityNotFound
| Urls (directoryUrl statsUrl : value).

Definition SETTINGS_COL_COMMUNITY_ID : nat := 2.
Definition SETTINGS_COL_ATTENDANCE_STATS_URL : nat := 3.
Definition SETTINGS_COL_DIRECTORY_URL : nat := 4.

(** The loop of lines 77-84 over [settingsData]. *)
Fixpoint settingsScan (looseEq : value -> value -> bool)
  (settingsData : list row) (communityId : value) : urlsResult :=
  match settingsData with
  | [] => CommunityNotFound
  | r :: rest =>
      if looseEq (cell r (SETTINGS_COL_COMMUNITY_ID - 1)) communityId then
        Urls (cell r (SETTINGS_COL_DIRECTORY_URL - 1))
             (cell r (SETTINGS_COL_ATTENDANCE_STATS_URL - 1))
      else settingsScan looseEq rest communityId
  end.

(** [settingsSheet] is [None] when the 'Settings' tab does not exist.  Every
    result other than [Urls] is the [null] of the script, returned after the
    alert that the constructor names. *)
Definition getCommunityUrls (looseEq : value -> value -> bool)
  (settingsSheet : option sheet) (communityId : value) : urlsResult :=
  if negb (ToBoolean communityId) then NoCommunitySelected
  else
    match settingsSheet with
    | None => SettingsTabNotFound
    | Some settings => settingsScan looseEq (getValues settings) communityId
    end.

(** ** [loadData]: the scan for the last row with a name and the directory
    loop (lines 132-192) *)

Definition UAT_START_DATA_ROW : nat := 7.

Definition DIR_COL_PERSON_ID : nat := 1.
Definition DIR_COL_LAST_NAME : nat := 3.
Definition DIR_COL_FIRST_NAME : nat := 4.

(** The descending loop of lines 138-144: [n] rows are still to be looked at,
    from index [n - 1] down; the result is [lastRowWithInput]. *)
Fixpoint lastRowScan (lastNameColValues firstNameColValues : list row) (n : nat) : nat :=
  match n with
  | O => UAT_START_DATA_ROW - 1
  | S i =>
      if hasContent (cell (nth i lastNameColValues []) 0)
         || hasContent (cell (nth i firstNameColValues []) 0)
      then UAT_START_DATA_ROW + i
      else lastRowScan lastNameColValues firstNameColValues i
  end.

Definition lastRowWithInput (lastNameColValues firstNameColValues : list row) : nat :=
  lastRowScan lastNameColValues firstNameColValues (List.length lastNameColValues).

(** The test of lines 171-172 on one directory row. *)
Definition directoryRowMatches (r : row) (lastNameToSearch firstNameToSearch : value) : bool :=
  (Text.toLowerCase (Text.trim (ToString (cell r (DIR_COL_LAST_NAME - 1))))
     =? Text.toLowerCase (Text.trim (ToString lastNameToSearch)))%string
  && (Text.toLowerCase (Text.trim (ToString (cell r (DIR_COL_FIRST_NAME - 1))))
        =? Text.toLowerCase (Text.trim (ToString firstNameToSearch)))%string.

(** The inner loop of lines 167-183: the id and the full name of the first
    directory row that matches, [None] when [foundMatchInDirectory] stays
    false. *)
Fixpoint directoryScan (directoryData : list row)
  (lastNameToSearch firstNameToSearch : value) : option (value * string) :=
  match directoryData with
  | [] => None
  | r :: rest =>
      if directoryRowMatches r lastNameToSearch firstNameToSearch then
        let personId := cell r (DIR_COL_PERSON_ID - 1) in
        let fullName :=
          (Text.trim (ToString (cell r (DIR_COL_FIRST_NAME - 1))) ++ " "
           ++ Text.trim (ToString (cell r (DIR_COL_LAST_NAME - 1))))%string in
        Some (personId, fullName)
      else directoryScan rest lastNameToSearch firstNameToSearch
  end.

(** What the loop of line 159 carries: the rows handed back to the sheet so
    far, the two counters and the list of names not found. *)
Record loadState : Type := {
  uatValuesUpdated : list row;
  namesProcessed : Z;
  namesFound : Z;
  namesNotFoundList : list string
}.

(** One iteration of the loop of line 159 on the row [r] of
    [uatValuesToUpdate] (columns A to D of the tracker). *)
Definition loadRow (directoryData : list row) (st : loadState) (r : row) : loadState :=
  let lastNameToSearch := cell r (UAT_COL_LAST_NAME - UAT_COL_ID) in
  let firstNameToSearch := cell r (UAT_COL_FIRST_NAME - UAT_COL_ID) in
  if hasContent lastNameToSearch && hasContent firstNameToSearch then
    match directoryScan directoryData lastNameToSearch firstNameToSearch with
    | Some (personId, fullName) =>
        let r := setIndex r (UAT_COL_ID - UAT_COL_ID) personId in
        let r := setIndex r (UAT_COL_FULL_NAME - UAT_COL_ID) (VString fullName) in
        {| uatValuesUpdated := uatValuesUpdated st ++ [r];
           namesProcessed := namesProcessed st + 1;
           namesFound := namesFound st + 1;
           namesNotFoundList := namesNotFoundList st |}
    | None =>
        let r := setIndex r (UAT_COL_ID - UAT_COL_ID) VNull in
        let r := setIndex r (UAT_COL_FULL_NAME - UAT_COL_ID) VNull in
        let r := setIndex r (UAT_COL_LAST_NAME - UAT_COL_ID) VNull in
        let r := setIndex r (UAT_COL_FIRST_NAME - UAT_COL_ID) VNull in
        {| uatValuesUpdated := uatValuesUpdated st ++ [r];
           namesProcessed := namesProcessed st + 1;
           namesFound := namesFound st;
           namesNotFoundList :=
             namesNotFoundList st
               ++ [(Text.trim (ToString firstNameToSearch) ++ " "
                    ++ Text.trim (ToString lastNameToSearch))%string] |}
    end
  else
    {| uatValuesUpdated := uatValuesUpdated st ++ [r];
       namesProcessed := namesProcessed st;
       namesFound := namesFound st;
       namesNotFoundList := namesNotFoundList st |}.

(** The loop of lines 159-192 over the rows read from the tracker. *)
Definition loadRows (directoryData uatValuesToUpdate : list row) : loadState :=
  fold_left (loadRow directoryData) uatValuesToUpdate
    {| uatValuesUpdated := [];
       namesProcessed := 0;
       namesFound := 0;
       namesNotFoundList := [] |}.

(** ** [resetActivityLevelValues]: the count of levels cleared and the loop
    over the stats sheet (lines 428-515) *)

(** [v !== ""] *)
Definition notEmptyString (v : value) : bool :=
  match v with
  | VString s => negb (s =? "")%string
  | _ => true
  end.

(** [v !== 0] *)
Definition notZero (v : value) : bool :=
  match v with
  | VNumber n => negb (n =? 0)
  | _ => true
  end.

(** Lines 432-434: the number of rows of the level column whose cell is not
    the empty string. *)
Fixpoint uatRowsCleared (levelColumn : list row) : Z :=
  match levelColumn with
  | [] => 0
  | r :: rest =>
      (if notEmptyString (cell r 0) then 1 else 0) + uatRowsCleared rest
  end.

(** [sheet.getRange(r, c).getValue()]: an empty cell reads as the empty
    string. *)
Definition getValue (s : sheet) (r c : nat) : value :=
  match nth_error s (r - 1) with
  | Some cells =>
      match nth_error cells (c - 1) with
      | Some v => v
      | None => VString ""
      end
  | None => VString ""
  end.

(** Replaces cell [i] of a row, filling the row with empty cells up to [i]. *)
Fixpoint setCellOfRow (cells : row) (i : nat) (v : value) : row :=
  match i, cells with
  | O, [] => [v]
  | O, _ :: cells' => v :: cells'
  | S i', [] => VString "" :: setCellOfRow [] i' v
  | S i', x :: cells' => x :: setCellOfRow cells' i' v
  end.

(** [sheet.getRange(r, c).setValue(v)] *)
Fixpoint setValueBelow (s : sheet) (skip c : nat) (v : value) : sheet :=
  match skip, s with
  | O, [] => [setCellOfRow [] (c - 1) v]
  | O, cells :: s' => setCellOfRow cells (c - 1) v :: s'
  | S skip', [] => [] :: setValueBelow [] skip' c v
  | S skip', cells :: s' => cells :: setValueBelow s' skip' c v
  end.

Definition setValue (s : sheet) (r c : nat) (v : value) : sheet :=
  setValueBelow s (r - 1) c v.

Record resetState : Type := {
  statsSheetNow : sheet;
  statsScoresResetCount : Z;
  uatPeopleProcessedForStatsReset : Z;
  notFoundInStatsSheet : list string
}.

(** The inner loop of lines 489-510 from index [j] on: [Some] of the sheet
    after the visit of the first matching row and of the new count, [None]
    when [foundMatchInStats] stays false.  The rows compared are those of
    the snapshot [statsData]; the score is read from the sheet itself. *)
Fixpoint resetScan (statsData : list row) (j : nat)
  (personIdUAT firstNameUAT lastNameUAT : value)
  (statsSheet : sheet) (statsScoresResetCount : Z) : option (sheet * Z) :=
  match statsData with
  | [] => None
  | r :: rest =>
      let statsSheetRowIndex := (j + 1)%nat in
      if statsRowMatches r personIdUAT firstNameUAT lastNameUAT then
        let currentStatsScoreValue :=
          getValue statsSheet statsSheetRowIndex STATS_COL_ACTIVITY_SCORE in
        if notZero currentStatsScoreValue && notEmptyString currentStatsScoreValue then
          Some (setValue statsSheet statsSheetRowIndex STATS_COL_ACTIVITY_SCORE (VNumber 0),
                statsScoresResetCount + 1)
        else if negb (notZero currentStatsScoreValue)
                || negb (notEmptyString currentStatsScoreValue) then
          Some (statsSheet, statsScoresResetCount + 1)
        else Some (statsSheet, statsScoresResetCount)
      else resetScan rest (j + 1) personIdUAT firstNameUAT lastNameUAT
             statsSheet statsScoresResetCount
  end.

Definition notFoundDetail (personIdUAT firstNameUAT lastNameUAT : value) : string :=
  (ToString firstNameUAT ++ " " ++ ToString lastNameUAT
    ++ " (ID: " ++ ToString personIdUAT ++ ")")%string.

(** One iteration of the loop of line 478 on the row [r] of
    [uatDataForMatching]. *)
Definition resetPerson (statsData : list row) (st : resetState) (r : row) : resetState :=
  let personIdUAT := cell r (UAT_COL_ID - 1) in
  let lastNameUAT := cell r (UAT_COL_LAST_NAME - 1) in
  let firstNameUAT := cell r (UAT_COL_FIRST_NAME - 1) in
  if hasContent personIdUAT && hasContent lastNameUAT && hasContent firstNameUAT then
    match resetScan statsData 0 personIdUAT firstNameUAT lastNameUAT
            (statsSheetNow st) (statsScoresResetCount st) with
    | Some (statsSheet, count) =>
        {| statsSheetNow := statsSheet;
           statsScoresResetCount := count;
           uatPeopleProcessedForStatsReset := uatPeopleProcessedForStatsReset st + 1;
           notFoundInStatsSheet := notFoundInStatsSheet st |}
    | None =>
        {| statsSheetNow := statsSheetNow st;
           statsScoresResetCount := statsScoresResetCount st;
           uatPeopleProcessedForStatsReset := uatPeopleProcessedForStatsReset st + 1;
           notFoundInStatsSheet :=
             notFoundInStatsSheet st
               ++ [notFoundDetail personIdUAT firstNameUAT lastNameUAT] |}
    end
  else st.

(** Lines 471-515: the snapshot [statsData] is read once, then the people of
    the tracker are gone through. *)
Definition resetScores (statsSheet : sheet) (uatDataForMatching : list row) : resetState :=
  fold_left (resetPerson (getValues statsSheet)) uatDataForMatching
    {| statsSheetNow := statsSheet;
       statsScoresResetCount := 0;
       uatPeopleProcessedForStatsReset := 0;
       notFoundInStatsSheet := [] |}.

(** ** [fetchAndPopulateNames]: the rows built from the source sheet
    (lines 558-634) *)

(** The columns (id, first name, last name) of the source, lines 560-585;
    [None] is the invalid source type. *)
Definition sourceColumns (sourceType : string) : option (nat * nat * nat) :=
  if (sourceType =? "STATS")%string then
    Some (STATS_COL_PERSON_ID, STATS_COL_FIRST_NAME, STATS_COL_LAST_NAME)
  else if (sourceType =? "DIRECTORY")%string then
    Some (DIR_COL_PERSON_ID, DIR_COL_FIRST_NAME, DIR_COL_LAST_NAME)
  else None.

(** The loop of lines 613-634 over the rows that are left, [outputData] being
    the array built so far. *)
Fixpoint fetchLoop (idCol firstNameCol lastNameCol : nat)
  (rows : list row) (outputData : list row) : list row :=
  match rows with
  | [] => outputData
  | r :: rest =>
      if (List.length r <? Nat.max idCol (Nat.max firstNameCol lastNameCol))%nat then
        fetchLoop idCol firstNameCol lastNameCol rest outputData
      else
        let personId := cell r (idCol - 1) in
        let firstName := cell r (firstNameCol - 1) in
        let lastName := cell r (lastNameCol - 1) in
        if hasContent personId && hasContent firstName && hasContent lastName then
          let fullName :=
            (Text.trim (ToString firstName) ++ " " ++ Text.trim (ToString lastName))%string in
          fetchLoop idCol firstNameCol lastNameCol rest
            (outputData ++ [[personId; VString fullName; lastName; firstName; VNull]])
        else fetchLoop idCol firstNameCol lastNameCol rest outputData
  end.

(** [outputData] of a source read as [sourceData]: the loop starts at index 1,
    and a source of fewer than two rows is left before the loop (line 604). *)
Definition fetchedNames (idCol firstNameCol lastNameCol : nat)
  (sourceData : list row) : list row :=
  if (List.length sourceData <? 2)%nat then []
  else fetchLoop idCol firstNameCol lastNameCol (tl sourceData) [].

(** ** Auxiliary definitions used in the statements and proofs *)

(** Value of a decimal numeral read after the digits accumulated in [acc]. *)
Fixpoint uintValue (d : Decimal.uint) (acc : Z) : Z :=
  match d with
  | Decimal.Nil => acc
  | Decimal.D0 l => uintValue l (10 * acc + 0)
  | Decimal.D1 l => uintValue l (10 * acc + 1)
  | Decimal.D2 l => uintValue l (10 * acc + 2)
  | Decimal.D3 l => uintValue l (10 * acc + 3)
  | Decimal.D4 l => uintValue l (10 * acc + 4)
  | Decimal.D5 l => uintValue l (10 * acc + 5)
  | Decimal.D6 l => uintValue l (10 * acc + 6)
  | Decimal.D7 l => uintValue l (10 * acc + 7)
  | Decimal.D8 l => uintValue l (10 * acc + 8)
  | Decimal.D9 l => uintValue l (10 * acc + 9)
  end.

(** The instants [t], [t - 1 day], ... : [n] of them. *)
Fixpoint walk (t : Z) (n : nat) : list Z :=
  match n with
  | O => []
  | S n' => t :: walk (t - JsDate.msPerDay) n'
  end.

(** Number of calendar days, in the script's zone, from the day of the
    quarter start that the script builds to the day of [referenceDate], both
    included: the number of candidates that the loop keeps at most. *)
Definition daysIntoQuarter (tza referenceDate : Z) : Z :=
  JsDate.Day (JsDate.LocalTime tza referenceDate)
  - JsDate.Day (JsDate.LocalTime tza (quarterStartDate tza referenceDate)) + 1.

(** Number of calendar days, in the zone [zone], from the first day of the
    calendar quarter that holds [t] to the day of [t], both included: read
    off the calendar fields of [t], with no use of the Date constructor. *)
Definition daysSinceQuarterStart (zone t : Z) : Z :=
  let local := JsDate.LocalTime zone t in
  JsDate.DayWithinYear local
  - JsDate.monthStart (quarterStartMonth (JsDate.MonthFromTime local))
      (JsDate.InLeapYear local)
  + 1.

(** Integers on which the script's double arithmetic is exact. *)
Definition inExactRange (n : Z) : Prop :=
  - 4503599627370496 <= n <= 4503599627370496.

(** Calendar order on (month, day, year) triples: [a] is on or before [b]. *)
Definition fieldsLeb (a b : Z * Z * Z) : bool :=
  let '(Ma, da, ya) := a in
  let '(Mb, db, yb) := b in
  (ya <? yb) || ((ya =? yb) && ((Ma <? Mb) || ((Ma =? Mb) && (da <=? db)))).

(** Day number of a (month, day, year) triple. *)
Definition dayOfFields (f : Z * Z * Z) : Z :=
  let '(M, d, y) := f in JsDate.MakeDay y (M - 1) d.

(** The test of line 300: the row has an id, both names and a level. *)
Definition processed (r : row) : bool :=
  hasContent (cell r (UAT_COL_ID - 1)) && hasContent (cell r (UAT_COL_LAST_NAME - 1))
  && hasContent (cell r (UAT_COL_FIRST_NAME - 1))
  && hasContent (cell r (UAT_COL_ACTIVITY_LEVEL - 1)).

(** [uatActivityLevelTrimmed] of the row. *)
Definition levelOf (r : row) : string :=
  Text.toLowerCase (Text.trim (ToString (cell r (UAT_COL_ACTIVITY_LEVEL - 1)))).

(** The pair (E, K) fetched for the person of the row. *)
Definition statsOf (statsData : list row) (r : row) : Z * Z :=
  currentStats statsData (cell r (UAT_COL_ID - 1)) (cell r (UAT_COL_FIRST_NAME - 1))
    (cell r (UAT_COL_LAST_NAME - 1)).

(** The score computed for the person of the row; [None] for an unknown level. *)
Definition scoreOf (statsData : list row) (r : row) : option Z :=
  newCalculatedScoreK (levelOf r) (fst (statsOf statsData r)) (snd (statsOf statsData r)).

(** The rows built for the person of the row [r] when the score is [k]. *)
Definition rowsOf (tza today timeZone : Z) (r : row) (k : Z) : list row :=
  rowsForEventAttendance (cell r (UAT_COL_ID - 1)) (cell r (UAT_COL_FULL_NAME - 1))
    (cell r (UAT_COL_FIRST_NAME - 1)) (cell r (UAT_COL_LAST_NAME - 1))
    (generateRecentDistinctDates tza k today timeZone)
    (JsDate.formatDate today timeZone).

(** The row test of the stats fetch as the specification words it (section
    6): a trimmed, case-insensitive comparison of all three of personId,
    firstName and lastName.  It is compared with [statsRowMatches] below. *)
Definition spec_statsRowMatches (r : row) (personId firstName lastName : value) : bool :=
  (Text.toLowerCase (Text.trim (ToString (cell r (STATS_COL_PERSON_ID - 1))))
     =? Text.toLowerCase (Text.trim (ToString personId)))%string
  && (Text.toLowerCase (Text.trim (ToString (cell r (STATS_COL_FIRST_NAME - 1))))
        =? Text.toLowerCase (Text.trim (ToString firstName)))%string
  && (Text.toLowerCase (Text.trim (ToString (cell r (STATS_COL_LAST_NAME - 1))))
        =? Text.toLowerCase (Text.trim (ToString lastName)))%string.

(** The stats fetch with the specification's row test and the (0, 0) default
    on a miss. *)
Fixpoint spec_currentStats (statsData : list row)
  (personId firstName lastName : value) : Z * Z :=
  match statsData with
  | [] => (0, 0)
  | r :: rest =>
      if spec_statsRowMatches r personId firstName lastName then
        (parseIntOrZero (cell r (STATS_COL_QUARTER_EVENTS - 1)),
         parseIntOrZero (cell r (STATS_COL_ACTIVITY_SCORE - 1)))
      else spec_currentStats rest personId firstName lastName
  end.

(** The state in which the loop over the people starts. *)
Definition initialState (ss : spreadsheet) : runState :=
  {| statsSpreadsheets := ss;
     recordsToProcessCount := 0;
     recordsSkippedOrFailed := [];
     recordsMissingDetailsUAT := 0;
     eventAttendancesLogged := 0;
     console := [] |}.

(** The rows that one iteration of the loop logs for the row [r] of the
    tracker: none when the row is not processed or its level is unknown. *)
Definition personRows (tza today timeZone : Z) (statsData : list row) (r : row)
  : list row :=
  if processed r then
    match scoreOf statsData r with
    | Some k => rowsOf tza today timeZone r k
    | None => []
    end
  else [].

(** The test of lines 372-375: a level is set but the id or a name is not. *)
Definition missingDetails (r : row) : bool :=
  hasContent (cell r (UAT_COL_ACTIVITY_LEVEL - 1))
  && negb (hasContent (cell r (UAT_COL_ID - 1))
           && hasContent (cell r (UAT_COL_LAST_NAME - 1))
           && hasContent (cell r (UAT_COL_FIRST_NAME - 1))).

(** A processed row whose level is not recognised. *)
Definition unknownLevel (statsData : list row) (r : row) : bool :=
  processed r && match scoreOf statsData r with Some _ => false | None => true end.

(** The source rows that [fetchAndPopulateNames] keeps: wide enough, with an
    id and both names. *)
Definition fetchKeeps (idCol firstNameCol lastNameCol : nat) (r : row) : bool :=
  negb (List.length r <? Nat.max idCol (Nat.max firstNameCol lastNameCol))%nat
  && (hasContent (cell r (idCol - 1)) && hasContent (cell r (firstNameCol - 1))
      && hasContent (cell r (lastNameCol - 1))).

(** The tracker row built from a source row. *)
Definition fetchedRow (idCol firstNameCol lastNameCol : nat) (r : row) : row :=
  [cell r (idCol - 1);
   VString (Text.trim (ToString (cell r (firstNameCol - 1))) ++ " "
            ++ Text.trim (ToString (cell r (lastNameCol - 1))))%string;
   cell r (lastNameCol - 1);
   cell r (firstNameCol - 1);
   VNull].

(** The test of lines 163-164: the tracker row has both names. *)
Definition hasBothNames (r : row) : bool :=
  hasContent (cell r (UAT_COL_LAST_NAME - UAT_COL_ID))
  && hasContent (cell r (UAT_COL_FIRST_NAME - UAT_COL_ID)).

(** The row that one iteration of the loop of [loadData] hands back for the
    tracker row [r]. *)
Definition loadedRow (directoryData : list row) (r : row) : row :=
  if hasBothNames r then
    match directoryScan directoryData (cell r (UAT_COL_LAST_NAME - UAT_COL_ID))
            (cell r (UAT_COL_FIRST_NAME - UAT_COL_ID)) with
    | Some (personId, fullName) =>
        setIndex (setIndex r (UAT_COL_ID - UAT_COL_ID) personId)
          (UAT_COL_FULL_NAME - UAT_COL_ID) (VString fullName)
    | None =>
        setIndex
          (setIndex
             (setIndex (setIndex r (UAT_COL_ID - UAT_COL_ID) VNull)
                (UAT_COL_FULL_NAME - UAT_COL_ID) VNull)
             (UAT_COL_LAST_NAME - UAT_COL_ID) VNull)
          (UAT_COL_FIRST_NAME - UAT_COL_ID) VNull
    end
  else r.

(** Row [i] of the two name columns read by [loadData] has a name. *)
Definition hasNameAt (lastNameColValues firstNameColValues : list row) (i : nat) : bool :=
  hasContent (cell (nth i lastNameColValues []) 0)
  || hasContent (cell (nth i firstNameColValues []) 0).

(** Index of the first row that matches the person, if any. *)
Fixpoint firstMatch (statsData : list row)
  (personIdUAT firstNameUAT lastNameUAT : value) : option nat :=
  match statsData with
  | [] => None
  | r :: rest =>
      if statsRowMatches r personIdUAT firstNameUAT lastNameUAT then Some O
      else option_map S (firstMatch rest personIdUAT firstNameUAT lastNameUAT)
  end.

(** [v === 0 || v === ""] *)
Definition zeroOrEmpty (v : value) : bool :=
  negb (notZero v) || negb (notEmptyString v).

(** The test of lines 483-485: the tracker row has an id and both names. *)
Definition hasIdentity (r : row) : bool :=
  hasContent (cell r (UAT_COL_ID - 1)) && hasContent (cell r (UAT_COL_LAST_NAME - 1))
  && hasContent (cell r (UAT_COL_FIRST_NAME - 1)).

(** A row of the stats sheet after a reset, against the row before: the same
    row, or the row with its twelfth cell, which it had, set to 0. *)
Definition rowReset (before after : row) : Prop :=
  after = before
  \/ ((11 < List.length before)%nat /\ after = setCellOfRow before 11 (VNumber 0)).

(** Texts of white space only. *)
Fixpoint allWhiteSpace (s : string) : bool :=
  match s with
  | String c r => Text.isWhiteSpace c && allWhiteSpace r
  | EmptyString => true
  end.

(** The text begins with a numeral: digits after at most one sign. *)
Definition beginsNumeral (s : string) : bool :=
  match s with
  | String "-" r => Text.startsWithDigit r
  | String "+" r => Text.startsWithDigit r
  | _ => Text.startsWithDigit s
  end.

(** The integer that a cell of the stats sheet stands for, as the
    specification words it (section 4.1): a number stands for itself; a text
    that begins, after white space, with the numeral of an integer stands for
    that integer, a negative one included, whatever follows the digits; a
    cell that does not begin with a numeral (a blank, a word, a missing
    cell) stands for 0.  It is compared with [parseIntOrZero] below. *)
Inductive spec_cellInteger : value -> Z -> Prop :=
| number_cell (n : Z) : spec_cellInteger (VNumber n) n
| numeral_cell (ws rest : string) (n : Z) :
    allWhiteSpace ws = true ->
    Text.startsWithDigit rest = false ->
    spec_cellInteger (VString (ws ++ Text.numberToString n ++ rest)) n
| other_cell (v : value) :
    beginsNumeral (Text.trimStart (ToString v)) = false ->
    spec_cellInteger v 0.

(* ================================================================== *)
(** * Part II: properties                                               *)
(* ================================================================== *)

(** ** The embedding on concrete values *)

Example trim_both_ends : Text.trim "  Ann Lee  " = "Ann Lee".
Proof. reflexivity. Qed.

Example lower_case_ascii : Text.toLowerCase "InActive" = "inactive".
Proof. reflexivity. Qed.

Example parseInt_leading_digits : Text.parseInt10 "  12 events" = Some 12.
Proof. reflexivity. Qed.

Example parseInt_blank : Text.parseInt10 "" = None.
Proof. reflexivity. Qed.

Example leap_day_2000 : JsDate.fields 0 951782400000 = (2, 29, 2000).
Proof. reflexivity. Qed.

Example day_after_leap_day_2000 : JsDate.fields 0 951868800000 = (3, 1, 2000).
Proof. reflexivity. Qed.

Example epoch_in_new_york : JsDate.formatDate 0 (-18000000) = "12/31/1969".
Proof. reflexivity. Qed.

Example setDate_crosses_month :
  JsDate.fields 0 (JsDate.setDate 0 1709251200000 (JsDate.getDate 0 1709251200000 - 1))
  = (2, 29, 2024).
Proof. reflexivity. Qed.

Example quarter_of_november :
  JsDate.fields 0 (quarterStartDate 0 1730600000000) = (10, 1, 2024).
Proof. reflexivity. Qed.

Example scenario_A : newCalculatedScoreK "active" 5 0 = Some 3.
Proof. reflexivity. Qed.

Example scenario_B : newCalculatedScoreK "active" 15 0 = Some 0.
Proof. reflexivity. Qed.

(** ** Decimal numerals are read back by [parseInt] *)

Section Numerals.

Lemma parseDigits_numeral d acc :
  Text.parseDigits (NilEmpty.string_of_uint d) acc = uintValue d acc.
Proof.
  revert acc; induction d; intros acc; cbn [NilEmpty.string_of_uint Text.parseDigits uintValue]; auto.
  all: match goal with
       | |- context [Text.digitValue ?c] =>
           let v := eval vm_compute in (Text.digitValue c) in
           change (Text.digitValue c) with v
       end; cbn iota; apply IHd.
Qed.

Lemma uintValue_pos d (acc : positive) :
  uintValue d (Z.pos acc) = Z.pos (Pos.of_uint_acc d acc).
Proof.
  revert acc; induction d; intros acc; cbn [uintValue Pos.of_uint_acc]; auto.
  all: try (rewrite <- IHd; f_equal; lia).
Qed.

Lemma uintValue_zero d : uintValue d 0 = Z.of_N (Pos.of_uint d).
Proof.
  induction d; cbn [uintValue Pos.of_uint]; auto.
  all: rewrite Z.mul_0_r, Z.add_0_l; auto.
  all: rewrite uintValue_pos; reflexivity.
Qed.

Lemma parseDigits_decimal n : Text.parseDigits (Text.decimal n) 0 = Z.of_N n.
Proof.
  unfold Text.decimal.
  rewrite parseDigits_numeral, uintValue_zero.
  change (Pos.of_uint (N.to_uint n)) with (N.of_uint (N.to_uint n)).
  now rewrite DecimalN.Unsigned.of_to.
Qed.

End Numerals.

(** ** [parseInt] on the numerals written by [Number.prototype.toString] *)

Lemma to_uint_nonnil n : N.to_uint n <> Decimal.Nil.
Proof.
  destruct n as [|p]; [discriminate|].
  apply DecimalPos.Unsigned.to_uint_nonnil.
Qed.

Lemma numeral_head d :
  d <> Decimal.Nil ->
  let s := NilEmpty.string_of_uint d in
  Text.trimStart s = s /\ Text.startsWithDigit s = true /\
  match s with
  | String "-" r => (-1, r)
  | String "+" r => (1, r)
  | _ => (1, s)
  end = (1, s).
Proof.
  destruct d; [congruence|..]; intros _; repeat split; reflexivity.
Qed.

Lemma parseInt10_decimal n : Text.parseInt10 (Text.decimal n) = Some (Z.of_N n).
Proof.
  unfold Text.parseInt10.
  destruct (numeral_head (N.to_uint n) (to_uint_nonnil n)) as (Ht & Hd & Hs).
  fold (Text.decimal n) in Ht, Hd, Hs.
  rewrite Ht, Hs, Hd, parseDigits_decimal. f_equal; lia.
Qed.

Lemma parseInt10_numberToString n : Text.parseInt10 (Text.numberToString n) = Some n.
Proof.
  unfold Text.numberToString.
  destruct (Z.ltb_spec n 0) as [Hn|Hn].
  - unfold Text.parseInt10.
    change ("-" ++ Text.decimal (Z.to_N (- n)))%string
      with (String "-" (Text.decimal (Z.to_N (- n)))).
    change (Text.trimStart (String "-" ?r)) with (String "-" r).
    cbn iota beta.
    destruct (numeral_head (N.to_uint (Z.to_N (- n))) (to_uint_nonnil _)) as (_ & Hd & _).
    fold (Text.decimal (Z.to_N (- n))) in Hd.
    rewrite Hd, parseDigits_decimal. f_equal; lia.
  - rewrite parseInt10_decimal. f_equal; lia.
Qed.

(** ** [parseInt] on texts that begin with a numeral, and on the others *)

Lemma trimStart_white_space ws s :
  allWhiteSpace ws = true -> Text.trimStart (ws ++ s) = Text.trimStart s.
Proof.
  induction ws as [|c ws IH]; intros H; [reflexivity|].
  cbn [allWhiteSpace] in H. apply andb_true_iff in H. destruct H as (Hc & Hws).
  cbn [append Text.trimStart]. rewrite Hc. now apply IH.
Qed.

Lemma parseDigits_stop rest acc :
  Text.startsWithDigit rest = false -> Text.parseDigits rest acc = acc.
Proof.
  destruct rest as [|c r]; [reflexivity|].
  cbn [Text.startsWithDigit Text.parseDigits].
  destruct (Text.digitValue c); [discriminate | reflexivity].
Qed.

Lemma parseDigits_numeral_app d rest acc :
  Text.startsWithDigit rest = false ->
  Text.parseDigits (NilEmpty.string_of_uint d ++ rest) acc = uintValue d acc.
Proof.
  intros Hrest.
  revert acc; induction d; intros acc;
    cbn [NilEmpty.string_of_uint append Text.parseDigits uintValue];
    [now apply parseDigits_stop|..].
  all: match goal with
       | |- context [Text.digitValue ?c] =>
           let v := eval vm_compute in (Text.digitValue c) in
           change (Text.digitValue c) with v
       end; cbn iota; apply IHd.
Qed.

Lemma parseDigits_decimal_app n rest :
  Text.startsWithDigit rest = false ->
  Text.parseDigits (Text.decimal n ++ rest) 0 = Z.of_N n.
Proof.
  intros Hrest. unfold Text.decimal.
  rewrite (parseDigits_numeral_app _ _ _ Hrest), uintValue_zero.
  change (Pos.of_uint (N.to_uint n)) with (N.of_uint (N.to_uint n)).
  now rewrite DecimalN.Unsigned.of_to.
Qed.

Lemma numeral_head_app d rest :
  d <> Decimal.Nil ->
  let s := (NilEmpty.string_of_uint d ++ rest)%string in
  Text.trimStart s = s /\ Text.startsWithDigit s = true /\
  match s with
  | String "-" r => (-1, r)
  | String "+" r => (1, r)
  | _ => (1, s)
  end = (1, s).
Proof.
  destruct d; [congruence|..]; intros _; repeat split; reflexivity.
Qed.

(** A numeral is read back whatever follows its digits. *)
Lemma parseInt10_numeral_then n rest :
  Text.startsWithDigit rest = false ->
  Text.parseInt10 (Text.numberToString n ++ rest) = Some n.
Proof.
  intros Hrest. unfold Text.numberToString.
  destruct (Z.ltb_spec n 0) as [Hn|Hn].
  - unfold Text.parseInt10.
    change (("-" ++ Text.decimal (Z.to_N (- n))) ++ rest)%string
      with (String "-" (Text.decimal (Z.to_N (- n)) ++ rest)).
    change (Text.trimStart (String "-" ?r)) with (String "-" r).
    cbn iota beta.
    destruct (numeral_head_app (N.to_uint (Z.to_N (- n))) rest (to_uint_nonnil _))
      as (_ & Hd & _).
    fold (Text.decimal (Z.to_N (- n))) in Hd.
    rewrite Hd, (parseDigits_decimal_app _ _ Hrest). f_equal; lia.
  - unfold Text.parseInt10.
    destruct (numeral_head_app (N.to_uint (Z.to_N n)) rest (to_uint_nonnil _))
      as (Ht & Hd & Hs).
    fold (Text.decimal (Z.to_N n)) in Ht, Hd, Hs.
    rewrite Ht, Hs, Hd, (parseDigits_decimal_app _ _ Hrest). f_equal; lia.
Qed.

Lemma parseInt10_white_space ws s :
  allWhiteSpace ws = true -> Text.parseInt10 (ws ++ s) = Text.parseInt10 s.
Proof.
  intros H. unfold Text.parseInt10. now rewrite (trimStart_white_space _ _ H).
Qed.

(** A text that does not begin with a numeral is not a number. *)
Lemma parseInt10_no_numeral s :
  beginsNumeral (Text.trimStart s) = false -> Text.parseInt10 s = None.
Proof.
  unfold Text.parseInt10, beginsNumeral.
  destruct (Text.trimStart s) as [|c r]; [reflexivity|].
  destruct c as [[] [] [] [] [] [] [] []]; cbv beta iota zeta;
    intros H; rewrite H; reflexivity.
Qed.

(** The code reads a stats cell as the specification says. *)
Lemma parseIntOrZero_reads v n : spec_cellInteger v n -> parseIntOrZero v = n.
Proof.
  intros H. unfold parseIntOrZero.
  destruct H as [n|ws rest n Hws Hrest|v Hv]; cbn [ToString].
  - now rewrite parseInt10_numberToString.
  - now rewrite (parseInt10_white_space _ _ Hws), (parseInt10_numeral_then _ _ Hrest).
  - now rewrite (parseInt10_no_numeral _ Hv).
Qed.

(** ** The score switch *)

Lemma score_active E K :
  newCalculatedScoreK "active" E K = Some (Z.max 0 (Z.min 11 (Z.max 3 (E + (K + 3))) - E)).
Proof. reflexivity. Qed.

(** C1. For the Active level the new score is
    max(0, clamp(E + K + 3, 3, 11) - E); hence for E >= 0 and K >= 0 it lies
    in [0, 11 - E] when E <= 11 and is exactly 0 when E > 11. *)
Theorem active_score_clamped (E K : Z) (HE : 0 <= E) (HK : 0 <= K) :
  exists k,
    newCalculatedScoreK "active" E K = Some k /\
    k = Z.max 0 (Z.min 11 (Z.max 3 (E + K + 3)) - E) /\
    (E <= 11 -> 0 <= k <= 11 - E) /\
    (11 < E -> k = 0).
Proof.
  exists (Z.max 0 (Z.min 11 (Z.max 3 (E + K + 3)) - E)).
  rewrite score_active.
  split; [f_equal; lia|].
  split; [reflexivity|].
  split; lia.
Qed.

Lemma active_score_clamped_witness :
  exists k,
    newCalculatedScoreK "active" 5 0 = Some k /\
    k = Z.max 0 (Z.min 11 (Z.max 3 (5 + 0 + 3)) - 5) /\
    (5 <= 11 -> 0 <= k <= 11 - 5) /\
    (11 < 5 -> k = 0).
Proof. apply (active_score_clamped 5 0); lia. Defined.

(** C4. The Inactive level gives the score 1 and the Core level the score 12
    whatever E and K are; the two branches do not read them.  So a person
    whose level reads inactive (or core) is scored 1 (or 12) whatever the
    stats sheet holds. *)
Theorem inactive_and_core_scores_fixed (E K : Z) (statsData : list row) (r : row) :
  newCalculatedScoreK "inactive" E K = Some 1
  /\ newCalculatedScoreK "core" E K = Some 12
  /\ (levelOf r = "inactive" -> scoreOf statsData r = Some 1)
  /\ (levelOf r = "core" -> scoreOf statsData r = Some 12).
Proof.
  split; [reflexivity|]. split; [reflexivity|].
  unfold scoreOf. split; intros ->; reflexivity.
Qed.

Lemma inactive_and_core_scores_fixed_witness :
  let statsData :=
    [[VString "a1"; VString "Ann Lee"; VString "Ann"; VString "Lee"; VString "n/a";
      VNull; VNull; VNull; VNull; VNull; VNull; VNumber (-40)]] in
  scoreOf statsData
    [VString "a1"; VString "Ann Lee"; VString "Lee"; VString "Ann"; VString " INACTIVE"]
  = Some 1
  /\ scoreOf statsData
       [VString "a1"; VString "Ann Lee"; VString "Lee"; VString "Ann"; VString "Core "]
     = Some 12.
Proof.
  intros statsData. split.
  - apply (inactive_and_core_scores_fixed 0 0 statsData
             [VString "a1"; VString "Ann Lee"; VString "Lee"; VString "Ann";
              VString " INACTIVE"]).
    reflexivity.
  - apply (inactive_and_core_scores_fixed 0 0 statsData
             [VString "a1"; VString "Ann Lee"; VString "Lee"; VString "Ann";
              VString "Core "]).
    reflexivity.
Defined.

(** ** The calendar: years, months and days of a time value *)

Module CalendarFacts.
Import JsDate.

Lemma DaysInYear_cases y : DaysInYear y = 365 \/ DaysInYear y = 366.
Proof.
  unfold DaysInYear.
  destruct (y mod 4 =? 0), (y mod 100 =? 0), (y mod 400 =? 0); cbn; auto.
Qed.

Lemma DayFromYear_succ y : DayFromYear (y + 1) = DayFromYear y + DaysInYear y.
Proof.
  unfold DayFromYear, DaysInYear.
  destruct (Z.eqb_spec (y mod 4) 0), (Z.eqb_spec (y mod 100) 0),
    (Z.eqb_spec (y mod 400) 0); cbn [negb];
    Z.div_mod_to_equations; lia.
Qed.

Lemma DayFromYear_lower y : 146097 * (y - 1970) - 800 <= 400 * DayFromYear y.
Proof. unfold DayFromYear. Z.div_mod_to_equations; lia. Qed.

Lemma DayFromYear_upper y : 400 * DayFromYear y <= 146097 * (y - 1970) + 800.
Proof. unfold DayFromYear. Z.div_mod_to_equations; lia. Qed.

Lemma DayFromYear_lt y1 y2 : y1 < y2 -> DayFromYear y1 < DayFromYear y2.
Proof.
  intros H.
  pose proof (DayFromYear_succ y1) as Hs.
  destruct (DaysInYear_cases y1) as [Hd|Hd]; rewrite Hd in Hs.
  all: destruct (Z.eq_dec y2 (y1 + 1)) as [->|Hne]; [lia|].
  all: pose proof (DayFromYear_upper (y1 + 1));
    pose proof (DayFromYear_lower y2);
    destruct (Z.eq_dec y2 (y1 + 2)) as [->|Hne2];
    [ pose proof (DayFromYear_succ (y1 + 1)) as Hs2;
      replace (y1 + 1 + 1) with (y1 + 2) in Hs2 by lia;
      destruct (DaysInYear_cases (y1 + 1)); lia
    | lia ].
Qed.

(** [YearFromDay d] is the year in which day [d] falls. *)
Lemma YearFromDay_spec d :
  DayFromYear (YearFromDay d) <= d < DayFromYear (YearFromDay d + 1).
Proof.
  unfold YearFromDay.
  set (y0 := 1970 + 400 * d / 146097).
  assert (H0 : 146097 * (y0 - 1970) <= 400 * d < 146097 * (y0 - 1970) + 146097).
  { unfold y0. Z.div_mod_to_equations. lia. }
  pose proof (DayFromYear_lower (y0 + 2)).
  pose proof (DayFromYear_upper (y0 - 1)).
  destruct (Z.leb_spec (DayFromYear (y0 + 1)) d).
  - split; [lia|]. replace (y0 + 1 + 1) with (y0 + 2) by lia. lia.
  - destruct (Z.leb_spec (DayFromYear y0) d).
    + lia.
    + replace (y0 - 1 + 1) with y0 by lia. lia.
Qed.

Lemma YearFromDay_unique d y :
  DayFromYear y <= d < DayFromYear (y + 1) -> YearFromDay d = y.
Proof.
  intros Hy.
  pose proof (YearFromDay_spec d) as Hs.
  destruct (Z.lt_trichotomy (YearFromDay d) y) as [Hlt|[Heq|Hgt]]; auto.
  - assert (DayFromYear (YearFromDay d + 1) <= DayFromYear y).
    { destruct (Z.eq_dec (YearFromDay d + 1) y) as [->|]; [lia|].
      apply Z.lt_le_incl, DayFromYear_lt; lia. }
    lia.
  - assert (DayFromYear (y + 1) <= DayFromYear (YearFromDay d)).
    { destruct (Z.eq_dec (y + 1) (YearFromDay d)) as [->|]; [lia|].
      apply Z.lt_le_incl, DayFromYear_lt; lia. }
    lia.
Qed.

Lemma InLeapYear_cases t : InLeapYear t = 0 \/ InLeapYear t = 1.
Proof. unfold InLeapYear. destruct (_ =? _); auto. Qed.

Lemma DayWithinYear_range t : 0 <= DayWithinYear t < 365 + InLeapYear t.
Proof.
  unfold DayWithinYear, InLeapYear, YearFromTime.
  pose proof (YearFromDay_spec (Day t)) as Hs.
  rewrite DayFromYear_succ in Hs.
  destruct (DaysInYear_cases (YearFromDay (Day t))) as [Hd|Hd]; rewrite Hd in *;
    cbn; lia.
Qed.

Lemma MonthFromTime_range t : 0 <= MonthFromTime t <= 11.
Proof.
  unfold MonthFromTime.
  repeat match goal with |- context [if ?b then _ else _] => destruct b end; lia.
Qed.

(** The month of [t] has begun on or before the day of [t]. *)
Lemma monthStart_reached t :
  monthStart (MonthFromTime t) (InLeapYear t) <= DayWithinYear t.
Proof.
  pose proof (DayWithinYear_range t) as Hr.
  destruct (InLeapYear_cases t) as [Hl|Hl]; rewrite Hl in *.
  all: unfold MonthFromTime; rewrite Hl.
  all: repeat match goal with
         | |- context [if ?a <? ?b then _ else _] => destruct (Z.ltb_spec a b)
         end; cbn [monthStart]; lia.
Qed.

Lemma DateFromTime_pos t : 1 <= DateFromTime t.
Proof. unfold DateFromTime. pose proof (monthStart_reached t). lia. Qed.

(** MakeDay inverts the calendar fields, also when the day of the month is
    moved out of the month. *)
Lemma MakeDay_fields t k :
  MakeDay (YearFromTime t) (MonthFromTime t) (DateFromTime t + k) = Day t + k.
Proof.
  pose proof (MonthFromTime_range t) as Hm.
  unfold MakeDay.
  rewrite Z.div_small, Z.mod_small, Z.add_0_r by lia.
  fold (InLeapYear t).
  unfold DateFromTime, DayWithinYear. lia.
Qed.

(** Months that begin later in the year begin on later days. *)
Lemma monthStart_mono m1 m2 leap :
  0 <= m1 <= m2 -> m2 <= 11 -> 0 <= leap <= 1 ->
  monthStart m1 leap <= monthStart m2 leap.
Proof.
  intros H1 H2 Hl.
  assert (Hc1 : m1 = 0 \/ m1 = 1 \/ m1 = 2 \/ m1 = 3 \/ m1 = 4 \/ m1 = 5 \/ m1 = 6
                \/ m1 = 7 \/ m1 = 8 \/ m1 = 9 \/ m1 = 10 \/ m1 = 11) by lia.
  assert (Hc2 : m2 = 0 \/ m2 = 1 \/ m2 = 2 \/ m2 = 3 \/ m2 = 4 \/ m2 = 5 \/ m2 = 6
                \/ m2 = 7 \/ m2 = 8 \/ m2 = 9 \/ m2 = 10 \/ m2 = 11) by lia.
  repeat (destruct Hc1 as [->|Hc1]); try subst m1;
    repeat (destruct Hc2 as [->|Hc2]); try subst m2; cbn [monthStart]; lia.
Qed.

(** A time value that is moved back by [i] days lies before the local
    midnight [q] that opens day [dq] when more than [Day - dq] days are
    taken off. *)
Lemma before_local_midnight_iff tza t q i :
  LocalTime tza q = Day (LocalTime tza q) * msPerDay ->
  t - i * msPerDay < q
  <-> Day (LocalTime tza t) - Day (LocalTime tza q) + 1 <= i.
Proof.
  unfold LocalTime, Day, msPerDay. intros Hq.
  Z.div_mod_to_equations. lia.
Qed.

Ltac month_cases m :=
  let H := fresh "Hc" in
  assert (H : m = 0 \/ m = 1 \/ m = 2 \/ m = 3 \/ m = 4 \/ m = 5 \/ m = 6
              \/ m = 7 \/ m = 8 \/ m = 9 \/ m = 10 \/ m = 11) by lia;
  repeat (destruct H as [->|H]); try subst m.

Ltac month_cascade :=
  repeat match goal with
    | |- context [if ?a <? ?b then _ else _] => destruct (Z.ltb_spec a b)
    end.

(** A month that has begun by the day of [t] is not after the month of [t]. *)
Lemma MonthFromTime_ge t m :
  0 <= m <= 11 -> monthStart m (InLeapYear t) <= DayWithinYear t ->
  m <= MonthFromTime t.
Proof.
  intros Hm Hs.
  destruct (InLeapYear_cases t) as [Hl|Hl]; rewrite Hl in Hs;
    unfold MonthFromTime; rewrite Hl.
  all: month_cases m; cbn [monthStart] in Hs; month_cascade; lia.
Qed.

(** The fields of the first day of a month. *)
Lemma month_start_fields t m :
  0 <= m <= 11 -> DayWithinYear t = monthStart m (InLeapYear t) ->
  MonthFromTime t = m /\ DateFromTime t = 1.
Proof.
  intros Hm Hs.
  assert (MonthFromTime t = m) as HM.
  { destruct (InLeapYear_cases t) as [Hl|Hl]; rewrite Hl in Hs;
      unfold MonthFromTime; rewrite Hl, Hs.
    all: month_cases m; reflexivity. }
  split; [exact HM|].
  unfold DateFromTime. rewrite HM, Hs. lia.
Qed.

Lemma monthStart_bounds m leap :
  0 <= m <= 11 -> 0 <= leap <= 1 -> 0 <= monthStart m leap <= 334 + leap.
Proof. intros Hm Hl. month_cases m; cbn [monthStart]; lia. Qed.

(** MakeDay meets its specification: the day it returns for day 1 of a month
    has that year, that month and day 1 as its fields. *)
Lemma MakeDay_first_of_month year month :
  let t := MakeDate (MakeDay year month 1) 0 in
  YearFromTime t = year + month / 12
  /\ MonthFromTime t = month mod 12
  /\ DateFromTime t = 1.
Proof.
  intros t.
  set (ym := year + month / 12). set (mn := month mod 12).
  assert (Hmn : 0 <= mn <= 11)
    by (unfold mn; pose proof (Z.mod_pos_bound month 12 ltac:(lia)); lia).
  set (leap := if DaysInYear ym =? 366 then 1 else 0).
  assert (Hleap : 0 <= leap <= 1) by (unfold leap; destruct (_ =? _); lia).
  assert (Hday : Day t = DayFromYear ym + monthStart mn leap).
  { unfold t, MakeDate, Day, MakeDay. fold ym mn leap.
    rewrite Z.add_0_r, Z.div_mul by discriminate. lia. }
  assert (Hy : YearFromTime t = ym).
  { unfold YearFromTime. rewrite Hday. apply YearFromDay_unique.
    rewrite DayFromYear_succ.
    pose proof (monthStart_bounds mn leap Hmn Hleap) as Hb.
    assert (Hn : DaysInYear ym = 365 + leap).
    { unfold leap. destruct (DaysInYear_cases ym) as [Hd|Hd]; rewrite Hd; reflexivity. }
    lia. }
  assert (Hl : InLeapYear t = leap) by (unfold InLeapYear, leap; now rewrite Hy).
  assert (Hw : DayWithinYear t = monthStart mn (InLeapYear t)).
  { unfold DayWithinYear. rewrite Hy, Hl, Hday. lia. }
  destruct (month_start_fields t mn Hmn Hw) as (HM & Hd).
  now repeat split.
Qed.

Lemma Day_back t i : Day (t - i * msPerDay) = Day t - i.
Proof.
  unfold Day.
  replace (t - i * msPerDay) with (t + (- i) * msPerDay) by lia.
  rewrite Z.div_add by discriminate. lia.
Qed.

Lemma DayFromYear_le y1 y2 : y1 <= y2 -> DayFromYear y1 <= DayFromYear y2.
Proof.
  intros H. destruct (Z.eq_dec y1 y2) as [->|Hne]; [lia|].
  pose proof (DayFromYear_lt y1 y2 ltac:(lia)). lia.
Qed.

(** Day 1 of a month is not before the first day of its year. *)
Lemma MakeDay_first_ge year month :
  0 <= month <= 11 -> DayFromYear year <= MakeDay year month 1.
Proof.
  intros Hm. unfold MakeDay.
  rewrite Z.div_small, Z.mod_small, Z.add_0_r by lia.
  set (leap := if DaysInYear year =? 366 then 1 else 0).
  assert (Hleap : 0 <= leap <= 1) by (unfold leap; destruct (_ =? _); lia).
  pose proof (monthStart_bounds month leap Hm Hleap). lia.
Qed.

Lemma constructorYear_plain year :
  twoDigitYear year = false -> constructorYear year = year.
Proof. intros H. unfold constructorYear. now rewrite H. Qed.

Lemma twoDigitYear_true year :
  twoDigitYear year = true <-> 0 <= year <= 99.
Proof. unfold twoDigitYear. rewrite andb_true_iff, !Z.leb_le. reflexivity. Qed.

End CalendarFacts.

(** ** The date walk of [generateRecentDistinctDates] *)

Lemma quarterStartMonth_cases m :
  0 <= m <= 11 ->
  (quarterStartMonth m = 0 \/ quarterStartMonth m = 3 \/ quarterStartMonth m = 6
   \/ quarterStartMonth m = 9) /\ quarterStartMonth m <= m < quarterStartMonth m + 3.
Proof.
  intros Hm. unfold quarterStartMonth.
  destruct (Z.ltb_spec m 3); [lia|].
  destruct (Z.ltb_spec m 6); [lia|].
  destruct (Z.ltb_spec m 9); lia.
Qed.

Section DateWalk.
Import JsDate CalendarFacts.

Variable tza : Z.
Variable referenceDate : Z.

Let year := getFullYear tza referenceDate.
Let month := getMonth tza referenceDate.
Let qs := quarterStartDate tza referenceDate.
Let D := daysIntoQuarter tza referenceDate.

(** [setDate(getDate() - i)] moves the date back by exactly [i] days. *)
Lemma setDate_back i :
  setDate tza referenceDate (getDate tza referenceDate - i)
  = referenceDate - i * msPerDay.
Proof.
  unfold setDate, getDate, UTC, MakeDate.
  set (t := LocalTime tza referenceDate).
  replace (DateFromTime t - i) with (DateFromTime t + - i) by lia.
  rewrite MakeDay_fields.
  unfold Day, TimeWithinDay.
  pose proof (Z.div_mod t msPerDay ltac:(discriminate)).
  unfold t, LocalTime in *. lia.
Qed.

(** The quarter start is local midnight of day 1 of the quarter's month. *)
Lemma quarterStart_local :
  LocalTime tza qs
  = MakeDay (constructorYear year) (quarterStartMonth month) 1 * msPerDay.
Proof.
  unfold qs, quarterStartDate, newDate, UTC, MakeDate, LocalTime.
  fold year month. lia.
Qed.

Lemma quarterStart_day :
  Day (LocalTime tza qs) = MakeDay (constructorYear year) (quarterStartMonth month) 1.
Proof.
  rewrite quarterStart_local. unfold Day.
  apply Z.div_mul. discriminate.
Qed.

Lemma MakeDay_quarter :
  MakeDay year (quarterStartMonth month) 1
  = DayFromYear year
    + monthStart (quarterStartMonth month) (InLeapYear (LocalTime tza referenceDate)).
Proof.
  pose proof (MonthFromTime_range (LocalTime tza referenceDate)) as Hm.
  fold (getMonth tza referenceDate) in Hm. fold month in Hm.
  destruct (quarterStartMonth_cases month Hm) as (Hq & _).
  unfold MakeDay.
  rewrite Z.div_small, Z.mod_small, Z.add_0_r by lia.
  unfold InLeapYear. fold (getFullYear tza referenceDate). fold year. lia.
Qed.

(** Outside the years 0..99 the quarter start is not after the reference
    date. *)
Lemma quarterStart_day_le :
  twoDigitYear year = false ->
  Day (LocalTime tza qs) <= Day (LocalTime tza referenceDate).
Proof.
  intros Hyear.
  rewrite quarterStart_day, (constructorYear_plain _ Hyear), MakeDay_quarter.
  set (t := LocalTime tza referenceDate).
  pose proof (MonthFromTime_range t) as Hm.
  pose proof (monthStart_reached t) as Hr.
  destruct (quarterStartMonth_cases (MonthFromTime t) Hm) as (Hq & Hle).
  pose proof (monthStart_mono (quarterStartMonth (MonthFromTime t)) (MonthFromTime t)
                (InLeapYear t)) as Hmono.
  destruct (InLeapYear_cases t).
  all: unfold month, getMonth, year, getFullYear; fold t.
  all: unfold DayWithinYear in Hr; lia.
Qed.

Lemma daysIntoQuarter_pos : twoDigitYear year = false -> 1 <= D.
Proof.
  intros Hyear. unfold D, daysIntoQuarter. fold qs.
  pose proof (quarterStart_day_le Hyear). lia.
Qed.

(** In the years 0..99 the quarter start is that of the year 19xx, after the
    reference date. *)
Lemma daysIntoQuarter_two_digit : twoDigitYear year = true -> D <= 0.
Proof.
  intros Hyear. unfold D, daysIntoQuarter. fold qs.
  rewrite quarterStart_day.
  pose proof (MonthFromTime_range (LocalTime tza referenceDate)) as Hm.
  fold (getMonth tza referenceDate) in Hm. fold month in Hm.
  destruct (quarterStartMonth_cases month Hm) as (Hq & _).
  pose proof (MakeDay_first_ge (constructorYear year) (quarterStartMonth month)
                ltac:(lia)) as Hge.
  pose proof (YearFromDay_spec (Day (LocalTime tza referenceDate))) as Hs.
  fold (YearFromTime (LocalTime tza referenceDate)) in Hs.
  fold (getFullYear tza referenceDate) in Hs. fold year in Hs.
  unfold constructorYear in Hge |- *. rewrite Hyear in Hge |- *.
  apply twoDigitYear_true in Hyear.
  pose proof (DayFromYear_le (year + 1) (1900 + year) ltac:(lia)).
  lia.
Qed.

(** The candidate of iteration [i] is before the quarter start exactly when
    [i] has reached the number of days into the quarter. *)
Lemma before_quarter_iff i :
  referenceDate - i * msPerDay < qs <-> D <= i.
Proof.
  unfold D, daysIntoQuarter. fold qs.
  apply (before_local_midnight_iff tza referenceDate qs i).
  rewrite quarterStart_day. apply quarterStart_local.
Qed.

Variables N timeZone : Z.

Lemma datesLoop_spec fuel i datesArray :
  0 <= i ->
  datesLoop tza N referenceDate timeZone qs fuel i datesArray
  = datesArray
    ++ map (fun t => formatDate t timeZone)
         (walk (referenceDate - i * msPerDay)
            (Nat.min fuel (Z.to_nat (Z.min N D - i)))).
Proof.
  revert i datesArray; induction fuel as [|fuel IH]; intros i datesArray Hi.
  - cbn. now rewrite app_nil_r.
  - cbn [datesLoop]. unfold getTime. rewrite setDate_back.
    destruct (Z.ltb_spec i N) as [HiN|HiN].
    + destruct (Z.ltb_spec (referenceDate - i * msPerDay) qs) as [Hb|Hb].
      * apply before_quarter_iff in Hb.
        replace (Z.to_nat (Z.min N D - i)) with O by lia.
        rewrite Nat.min_0_r. cbn. now rewrite app_nil_r.
      * assert (i < D) by (pose proof (before_quarter_iff i); lia).
        rewrite IH by lia.
        replace (Z.to_nat (Z.min N D - i)) with (S (Z.to_nat (Z.min N D - (i + 1))))
          by lia.
        cbn [Nat.min walk map]. rewrite <- app_assoc. cbn [app].
        do 4 f_equal. lia.
    + replace (Z.to_nat (Z.min N D - i)) with O by lia.
      rewrite Nat.min_0_r. cbn. now rewrite app_nil_r.
Qed.

(** The dates returned are those of the first [min N D] days of the walk. *)
Lemma generateRecentDistinctDates_walk :
  generateRecentDistinctDates tza N referenceDate timeZone
  = map (fun t => formatDate t timeZone) (walk referenceDate (Z.to_nat (Z.min N D))).
Proof.
  unfold generateRecentDistinctDates.
  destruct (Z.leb_spec N 0) as [HN|HN].
  - replace (Z.to_nat (Z.min N D)) with O by lia. reflexivity.
  - fold qs. rewrite datesLoop_spec by lia.
    cbn [app]. rewrite Z.mul_0_l, !Z.sub_0_r.
    f_equal. f_equal. lia.
Qed.

End DateWalk.

Section QuarterFields.
Import JsDate CalendarFacts.

Variable tza : Z.
Variable referenceDate : Z.

Let year := getFullYear tza referenceDate.
Let month := getMonth tza referenceDate.
Let qs := quarterStartDate tza referenceDate.
Let D := daysIntoQuarter tza referenceDate.
Let leap := InLeapYear (LocalTime tza referenceDate).

Hypothesis Hyear : twoDigitYear (getFullYear tza referenceDate) = false.

Lemma month_range : 0 <= month <= 11.
Proof. apply MonthFromTime_range. Qed.

Lemma leap_range : 0 <= leap <= 1.
Proof. unfold leap. destruct (InLeapYear_cases (LocalTime tza referenceDate)); lia. Qed.

Lemma quarter_month_range : 0 <= quarterStartMonth month <= 11.
Proof.
  destruct (quarterStartMonth_cases month month_range) as (Hq & _). lia.
Qed.

(** Days from the quarter start to the reference date fall in the
    reference date's year. *)
Lemma quarter_day_year e :
  Day (LocalTime tza qs) <= e <= Day (LocalTime tza referenceDate) ->
  YearFromDay e = year.
Proof.
  intros He. apply YearFromDay_unique.
  unfold qs in He.
  rewrite quarterStart_day, (constructorYear_plain _ Hyear), MakeDay_quarter in He.
  pose proof (monthStart_bounds (quarterStartMonth (getMonth tza referenceDate))
                (InLeapYear (LocalTime tza referenceDate))
                quarter_month_range leap_range).
  pose proof (YearFromDay_spec (Day (LocalTime tza referenceDate))) as Hs.
  fold (YearFromTime (LocalTime tza referenceDate)) in Hs.
  fold (getFullYear tza referenceDate) in Hs.
  unfold year. lia.
Qed.

Lemma InLeapYear_of_year t :
  YearFromTime t = year -> InLeapYear t = leap.
Proof.
  intros Hy. unfold leap, InLeapYear. rewrite Hy. reflexivity.
Qed.

(** The quarter start reads, in the script's zone, as midnight of day 1 of
    the quarter's first month in the reference date's year. *)
Lemma quarterStart_fields :
  fields tza qs = (quarterStartMonth month + 1, 1, year)
  /\ TimeWithinDay (LocalTime tza qs) = 0.
Proof.
  assert (Hy : YearFromTime (LocalTime tza qs) = year).
  { apply quarter_day_year.
    pose proof (quarterStart_day_le tza referenceDate Hyear). unfold qs. lia. }
  pose proof (InLeapYear_of_year _ Hy) as Hl.
  assert (Hw : DayWithinYear (LocalTime tza qs)
               = monthStart (quarterStartMonth month) (InLeapYear (LocalTime tza qs))).
  { unfold DayWithinYear. rewrite Hy, Hl. unfold qs.
    rewrite quarterStart_day, (constructorYear_plain _ Hyear), MakeDay_quarter.
    fold year month leap. lia. }
  destruct (month_start_fields _ _ quarter_month_range Hw) as (HM & Hd).
  split.
  - unfold fields. now rewrite HM, Hd, Hy.
  - unfold TimeWithinDay, qs. rewrite quarterStart_local. apply Z.mod_mul. discriminate.
Qed.

(** The dates of the walk, read in the script's zone, lie in the reference
    date's year, not before the quarter's first month. *)
Lemma walk_fields_in_quarter i :
  0 <= i < D ->
  fieldsLeb (quarterStartMonth month + 1, 1, year)
    (fields tza (referenceDate - i * msPerDay)) = true.
Proof.
  intros Hi.
  set (t := LocalTime tza (referenceDate - i * msPerDay)).
  assert (Ht : t = LocalTime tza referenceDate - i * msPerDay)
    by (unfold t, LocalTime; lia).
  assert (Hday : Day t = Day (LocalTime tza referenceDate) - i)
    by (rewrite Ht; apply Day_back).
  assert (Hy : YearFromTime t = year).
  { apply quarter_day_year. rewrite Hday.
    unfold D, daysIntoQuarter in Hi. fold qs in Hi. lia. }
  pose proof (InLeapYear_of_year _ Hy) as Hl.
  assert (Hm : quarterStartMonth month <= MonthFromTime t).
  { apply MonthFromTime_ge; [apply quarter_month_range|].
    unfold DayWithinYear. rewrite Hy, Hl, Hday.
    unfold D, daysIntoQuarter in Hi.
    unfold qs in Hi.
    rewrite quarterStart_day, (constructorYear_plain _ Hyear), MakeDay_quarter in Hi.
    fold year month leap in Hi. lia. }
  pose proof (DateFromTime_pos t) as Hd.
  unfold fields. fold t. rewrite Hy. unfold fieldsLeb.
  rewrite Z.eqb_refl, Z.ltb_irrefl. cbn [orb andb].
  destruct (Z.ltb_spec (quarterStartMonth month + 1) (MonthFromTime t + 1)); [easy|].
  cbn [orb].
  apply andb_true_iff; split; [apply Z.eqb_eq | apply Z.leb_le]; lia.
Qed.

End QuarterFields.

(** ** What [generateRecentDistinctDates] returns *)

Lemma walk_seq t n :
  walk t n = map (fun k => t - Z.of_nat k * JsDate.msPerDay) (seq 0 n).
Proof.
  revert t; induction n as [|n IH]; intros t; [reflexivity|].
  cbn [walk seq map]. rewrite IH, <- seq_shift, map_map.
  f_equal; [cbn; lia|].
  apply map_ext; intros k. lia.
Qed.

Lemma walk_length t n : List.length (walk t n) = n.
Proof. rewrite walk_seq, length_map. apply length_seq. Qed.

Lemma dayOfFields_fields tz t :
  dayOfFields (JsDate.fields tz t) = JsDate.Day (JsDate.LocalTime tz t).
Proof.
  unfold dayOfFields, JsDate.fields.
  replace (JsDate.MonthFromTime (JsDate.LocalTime tz t) + 1 - 1)
    with (JsDate.MonthFromTime (JsDate.LocalTime tz t)) by lia.
  pose proof (CalendarFacts.MakeDay_fields (JsDate.LocalTime tz t) 0) as H.
  rewrite !Z.add_0_r in H. exact H.
Qed.

Lemma walk_days tz t n :
  map (fun u => JsDate.Day (JsDate.LocalTime tz u)) (walk t n)
  = map (fun k => JsDate.Day (JsDate.LocalTime tz t) - Z.of_nat k) (seq 0 n).
Proof.
  rewrite walk_seq, map_map. apply map_ext; intros k.
  unfold JsDate.LocalTime.
  replace (t - Z.of_nat k * JsDate.msPerDay + tz)
    with (t + tz - Z.of_nat k * JsDate.msPerDay) by lia.
  apply CalendarFacts.Day_back.
Qed.

Lemma walk_fields_NoDup tz t n : NoDup (map (JsDate.fields tz) (walk t n)).
Proof.
  apply (NoDup_map_inv dayOfFields).
  rewrite map_map.
  rewrite (map_ext _ (fun u => JsDate.Day (JsDate.LocalTime tz u)))
    by (intros; apply dayOfFields_fields).
  rewrite walk_days.
  apply Injective_map_NoDup; [|apply seq_NoDup].
  intros a b Hab. lia.
Qed.

Lemma walk_Forall (P : Z -> Prop) t n :
  (forall i, 0 <= i < Z.of_nat n -> P (t - i * JsDate.msPerDay)) ->
  Forall P (walk t n).
Proof.
  intros H. rewrite walk_seq. apply Forall_map, Forall_forall.
  intros k Hk. apply in_seq in Hk. apply H. lia.
Qed.

(** The date walk in full, for any script zone and any rendering zone and a
    reference date outside the years 0..99.
    [generateRecentDistinctDates] returns no date when N <= 0; otherwise it
    returns the renderings of the reference date, the day before, and so on,
    and stops at the first candidate that lies before the quarter start: it
    returns [min N D] dates, where [D >= 1] is the number of days into the
    quarter.  The quarter start is midnight, in the script's zone, of day 1 of
    month 0, 3, 6 or 9 of the reference date's year, chosen from the reference
    date's month.  No returned date renders an instant before the quarter
    start, and read in the script's zone every one is a calendar date on or
    after the quarter's first day.  The returned dates are consecutive,
    strictly decreasing calendar days of the zone they are rendered in, hence
    distinct. *)
Theorem date_walk_stops_at_quarter_start (tza N referenceDate timeZone : Z)
  (Hyear : JsDate.twoDigitYear (JsDate.getFullYear tza referenceDate) = false) :
  let qs := quarterStartDate tza referenceDate in
  let D := daysIntoQuarter tza referenceDate in
  let n := Z.to_nat (Z.min N D) in
  let dates := generateRecentDistinctDates tza N referenceDate timeZone in
  (* the walk and where it stops *)
  dates = map (fun t => JsDate.formatDate t timeZone) (walk referenceDate n)
  /\ walk referenceDate n
     = map (fun k => referenceDate - Z.of_nat k * JsDate.msPerDay) (seq 0 n)
  /\ (N <= 0 -> dates = [])
  /\ Z.of_nat (List.length dates) <= Z.max 0 N
  /\ 1 <= D
  /\ qs <= referenceDate - (D - 1) * JsDate.msPerDay
  /\ referenceDate - D * JsDate.msPerDay < qs
  (* the quarter start *)
  /\ JsDate.fields tza qs
     = (quarterStartMonth (JsDate.getMonth tza referenceDate) + 1, 1,
        JsDate.getFullYear tza referenceDate)
  /\ JsDate.TimeWithinDay (JsDate.LocalTime tza qs) = 0
  /\ In (quarterStartMonth (JsDate.getMonth tza referenceDate)) [0; 3; 6; 9]
  (* no date before the quarter start *)
  /\ Forall (fun t => qs <= t) (walk referenceDate n)
  /\ Forall (fun t => fieldsLeb (JsDate.fields tza qs) (JsDate.fields tza t) = true)
       (walk referenceDate n)
  (* consecutive, strictly decreasing, distinct calendar days *)
  /\ map (fun t => JsDate.Day (JsDate.LocalTime timeZone t)) (walk referenceDate n)
     = map (fun k => JsDate.Day (JsDate.LocalTime timeZone referenceDate) - Z.of_nat k)
         (seq 0 n)
  /\ NoDup (map (JsDate.fields timeZone) (walk referenceDate n)).
Proof.
  intros qs D n dates.
  pose proof (daysIntoQuarter_pos tza referenceDate Hyear) as HD. fold D in HD.
  pose proof (before_quarter_iff tza referenceDate) as Hb. fold qs D in Hb.
  destruct (quarterStart_fields tza referenceDate Hyear) as (Hf & Hmid).
  fold qs in Hf, Hmid.
  assert (Hdates : dates
                   = map (fun t => JsDate.formatDate t timeZone) (walk referenceDate n))
    by apply generateRecentDistinctDates_walk.
  split; [exact Hdates|].
  split; [apply walk_seq|].
  split.
  { intros HN. rewrite Hdates. replace n with O by lia. reflexivity. }
  split.
  { rewrite Hdates, length_map, walk_length. lia. }
  split; [exact HD|].
  split.
  { pose proof (Hb (D - 1)). lia. }
  split.
  { apply Hb. lia. }
  split; [exact Hf|].
  split; [exact Hmid|].
  split.
  { destruct (quarterStartMonth_cases (JsDate.getMonth tza referenceDate)
                (CalendarFacts.MonthFromTime_range _)) as ([H|[H|[H|H]]] & _);
      rewrite H; cbn; auto. }
  split.
  { apply walk_Forall. intros i Hi. pose proof (Hb i). lia. }
  split.
  { apply walk_Forall. intros i Hi. rewrite Hf.
    apply walk_fields_in_quarter; [exact Hyear|]. fold D. lia. }
  split; [apply walk_days | apply walk_fields_NoDup].
Qed.

Lemma date_walk_stops_at_quarter_start_witness :
  generateRecentDistinctDates 0 0 1704240000777 0 = []
  /\ generateRecentDistinctDates 0 5 1704240000777 0
     = ["1/3/2024"; "1/2/2024"; "1/1/2024"].
Proof.
  split.
  - destruct (date_walk_stops_at_quarter_start 0 0 1704240000777 0 eq_refl)
      as (_ & _ & H & _).
    apply H. lia.
  - destruct (date_walk_stops_at_quarter_start 0 5 1704240000777 0 eq_refl)
      as (H & _).
    rewrite H. reflexivity.
Defined.

(** C3 on a run where the spreadsheet's zone is behind the script's.  With
    the script in UTC, the sheet five hours behind and the clock at
    2024-01-03 00:00:00.777 UTC, three dates are asked for and the third one
    returned is 12/31/2023: a date before the first day (1/1/2024) of the
    quarter of the reference date, whichever of the two zones the reference
    date is read in.  The quarter start is taken with the script-zone getters
    while the dates are rendered in the sheet's zone, so the claim that no
    date before the quarter start is returned does not hold of the code. *)
Lemma date_before_quarter_start_when_zones_differ :
  generateRecentDistinctDates 0 3 1704240000777 (-18000000)
  = ["1/2/2024"; "1/1/2024"; "12/31/2023"]
  /\ JsDate.fields 0 1704240000777 = (1, 3, 2024)
  /\ JsDate.fields (-18000000) 1704240000777 = (1, 2, 2024)
  /\ ~ (forall tza N referenceDate timeZone f,
          In (JsDate.render f)
            (generateRecentDistinctDates tza N referenceDate timeZone) ->
          fieldsLeb
            (quarterStartMonth (JsDate.getMonth tza referenceDate) + 1, 1,
             JsDate.getFullYear tza referenceDate) f = true).
Proof.
  split; [reflexivity|].
  split; [reflexivity|].
  split; [reflexivity|].
  intros H.
  specialize (H 0 3 1704240000777 (-18000000) (12, 31, 2023)).
  assert (Hg : generateRecentDistinctDates 0 3 1704240000777 (-18000000)
               = ["1/2/2024"; "1/1/2024"; "12/31/2023"]) by reflexivity.
  rewrite Hg in H.
  assert (Hf : fieldsLeb
                 (quarterStartMonth (JsDate.getMonth 0 1704240000777) + 1, 1,
                  JsDate.getFullYear 0 1704240000777) (12, 31, 2023) = false)
    by reflexivity.
  rewrite Hf in H.
  assert (Hin : In (JsDate.render (12, 31, 2023))
                  ["1/2/2024"; "1/1/2024"; "12/31/2023"]).
  { cbn [In]. right; right; left. reflexivity. }
  apply H in Hin. discriminate Hin.
Qed.




(** ** Sheets and rows *)

Lemma overwriteRows_nil rows : overwriteRows [] rows = rows.
Proof. induction rows as [|r rows IH]; cbn; [reflexivity | now rewrite IH]. Qed.

Lemma setValuesBelow_end s rows : setValuesBelow s (List.length s) rows = s ++ rows.
Proof.
  induction s as [|r s IH]; cbn [setValuesBelow List.length app].
  - apply overwriteRows_nil.
  - now rewrite IH.
Qed.

(** Writing below the last row appends. *)
Lemma setValues_append s rows : setValues s (getLastRow s + 1) rows = s ++ rows.
Proof.
  unfold setValues, getLastRow.
  replace (List.length s + 1 - 1)%nat with (List.length s) by lia.
  apply setValuesBelow_end.
Qed.

Lemma rowsLoop_spec pid full first last exec dates a c acc :
  c = Z.of_nat a + 1 ->
  rowsLoop pid full first last exec dates c acc
  = acc ++ map (fun kd => newEventAttendanceRow pid full first last
                            (Z.of_nat (fst kd) + 1) (snd kd) exec)
             (combine (seq a (List.length dates)) dates).
Proof.
  revert a c acc; induction dates as [|d dates IH]; intros a c acc Hc.
  - cbn. now rewrite app_nil_r.
  - cbn [rowsLoop List.length seq combine map].
    rewrite (IH (S a)) by lia. rewrite <- app_assoc.
    cbn [app fst snd]. now subst c.
Qed.

Lemma rowsForEventAttendance_spec pid full first last dates exec :
  rowsForEventAttendance pid full first last dates exec
  = map (fun kd => newEventAttendanceRow pid full first last
                     (Z.of_nat (fst kd) + 1) (snd kd) exec)
      (combine (seq 0 (List.length dates)) dates).
Proof.
  unfold rowsForEventAttendance. now rewrite (rowsLoop_spec _ _ _ _ _ _ 0%nat).
Qed.

Lemma rowsForEventAttendance_length pid full first last dates exec :
  List.length (rowsForEventAttendance pid full first last dates exec) = List.length dates.
Proof.
  rewrite rowsForEventAttendance_spec, length_map, length_combine, length_seq.
  apply Nat.min_id.
Qed.

Lemma rowsForEventAttendance_stamped pid full first last dates exec :
  Forall (fun r => cell r 13 = VString exec)
    (rowsForEventAttendance pid full first last dates exec).
Proof.
  rewrite rowsForEventAttendance_spec.
  apply Forall_map, Forall_forall. intros kd _. reflexivity.
Qed.

(** ** One person of the loop *)

Lemma newCalculatedScoreK_nonneg lvl E K k :
  newCalculatedScoreK lvl E K = Some k -> 0 <= k.
Proof.
  unfold newCalculatedScoreK, CORE_K_MIN_VALUE.
  destruct (lvl =? "inactive")%string; [intros [= <-]; lia|].
  destruct (lvl =? "active")%string; [intros [= <-]; lia|].
  destruct (lvl =? "core")%string; [intros [= <-]; lia | discriminate].
Qed.

Lemma newCalculatedScoreK_unknown lvl E K :
  lvl <> "inactive" -> lvl <> "active" -> lvl <> "core" ->
  newCalculatedScoreK lvl E K = None.
Proof.
  intros H1 H2 H3. unfold newCalculatedScoreK.
  apply String.eqb_neq in H1, H2, H3. now rewrite H1, H2, H3.
Qed.

Lemma spreadsheet_eta ss sh :
  eventAttendance ss = Some sh ->
  {| attendanceStats := attendanceStats ss; eventAttendance := Some (sh ++ []) |} = ss.
Proof. destruct ss; cbn; intros ->. now rewrite app_nil_r. Qed.

Section Person.

Variables tza today timeZone : Z.
Variable statsData : list row.

Let exec := JsDate.formatDate today timeZone.
Let step := processPerson tza today timeZone exec statsData.

(** A person whose level is not recognised. *)
Lemma processPerson_unknown st r :
  processed r = true -> scoreOf statsData r = None ->
  step st r
  = {| statsSpreadsheets := statsSpreadsheets st;
       recordsToProcessCount := recordsToProcessCount st + 1;
       recordsSkippedOrFailed :=
         recordsSkippedOrFailed st
           ++ [unknownLevelDetail (cell r (UAT_COL_ID - 1))
                 (cell r (UAT_COL_FIRST_NAME - 1)) (cell r (UAT_COL_LAST_NAME - 1))];
       recordsMissingDetailsUAT := recordsMissingDetailsUAT st;
       eventAttendancesLogged := eventAttendancesLogged st;
       console :=
         console st
           ++ [unknownLevelLog (cell r (UAT_COL_ACTIVITY_LEVEL - 1))
                 (cell r (UAT_COL_FIRST_NAME - 1)) (cell r (UAT_COL_LAST_NAME - 1))] |}.
Proof.
  unfold processed, scoreOf, statsOf, levelOf, step, processPerson.
  intros Hp Hs. cbv zeta. rewrite Hp.
  destruct (currentStats _ _ _ _) as [E K]. cbn [fst snd] in Hs.
  now rewrite Hs.
Qed.

(** A person whose level gives the score [k]: the rows built for the person
    go below the last row of the 'Event Attendance' tab. *)
Lemma processPerson_scored st r k sh :
  processed r = true -> scoreOf statsData r = Some k ->
  eventAttendance (statsSpreadsheets st) = Some sh ->
  step st r
  = {| statsSpreadsheets :=
         {| attendanceStats := attendanceStats (statsSpreadsheets st);
            eventAttendance := Some (sh ++ rowsOf tza today timeZone r k) |};
       recordsToProcessCount := recordsToProcessCount st + 1;
       recordsSkippedOrFailed := recordsSkippedOrFailed st;
       recordsMissingDetailsUAT := recordsMissingDetailsUAT st;
       eventAttendancesLogged :=
         eventAttendancesLogged st
         + Z.of_nat (List.length (rowsOf tza today timeZone r k));
       console := console st |}.
Proof.
  unfold processed, scoreOf, statsOf, levelOf, step, processPerson.
  intros Hp Hs Hsh. cbv zeta. rewrite Hp.
  destruct (currentStats _ _ _ _) as [E K]. cbn [fst snd] in Hs.
  rewrite Hs.
  assert (Hk : 0 <= k) by (eapply newCalculatedScoreK_nonneg; eauto).
  fold exec.
  assert (Hrows :
    (if 0 <? k
     then rowsForEventAttendance (cell r (UAT_COL_ID - 1))
            (cell r (UAT_COL_FULL_NAME - 1)) (cell r (UAT_COL_FIRST_NAME - 1))
            (cell r (UAT_COL_LAST_NAME - 1))
            (generateRecentDistinctDates tza k today timeZone) exec
     else []) = rowsOf tza today timeZone r k).
  { unfold rowsOf. fold exec.
    destruct (Z.ltb_spec 0 k) as [|Hle]; [reflexivity|].
    replace k with 0 by lia. reflexivity. }
  rewrite Hrows.
  destruct (rowsOf tza today timeZone r k) as [|x rows] eqn:Hr.
  - cbn [List.length Nat.ltb Nat.leb Z.of_nat].
    now rewrite Z.add_0_r, (spreadsheet_eta _ _ Hsh).
  - cbn [List.length Nat.ltb Nat.leb].
    unfold appendEventAttendance. rewrite Hsh, setValues_append. reflexivity.
Qed.

(** Whatever the row, the step leaves the 'Attendance Stats' tab alone and
    only adds rows, stamped with the execution date, below those of the
    'Event Attendance' tab. *)
Lemma processPerson_frame st r sh :
  eventAttendance (statsSpreadsheets st) = Some sh ->
  exists rows,
    statsSpreadsheets (step st r)
    = {| attendanceStats := attendanceStats (statsSpreadsheets st);
         eventAttendance := Some (sh ++ rows) |}
    /\ eventAttendancesLogged (step st r)
       = eventAttendancesLogged st + Z.of_nat (List.length rows)
    /\ Forall (fun x => cell x 13 = VString exec) rows.
Proof.
  intros Hsh.
  destruct (processed r) eqn:Hp.
  - destruct (scoreOf statsData r) as [k|] eqn:Hs.
    + rewrite (processPerson_scored st r k sh Hp Hs Hsh).
      exists (rowsOf tza today timeZone r k). cbn.
      split; [reflexivity|]. split; [reflexivity|].
      apply rowsForEventAttendance_stamped.
    + rewrite (processPerson_unknown st r Hp Hs).
      exists []. cbn [statsSpreadsheets eventAttendancesLogged List.length Z.of_nat].
      rewrite Z.add_0_r, (spreadsheet_eta _ _ Hsh). auto.
  - exists []. cbn [List.length Z.of_nat].
    rewrite Z.add_0_r, (spreadsheet_eta _ _ Hsh).
    unfold step, processPerson. unfold processed in Hp. cbv zeta. rewrite Hp.
    match goal with |- context [if ?b then _ else st] => destruct b end;
      cbn [statsSpreadsheets eventAttendancesLogged]; auto.
Qed.

Lemma run_frame uatData st sh :
  eventAttendance (statsSpreadsheets st) = Some sh ->
  exists rows,
    statsSpreadsheets (fold_left step uatData st)
    = {| attendanceStats := attendanceStats (statsSpreadsheets st);
         eventAttendance := Some (sh ++ rows) |}
    /\ eventAttendancesLogged (fold_left step uatData st)
       = eventAttendancesLogged st + Z.of_nat (List.length rows)
    /\ Forall (fun x => cell x 13 = VString exec) rows.
Proof.
  revert st sh; induction uatData as [|r rest IH]; intros st sh Hsh.
  - exists []. cbn [fold_left List.length Z.of_nat].
    rewrite Z.add_0_r, (spreadsheet_eta _ _ Hsh). auto.
  - cbn [fold_left].
    destruct (processPerson_frame st r sh Hsh) as (rows1 & H1 & L1 & F1).
    destruct (IH (step st r) (sh ++ rows1)) as (rows2 & H2 & L2 & F2).
    { now rewrite H1. }
    exists (rows1 ++ rows2).
    rewrite H2, L2, L1, H1, length_app, app_assoc. cbn.
    split; [reflexivity|]. split; [lia|]. now apply Forall_app.
Qed.

End Person.

(** ** The length of a quarter *)

(** The day within the year of [t] is fewer than 92 days after the first day
    of the quarter of [t]. *)
Lemma quarter_span t :
  0 <= JsDate.DayWithinYear t
       - JsDate.monthStart (quarterStartMonth (JsDate.MonthFromTime t))
           (JsDate.InLeapYear t) < 92.
Proof.
  pose proof (CalendarFacts.DayWithinYear_range t) as Hr.
  destruct (CalendarFacts.InLeapYear_cases t) as [Hl|Hl]; rewrite Hl in *.
  all: unfold JsDate.MonthFromTime; rewrite Hl.
  all: repeat match goal with
         | |- context [if ?a <? ?b then _ else _] => destruct (Z.ltb_spec a b)
         end.
  all: cbn [quarterStartMonth Z.ltb Z.compare Pos.compare Pos.compare_cont
              JsDate.monthStart]; lia.
Qed.

Lemma daysSinceQuarterStart_range zone t :
  1 <= daysSinceQuarterStart zone t <= 92.
Proof.
  unfold daysSinceQuarterStart.
  pose proof (quarter_span (JsDate.LocalTime zone t)). lia.
Qed.

(** Outside the years 0..99 the loop counts the days of the calendar
    quarter. *)
Lemma daysIntoQuarter_formula tza referenceDate :
  JsDate.twoDigitYear (JsDate.getFullYear tza referenceDate) = false ->
  daysIntoQuarter tza referenceDate
  = JsDate.DayWithinYear (JsDate.LocalTime tza referenceDate)
    - JsDate.monthStart (quarterStartMonth (JsDate.getMonth tza referenceDate))
        (JsDate.InLeapYear (JsDate.LocalTime tza referenceDate)) + 1.
Proof.
  intros Hyear. unfold daysIntoQuarter.
  rewrite quarterStart_day, (CalendarFacts.constructorYear_plain _ Hyear),
    MakeDay_quarter.
  unfold JsDate.DayWithinYear, JsDate.getFullYear. lia.
Qed.

Lemma daysIntoQuarter_calendar tza referenceDate :
  JsDate.twoDigitYear (JsDate.getFullYear tza referenceDate) = false ->
  daysIntoQuarter tza referenceDate = daysSinceQuarterStart tza referenceDate.
Proof.
  intros Hyear. rewrite (daysIntoQuarter_formula _ _ Hyear). reflexivity.
Qed.

Lemma daysIntoQuarter_le_92 tza referenceDate :
  daysIntoQuarter tza referenceDate <= 92.
Proof.
  destruct (JsDate.twoDigitYear (JsDate.getFullYear tza referenceDate)) eqn:Hyear.
  - pose proof (daysIntoQuarter_two_digit tza referenceDate Hyear). lia.
  - rewrite (daysIntoQuarter_calendar _ _ Hyear).
    pose proof (daysSinceQuarterStart_range tza referenceDate). lia.
Qed.


Lemma dates_in_calendar_quarter tza N referenceDate timeZone :
  JsDate.twoDigitYear (JsDate.getFullYear tza referenceDate) = false ->
  generateRecentDistinctDates tza N referenceDate timeZone
  = map (fun t => JsDate.formatDate t timeZone)
      (walk referenceDate (Z.to_nat (Z.min N (daysSinceQuarterStart tza referenceDate)))).
Proof.
  intros Hyear.
  now rewrite generateRecentDistinctDates_walk, (daysIntoQuarter_calendar _ _ Hyear).
Qed.

(** ** The rows logged for a person *)

Lemma rowsOf_length tza today timeZone r k :
  Z.of_nat (List.length (rowsOf tza today timeZone r k))
  = Z.max 0 (Z.min k (daysIntoQuarter tza today)).
Proof.
  unfold rowsOf.
  rewrite rowsForEventAttendance_length, generateRecentDistinctDates_walk,
    length_map, walk_length.
  lia.
Qed.

(** C2, as the code has it, for a run in which the spreadsheet's zone is the
    script's zone and the clock reads a year beyond 99.  For a person the
    loop processes, with new score K', the rows appended to the
    'Event Attendance' tab number min(K', D), where D >= 1 counts the days
    from the first day of the current calendar quarter to the reference
    date, both included: exactly K' when K' <= D, and never more than K' nor
    more than D. *)
Theorem rows_logged_for_person
  (tza today timeZone : Z) (statsData : list row) (st : runState) (r : row)
  (k : Z) (sh : sheet)
  (Hzone : timeZone = tza)
  (Hyear : JsDate.twoDigitYear (JsDate.getFullYear tza today) = false)
  (Hp : processed r = true) (Hs : scoreOf statsData r = Some k)
  (Hsh : eventAttendance (statsSpreadsheets st) = Some sh) :
  let D := daysSinceQuarterStart timeZone today in
  let st' :=
    processPerson tza today timeZone (JsDate.formatDate today timeZone) statsData st r in
  exists rows,
    eventAttendance (statsSpreadsheets st') = Some (sh ++ rows)
    /\ Z.of_nat (List.length rows) = Z.min k D
    /\ eventAttendancesLogged st' = eventAttendancesLogged st + Z.min k D
    /\ 1 <= D
    /\ Z.of_nat (List.length rows) <= k
    /\ Z.of_nat (List.length rows) <= D
    /\ (k <= D -> Z.of_nat (List.length rows) = k).
Proof.
  subst timeZone. intros D st'. unfold st'.
  rewrite (processPerson_scored tza today tza statsData st r k sh Hp Hs Hsh).
  assert (Hk : 0 <= k).
  { unfold scoreOf in Hs. eapply newCalculatedScoreK_nonneg; eauto. }
  pose proof (rowsOf_length tza today tza r k) as Hlen.
  rewrite (daysIntoQuarter_calendar _ _ Hyear) in Hlen. fold D in Hlen.
  pose proof (daysSinceQuarterStart_range tza today) as HD. fold D in HD.
  exists (rowsOf tza today tza r k).
  cbn [statsSpreadsheets eventAttendance eventAttendancesLogged].
  split; [reflexivity|].
  split; [lia|].
  split; [lia|].
  split; [lia|].
  split; [lia|]. split; lia.
Qed.

Lemma rows_logged_for_person_witness :
  exists rows,
    eventAttendance
      (statsSpreadsheets
         (processPerson 0 1704240000777 0 (JsDate.formatDate 1704240000777 0) []
            (initialState {| attendanceStats := Some []; eventAttendance := Some [] |})
            [VString "b2"; VString "Bob Roe"; VString "Roe"; VString "Bob";
             VString "Core"]))
    = Some ([] ++ rows)
    /\ Z.of_nat (List.length rows) = 3.
Proof.
  destruct (rows_logged_for_person 0 1704240000777 0 []
              (initialState {| attendanceStats := Some []; eventAttendance := Some [] |})
              [VString "b2"; VString "Bob Roe"; VString "Roe"; VString "Bob";
               VString "Core"]
              12 [] eq_refl eq_refl eq_refl eq_refl eq_refl) as (rows & H1 & H2 & _).
  exists rows. split; [exact H1|]. rewrite H2. reflexivity.
Defined.

(** C2, as stated, fails on the first day of a quarter: a Core person has the
    score 12, and one row is logged. *)
Lemma one_row_for_core_on_first_day_of_quarter :
  ~ (forall (tza today timeZone : Z) (statsData : list row) (st : runState)
       (r : row) (k : Z) (sh : sheet),
        processed r = true -> scoreOf statsData r = Some k ->
        eventAttendance (statsSpreadsheets st) = Some sh ->
        exists rows,
          eventAttendance
            (statsSpreadsheets
               (processPerson tza today timeZone (JsDate.formatDate today timeZone)
                  statsData st r))
          = Some (sh ++ rows)
          /\ Z.of_nat (List.length rows) = k).
Proof.
  intros H.
  destruct (H 0 1704067200000 0 []
              (initialState {| attendanceStats := Some []; eventAttendance := Some [] |})
              [VString "b2"; VString "Bob Roe"; VString "Roe"; VString "Bob";
               VString "Core"]
              12 [] eq_refl eq_refl eq_refl) as (rows & H1 & H2).
  cbn [app] in H1.
  assert (Hone : forall x : option sheet, x = Some rows ->
                 match x with Some l => Z.of_nat (List.length l) | None => 0 end = 12).
  { intros x ->. exact H2. }
  specialize (Hone _ H1). vm_compute in Hone. discriminate Hone.
Qed.

(** ** The whole run *)

(** C9. A run never writes to the 'Attendance Stats' tab: the tab is the same
    after the run as before, and the only change to the spreadsheet is that
    rows are added below those of the 'Event Attendance' tab (which is
    created with its header row when it does not exist). *)
Theorem stats_sheet_never_written
  (tza : Z) (ss : spreadsheet) (uatData : list row) (today timeZone : Z) :
  let result := fst (updateActivityLevels tza ss uatData today timeZone) in
  attendanceStats result = attendanceStats ss
  /\ match attendanceStats ss with
     | None => result = ss
     | Some _ =>
         exists rows,
           eventAttendance result
           = Some (match eventAttendance ss with
                   | Some existing => existing
                   | None => [eventAttendanceHeader]
                   end ++ rows)
     end.
Proof.
  destruct ss as [[statsSheet|] existing]; unfold updateActivityLevels;
    cbn [attendanceStats eventAttendance fst]; [|split; reflexivity].
  set (base := match existing with
               | Some e => e
               | None => [eventAttendanceHeader]
               end).
  set (ss1 := match existing with
              | Some _ => {| attendanceStats := Some statsSheet;
                             eventAttendance := existing |}
              | None => {| attendanceStats := Some statsSheet;
                           eventAttendance := Some [eventAttendanceHeader] |}
              end).
  assert (H1 : attendanceStats ss1 = Some statsSheet /\ eventAttendance ss1 = Some base).
  { unfold ss1, base. destruct existing; cbn; auto. }
  destruct H1 as (Hs1 & He1).
  destruct uatData as [|r rest].
  - cbn [fst]. split; [exact Hs1|].
    exists []. now rewrite app_nil_r.
  - cbn [fst].
    destruct (run_frame tza today timeZone (getValues statsSheet) (r :: rest)
                (initialState ss1) base He1) as (rows & Hr & _).
    unfold initialState in Hr. rewrite Hr.
    cbn [attendanceStats eventAttendance statsSpreadsheets].
    split; [exact Hs1|]. now exists rows.
Qed.

(** ** A person with an unknown level *)

(** C5. A processed person whose level, trimmed and put in lower case, is none
    of inactive, active and core gets no score: the person is recorded in the
    list of skipped records with name and id, no row is logged and nothing
    in the spreadsheet changes, and the loop goes on with the next person. *)
Theorem unknown_level_person_skipped
  (tza today timeZone : Z) (statsData : list row) (st : runState)
  (r : row) (rest : list row)
  (Hp : processed r = true)
  (Hlevel : levelOf r <> "inactive" /\ levelOf r <> "active" /\ levelOf r <> "core") :
  let step :=
    processPerson tza today timeZone (JsDate.formatDate today timeZone) statsData in
  let st' := step st r in
  scoreOf statsData r = None
  /\ recordsSkippedOrFailed st'
     = recordsSkippedOrFailed st
       ++ [(ToString (cell r (UAT_COL_FIRST_NAME - 1)) ++ " "
            ++ ToString (cell r (UAT_COL_LAST_NAME - 1)) ++ " (ID: "
            ++ ToString (cell r (UAT_COL_ID - 1)) ++ ") - Unknown Level")%string]
  /\ statsSpreadsheets st' = statsSpreadsheets st
  /\ eventAttendancesLogged st' = eventAttendancesLogged st
  /\ recordsToProcessCount st' = recordsToProcessCount st + 1
  /\ recordsMissingDetailsUAT st' = recordsMissingDetailsUAT st
  /\ fold_left step (r :: rest) st = fold_left step rest st'.
Proof.
  intros step st'.
  destruct Hlevel as (H1 & H2 & H3).
  assert (Hs : scoreOf statsData r = None)
    by (apply newCalculatedScoreK_unknown; assumption).
  unfold st', step.
  rewrite (processPerson_unknown tza today timeZone statsData st r Hp Hs).
  cbn [recordsSkippedOrFailed statsSpreadsheets eventAttendancesLogged
         recordsToProcessCount recordsMissingDetailsUAT].
  split; [exact Hs|].
  split; [reflexivity|].
  split; [reflexivity|].
  split; [reflexivity|].
  split; [reflexivity|].
  split; [reflexivity|].
  cbn [fold_left].
  now rewrite (processPerson_unknown tza today timeZone statsData st r Hp Hs).
Qed.

Lemma unknown_level_person_skipped_witness :
  let r := [VString "c3"; VString "Cy Poe"; VString "Poe"; VString "Cy";
            VString " Retired "] in
  let st := initialState {| attendanceStats := Some []; eventAttendance := Some [] |} in
  let step := processPerson 0 1704240000777 0 (JsDate.formatDate 1704240000777 0) [] in
  recordsSkippedOrFailed (step st r) = ["Cy Poe (ID: c3) - Unknown Level"]
  /\ statsSpreadsheets (step st r) = statsSpreadsheets st.
Proof.
  intros r st step.
  assert (Hp : processed r = true) by reflexivity.
  assert (Hl : levelOf r <> "inactive" /\ levelOf r <> "active" /\ levelOf r <> "core")
    by (repeat split; discriminate).
  destruct (unknown_level_person_skipped 0 1704240000777 0 [] st r [] Hp Hl)
    as (_ & H1 & H2 & _).
  split; [exact H1 | exact H2].
Defined.

(** ** The stats fetch *)

Lemma statsRowMatches_iff r personIdUAT firstNameUAT lastNameUAT :
  statsRowMatches r personIdUAT firstNameUAT lastNameUAT = true
  <-> Text.trim (ToString (cell r (STATS_COL_PERSON_ID - 1)))
      = Text.trim (ToString personIdUAT)
      /\ Text.toLowerCase (Text.trim (ToString (cell r (STATS_COL_FIRST_NAME - 1))))
         = Text.toLowerCase (Text.trim (ToString firstNameUAT))
      /\ Text.toLowerCase (Text.trim (ToString (cell r (STATS_COL_LAST_NAME - 1))))
         = Text.toLowerCase (Text.trim (ToString lastNameUAT)).
Proof.
  unfold statsRowMatches.
  rewrite !andb_true_iff, !String.eqb_eq. tauto.
Qed.

Lemma currentStats_miss statsData pid fn ln :
  Forall (fun r => statsRowMatches r pid fn ln = false) statsData ->
  currentStats statsData pid fn ln = (0, 0).
Proof.
  induction 1 as [|r rest Hr _ IH]; cbn [currentStats]; [reflexivity|].
  now rewrite Hr.
Qed.

Lemma currentStats_first_match before r after pid fn ln :
  Forall (fun x => statsRowMatches x pid fn ln = false) before ->
  statsRowMatches r pid fn ln = true ->
  currentStats (before ++ r :: after) pid fn ln
  = (parseIntOrZero (cell r (STATS_COL_QUARTER_EVENTS - 1)),
     parseIntOrZero (cell r (STATS_COL_ACTIVITY_SCORE - 1))).
Proof.
  intros Hb Hr. induction Hb as [|x rest Hx _ IH]; cbn [app currentStats].
  - now rewrite Hr.
  - now rewrite Hx.
Qed.

(** C6, as the code has it.  A stats row matches a person when the trimmed
    ids are equal as they stand and the trimmed first names and the trimmed
    last names are equal without regard to letter case; E and K are read from
    the first row that matches; when no row matches, E = 0 and K = 0, which
    is not an error: the three levels are scored from (0, 0). *)
Theorem stats_fetch_by_id_and_names (statsData : list row)
  (personIdUAT firstNameUAT lastNameUAT : value) :
  (forall r,
      statsRowMatches r personIdUAT firstNameUAT lastNameUAT = true
      <-> Text.trim (ToString (cell r (STATS_COL_PERSON_ID - 1)))
          = Text.trim (ToString personIdUAT)
          /\ Text.toLowerCase (Text.trim (ToString (cell r (STATS_COL_FIRST_NAME - 1))))
             = Text.toLowerCase (Text.trim (ToString firstNameUAT))
          /\ Text.toLowerCase (Text.trim (ToString (cell r (STATS_COL_LAST_NAME - 1))))
             = Text.toLowerCase (Text.trim (ToString lastNameUAT)))
  /\ (forall before r after,
        statsData = before ++ r :: after ->
        Forall (fun x => statsRowMatches x personIdUAT firstNameUAT lastNameUAT = false)
          before ->
        statsRowMatches r personIdUAT firstNameUAT lastNameUAT = true ->
        currentStats statsData personIdUAT firstNameUAT lastNameUAT
        = (parseIntOrZero (cell r (STATS_COL_QUARTER_EVENTS - 1)),
           parseIntOrZero (cell r (STATS_COL_ACTIVITY_SCORE - 1))))
  /\ (Forall (fun x => statsRowMatches x personIdUAT firstNameUAT lastNameUAT = false)
        statsData ->
      currentStats statsData personIdUAT firstNameUAT lastNameUAT = (0, 0)
      /\ newCalculatedScoreK "inactive" 0 0 = Some 1
      /\ newCalculatedScoreK "active" 0 0 = Some 3
      /\ newCalculatedScoreK "core" 0 0 = Some 12).
Proof.
  split; [intros r; apply statsRowMatches_iff|].
  split.
  - intros before r after -> Hb Hr. now apply currentStats_first_match.
  - intros Hmiss. split; [now apply currentStats_miss|].
    repeat split.
Qed.

Lemma stats_fetch_by_id_and_names_witness :
  let statsData :=
    [[VString "Person ID"; VString "Full Name"; VString "First Name";
      VString "Last Name"; VString "Events This Quarter"];
     [VString " a1"; VString "Ann Lee"; VString "ann "; VString "LEE"; VNumber 5;
      VNull; VNull; VNull; VNull; VNull; VNull; VString "7"]] in
  currentStats statsData (VString "a1") (VString "Ann") (VString "Lee") = (5, 7)
  /\ currentStats statsData (VString "b2") (VString "Bob") (VString "Roe") = (0, 0).
Proof.
  intros statsData. split.
  - destruct (stats_fetch_by_id_and_names statsData
                (VString "a1") (VString "Ann") (VString "Lee")) as (_ & H & _).
    apply (H [nth 0 statsData []] (nth 1 statsData []) []); [reflexivity| |reflexivity].
    repeat constructor.
  - destruct (stats_fetch_by_id_and_names statsData
                (VString "b2") (VString "Bob") (VString "Roe")) as (_ & _ & H).
    apply H. repeat constructor.
Defined.

(** C6, as stated, fails on the person id: ids that differ only in letter
    case do not match, and the person is then a cold start. *)
Lemma person_id_compared_with_case :
  let statsData :=
    [[VString "a1"; VString "Ann Lee"; VString "Ann"; VString "Lee"; VNumber 5;
      VNull; VNull; VNull; VNull; VNull; VNull; VNumber 7]] in
  spec_currentStats statsData (VString "A1") (VString "Ann") (VString "Lee") = (5, 7)
  /\ currentStats statsData (VString "A1") (VString "Ann") (VString "Lee") = (0, 0)
  /\ ~ (forall statsData personId firstName lastName,
          currentStats statsData personId firstName lastName
          = spec_currentStats statsData personId firstName lastName).
Proof.
  intros statsData.
  split; [reflexivity|]. split; [reflexivity|].
  intros H.
  specialize (H statsData (VString "A1") (VString "Ann") (VString "Lee")).
  discriminate H.
Qed.

(** ** The values fetched reach the score unclamped *)

(** C8.  Let the first stats row that matches a processed person of level
    Active hold cells that stand for E and K: a cell that does not begin with
    a numeral stands for 0, a numeral stands for its integer, negative ones
    included.  Then the fetch of lines 308-320 returns exactly (E, K), the
    score is max(0, clamp(E + K + 3, 3, 11) - E) on these values as read, and
    the rows logged for the person are those of that score: only the
    combined total is clamped.  E and K are taken within the range in which
    the script's arithmetic is exact. *)
Theorem stats_values_parsed_not_clamped
  (tza today timeZone : Z) (before after : list row) (s r : row)
  (st : runState) (sh : sheet) (E K : Z)
  (Hp : processed r = true)
  (Hlevel : levelOf r = "active")
  (Hbefore :
     Forall (fun x => statsRowMatches x (cell r (UAT_COL_ID - 1))
                        (cell r (UAT_COL_FIRST_NAME - 1))
                        (cell r (UAT_COL_LAST_NAME - 1)) = false) before)
  (Hmatch : statsRowMatches s (cell r (UAT_COL_ID - 1))
              (cell r (UAT_COL_FIRST_NAME - 1)) (cell r (UAT_COL_LAST_NAME - 1)) = true)
  (HE : spec_cellInteger (cell s (STATS_COL_QUARTER_EVENTS - 1)) E)
  (HK : spec_cellInteger (cell s (STATS_COL_ACTIVITY_SCORE - 1)) K)
  (HEr : inExactRange E) (HKr : inExactRange K)
  (Hsh : eventAttendance (statsSpreadsheets st) = Some sh) :
  let statsData := before ++ s :: after in
  let k := Z.max 0 (Z.min 11 (Z.max 3 (E + K + 3)) - E) in
  let st' :=
    processPerson tza today timeZone (JsDate.formatDate today timeZone) statsData st r in
  currentStats statsData (cell r (UAT_COL_ID - 1)) (cell r (UAT_COL_FIRST_NAME - 1))
    (cell r (UAT_COL_LAST_NAME - 1)) = (E, K)
  /\ scoreOf statsData r = Some k
  /\ eventAttendance (statsSpreadsheets st') = Some (sh ++ rowsOf tza today timeZone r k)
  /\ eventAttendancesLogged st'
     = eventAttendancesLogged st + Z.of_nat (List.length (rowsOf tza today timeZone r k)).
Proof.
  intros statsData k st'.
  assert (Hfetch :
    currentStats statsData (cell r (UAT_COL_ID - 1)) (cell r (UAT_COL_FIRST_NAME - 1))
      (cell r (UAT_COL_LAST_NAME - 1)) = (E, K)).
  { unfold statsData.
    rewrite (currentStats_first_match _ _ _ _ _ _ Hbefore Hmatch).
    now rewrite (parseIntOrZero_reads _ _ HE), (parseIntOrZero_reads _ _ HK). }
  assert (Hscore : scoreOf statsData r = Some k).
  { unfold scoreOf, statsOf. rewrite Hfetch, Hlevel, score_active.
    cbn [fst snd]. unfold k. f_equal. lia. }
  split; [exact Hfetch|].
  split; [exact Hscore|].
  unfold st'.
  rewrite (processPerson_scored tza today timeZone statsData st r k sh Hp Hscore Hsh).
  cbn [statsSpreadsheets eventAttendance eventAttendancesLogged].
  split; reflexivity.
Qed.

Lemma stats_values_parsed_not_clamped_witness :
  let r := [VString "a1"; VString "Ann Lee"; VString "Lee"; VString "Ann";
            VString "Active"] in
  let statsData :=
    [[VString "Person ID"; VString "Full Name"; VString "First Name";
      VString "Last Name"; VString "Events This Quarter"];
     [VString "a1"; VString "Ann Lee"; VString "Ann"; VString "Lee";
      VString " -7 events"; VNull; VNull; VNull; VNull; VNull; VNull;
      VString "n/a"]] in
  let st := initialState {| attendanceStats := Some statsData;
                            eventAttendance := Some [] |} in
  currentStats statsData (VString "a1") (VString "Ann") (VString "Lee") = (-7, 0)
  /\ scoreOf statsData r = Some 10
  /\ eventAttendancesLogged
       (processPerson 0 1707955200777 0 (JsDate.formatDate 1707955200777 0)
          statsData st r) = 10.
Proof.
  intros r statsData st.
  destruct (stats_values_parsed_not_clamped 0 1707955200777 0
              [nth 0 statsData []] [] (nth 1 statsData []) r st [] (-7) 0)
    as (H1 & H2 & _ & H4).
  - reflexivity.
  - reflexivity.
  - constructor; [reflexivity | constructor].
  - reflexivity.
  - apply (numeral_cell " " " events" (-7)); reflexivity.
  - apply other_cell. reflexivity.
  - unfold inExactRange. lia.
  - unfold inExactRange. lia.
  - reflexivity.
  - split; [exact H1|]. split; [exact H2|].
    change ([nth 0 statsData []] ++ nth 1 statsData [] :: []) with statsData in H4.
    rewrite H4. reflexivity.
Defined.

(** ** The rows built for a person *)

(** C7. The builder makes one row per date, in the order of the dates; the
    row in position i (counted from 1) is labelled "BASELINE ADJUSTMENT i"
    whatever its date, and every row carries the same execution date. *)
Theorem one_row_per_date_in_order
  (personIdUAT fullNameUAT firstNameUAT lastNameUAT : value)
  (eventDates : list string) (formattedExecutionDate : string) :
  let rows :=
    rowsForEventAttendance personIdUAT fullNameUAT firstNameUAT lastNameUAT
      eventDates formattedExecutionDate in
  List.length rows = List.length eventDates
  /\ map (fun r => cell r 10) rows = map VString eventDates
  /\ map (fun r => cell r 2) rows
     = map (fun i => VString ("BASELINE ADJUSTMENT "
                               ++ Text.numberToString (Z.of_nat i + 1))%string)
         (seq 0 (List.length eventDates))
  /\ Forall (fun r => cell r 13 = VString formattedExecutionDate) rows
  /\ Forall (fun r => cell r 0 = personIdUAT /\ cell r 1 = fullNameUAT
                      /\ cell r 4 = firstNameUAT /\ cell r 5 = lastNameUAT
                      /\ List.length r = 14%nat) rows.
Proof.
  intros rows. unfold rows.
  split; [apply rowsForEventAttendance_length|].
  rewrite rowsForEventAttendance_spec.
  assert (Hlen : List.length (seq 0 (List.length eventDates)) = List.length eventDates)
    by apply length_seq.
  split; [|split; [|split]].
  - rewrite map_map. cbn [newEventAttendanceRow cell nth repeat setIndex].
    rewrite <- (map_map snd VString). f_equal.
    clear -Hlen. revert Hlen. generalize (seq 0 (List.length eventDates)).
    induction eventDates as [|d ds IH]; intros [|k ks] H; try discriminate; cbn; auto.
    f_equal. apply IH. now injection H.
  - rewrite map_map. cbn [newEventAttendanceRow cell nth repeat setIndex].
    rewrite <- (map_map fst (fun i => VString ("BASELINE ADJUSTMENT "
                               ++ Text.numberToString (Z.of_nat i + 1))%string)).
    f_equal.
    clear -Hlen. revert Hlen. generalize (seq 0 (List.length eventDates)).
    induction eventDates as [|d ds IH]; intros [|k ks] H; try discriminate; cbn; auto.
    f_equal. apply IH. now injection H.
  - apply Forall_map, Forall_forall. intros kd _. reflexivity.
  - apply Forall_map, Forall_forall. intros kd _. repeat split.
Qed.

(* ================================================================== *)
(** * Part III: further properties of the code                          *)
(* ================================================================== *)

(** ** The dates returned *)

Lemma walk_app t n k :
  walk t (n + k) = walk t n ++ walk (t - Z.of_nat n * JsDate.msPerDay) k.
Proof.
  revert t; induction n as [|n IH]; intros t.
  - cbn [Nat.add walk app]. f_equal. lia.
  - cbn [Nat.add walk app]. rewrite IH.
    replace (t - JsDate.msPerDay - Z.of_nat n * JsDate.msPerDay)
      with (t - Z.of_nat (S n) * JsDate.msPerDay)
      by (unfold JsDate.msPerDay; lia).
    reflexivity.
Qed.

(** X1. However many dates are asked for, at most 92 are returned, and asking
    for more than 92 gives what asking for 92 gives: a quarter has at most
    92 days. *)
Theorem at_most_92_dates (tza N referenceDate timeZone : Z) :
  (List.length (generateRecentDistinctDates tza N referenceDate timeZone) <= 92)%nat
  /\ generateRecentDistinctDates tza (Z.max N 92) referenceDate timeZone
     = generateRecentDistinctDates tza 92 referenceDate timeZone.
Proof.
  pose proof (daysIntoQuarter_le_92 tza referenceDate) as H92.
  rewrite !generateRecentDistinctDates_walk, length_map, walk_length.
  split; [lia|].
  do 2 f_equal. lia.
Qed.

(** X2. Asking for more dates only adds older dates at the end: the dates
    returned for N are the first dates returned for any M >= N. *)
Theorem fewer_dates_are_a_prefix (tza N M referenceDate timeZone : Z) (HNM : N <= M) :
  exists older,
    generateRecentDistinctDates tza M referenceDate timeZone
    = generateRecentDistinctDates tza N referenceDate timeZone ++ older.
Proof.
  rewrite !generateRecentDistinctDates_walk.
  set (D := daysIntoQuarter tza referenceDate).
  replace (Z.to_nat (Z.min M D))
    with (Z.to_nat (Z.min N D) + (Z.to_nat (Z.min M D) - Z.to_nat (Z.min N D)))%nat
    by lia.
  rewrite walk_app, map_app. eexists; reflexivity.
Qed.

Lemma fewer_dates_are_a_prefix_witness :
  exists older,
    generateRecentDistinctDates 0 12 1704240000777 0
    = generateRecentDistinctDates 0 2 1704240000777 0 ++ older.
Proof. apply (fewer_dates_are_a_prefix 0 2 12 1704240000777 0). lia. Defined.



(** ** The score of the Active level *)

(** X4. For the Active level and E and K within the range in which the
    script's arithmetic is exact, negative ones included: when E <= 11 the
    new total E + K' lies in [3, 11], when E > 11 the score is 0; and while
    E + K + 3 stays within [3, 11] and K >= -3, the score is K + 3. *)
Theorem active_total_in_range (E K : Z)
  (HE : inExactRange E) (HK : inExactRange K) :
  exists k,
    newCalculatedScoreK "active" E K = Some k
    /\ 0 <= k
    /\ (E <= 11 -> 3 <= E + k <= 11)
    /\ (11 < E -> k = 0)
    /\ (3 <= E + K + 3 <= 11 -> -3 <= K -> k = K + 3).
Proof.
  eexists. split; [apply score_active|]. lia.
Qed.

Lemma active_total_in_range_witness :
  exists k,
    newCalculatedScoreK "active" (-4) 20 = Some k /\ 3 <= -4 + k <= 11.
Proof.
  destruct (active_total_in_range (-4) 20) as (k & Hk & _ & H & _);
    [unfold inExactRange; lia | unfold inExactRange; lia |].
  exists k. split; [exact Hk | apply H; lia].
Defined.

(** X5. The score never goes down when K goes up, and never goes up when E
    goes up. *)
Theorem active_score_monotone (E E' K K' : Z) (HE : E <= E') (HK : K <= K') :
  exists k1 k2 k3,
    newCalculatedScoreK "active" E K = Some k1
    /\ newCalculatedScoreK "active" E K' = Some k2
    /\ newCalculatedScoreK "active" E' K = Some k3
    /\ k1 <= k2 /\ k3 <= k1.
Proof.
  do 3 eexists. rewrite !score_active.
  split; [reflexivity|]. split; [reflexivity|]. split; [reflexivity|]. lia.
Qed.

Lemma active_score_monotone_witness :
  exists k1 k2 k3,
    newCalculatedScoreK "active" 2 1 = Some k1
    /\ newCalculatedScoreK "active" 2 4 = Some k2
    /\ newCalculatedScoreK "active" 9 1 = Some k3
    /\ k1 <= k2 /\ k3 <= k1.
Proof. apply (active_score_monotone 2 9 1 4); lia. Defined.

(** ** The rows of a whole run *)

Section Run.

Variables tza today timeZone : Z.
Variable statsData : list row.

Let exec := JsDate.formatDate today timeZone.
Let step := processPerson tza today timeZone exec statsData.

Lemma processPerson_unprocessed st r :
  processed r = false ->
  step st r
  = if missingDetails r then
      {| statsSpreadsheets := statsSpreadsheets st;
         recordsToProcessCount := recordsToProcessCount st;
         recordsSkippedOrFailed := recordsSkippedOrFailed st;
         recordsMissingDetailsUAT := recordsMissingDetailsUAT st + 1;
         eventAttendancesLogged := eventAttendancesLogged st;
         console := console st |}
    else st.
Proof.
  unfold processed, missingDetails, step, processPerson. intros Hp.
  cbv zeta. rewrite Hp. reflexivity.
Qed.

Lemma missingDetails_processed r : processed r = true -> missingDetails r = false.
Proof.
  unfold processed, missingDetails. intros H.
  apply andb_true_iff in H. destruct H as (H1 & H2).
  now rewrite H1, H2.
Qed.

(** One step, field by field. *)
Lemma processPerson_fields st r sh :
  eventAttendance (statsSpreadsheets st) = Some sh ->
  statsSpreadsheets (step st r)
  = {| attendanceStats := attendanceStats (statsSpreadsheets st);
       eventAttendance := Some (sh ++ personRows tza today timeZone statsData r) |}
  /\ eventAttendancesLogged (step st r)
     = eventAttendancesLogged st
       + Z.of_nat (List.length (personRows tza today timeZone statsData r))
  /\ recordsToProcessCount (step st r)
     = recordsToProcessCount st + (if processed r then 1 else 0)
  /\ recordsMissingDetailsUAT (step st r)
     = recordsMissingDetailsUAT st + (if missingDetails r then 1 else 0)
  /\ recordsSkippedOrFailed (step st r)
     = recordsSkippedOrFailed st
       ++ (if unknownLevel statsData r
           then [unknownLevelDetail (cell r (UAT_COL_ID - 1))
                   (cell r (UAT_COL_FIRST_NAME - 1)) (cell r (UAT_COL_LAST_NAME - 1))]
           else []).
Proof.
  intros Hsh. unfold personRows, unknownLevel.
  destruct (processed r) eqn:Hp.
  - rewrite (missingDetails_processed r Hp).
    destruct (scoreOf statsData r) as [k|] eqn:Hs.
    + unfold step, exec.
      rewrite (processPerson_scored tza today timeZone statsData st r k sh Hp Hs Hsh).
      cbn [statsSpreadsheets eventAttendancesLogged recordsToProcessCount
             recordsMissingDetailsUAT recordsSkippedOrFailed andb].
      rewrite app_nil_r, Z.add_0_r. auto.
    + unfold step, exec.
      rewrite (processPerson_unknown tza today timeZone statsData st r Hp Hs).
      cbn [statsSpreadsheets eventAttendancesLogged recordsToProcessCount
             recordsMissingDetailsUAT recordsSkippedOrFailed andb List.length Z.of_nat].
      rewrite !Z.add_0_r, (spreadsheet_eta _ _ Hsh). auto.
  - rewrite (processPerson_unprocessed st r Hp).
    cbn [andb List.length Z.of_nat]. rewrite (spreadsheet_eta _ _ Hsh).
    destruct (missingDetails r);
      cbn [statsSpreadsheets eventAttendancesLogged recordsToProcessCount
             recordsMissingDetailsUAT recordsSkippedOrFailed];
      rewrite ?app_nil_r, ?Z.add_0_r; auto.
Qed.

Lemma count_filter_cons {A} (f : A -> bool) x l :
  Z.of_nat (List.length (filter f (x :: l)))
  = (if f x then 1 else 0) + Z.of_nat (List.length (filter f l)).
Proof. cbn [filter]. destruct (f x); cbn [List.length]; lia. Qed.

(** The whole loop, field by field. *)
Lemma run_fields uatData st sh :
  eventAttendance (statsSpreadsheets st) = Some sh ->
  let final := fold_left step uatData st in
  statsSpreadsheets final
  = {| attendanceStats := attendanceStats (statsSpreadsheets st);
       eventAttendance :=
         Some (sh ++ flat_map (personRows tza today timeZone statsData) uatData) |}
  /\ eventAttendancesLogged final
     = eventAttendancesLogged st
       + Z.of_nat (List.length
                     (flat_map (personRows tza today timeZone statsData) uatData))
  /\ recordsToProcessCount final
     = recordsToProcessCount st + Z.of_nat (List.length (filter processed uatData))
  /\ recordsMissingDetailsUAT final
     = recordsMissingDetailsUAT st
       + Z.of_nat (List.length (filter missingDetails uatData))
  /\ recordsSkippedOrFailed final
     = recordsSkippedOrFailed st
       ++ map (fun r => unknownLevelDetail (cell r (UAT_COL_ID - 1))
                          (cell r (UAT_COL_FIRST_NAME - 1))
                          (cell r (UAT_COL_LAST_NAME - 1)))
            (filter (unknownLevel statsData) uatData).
Proof.
  revert st sh; induction uatData as [|r rest IH]; intros st sh Hsh final.
  - unfold final. cbn [fold_left flat_map filter map List.length Z.of_nat].
    rewrite !Z.add_0_r, !app_nil_r.
    split; [|auto].
    rewrite <- (app_nil_r sh) at 1. now rewrite (spreadsheet_eta _ _ Hsh).
  - unfold final. cbn [fold_left flat_map].
    destruct (processPerson_fields st r sh Hsh) as (H1 & H2 & H3 & H4 & H5).
    destruct (IH (step st r) (sh ++ personRows tza today timeZone statsData r))
      as (I1 & I2 & I3 & I4 & I5).
    { now rewrite H1. }
    rewrite I1, I2, I3, I4, I5, H1, H2, H3, H4, H5.
    rewrite !count_filter_cons, length_app, <- !app_assoc.
    cbn [attendanceStats].
    split; [reflexivity|]. split; [lia|]. split; [lia|]. split; [lia|].
    f_equal. cbn [filter]. destruct (unknownLevel statsData r); reflexivity.
Qed.

End Run.

Lemma updateActivityLevels_complete tza ss statsSheet uatData today timeZone :
  attendanceStats ss = Some statsSheet -> uatData <> [] ->
  let base := match eventAttendance ss with
              | Some existing => existing
              | None => [eventAttendanceHeader]
              end in
  let step :=
    processPerson tza today timeZone (JsDate.formatDate today timeZone)
      (getValues statsSheet) in
  let final :=
    fold_left step uatData
      (initialState {| attendanceStats := Some statsSheet;
                       eventAttendance := Some base |}) in
  updateActivityLevels tza ss uatData today timeZone
  = (statsSpreadsheets final, ProcessingComplete final).
Proof.
  intros Hstats Hne base step final.
  destruct ss as [st ev]. cbn [attendanceStats eventAttendance] in *. subst st.
  unfold updateActivityLevels. cbn [attendanceStats eventAttendance].
  destruct uatData as [|r rest]; [congruence|].
  unfold final, step, base, initialState.
  destruct ev; reflexivity.
Qed.

(** X6. A run that reaches the loop leaves in the 'Event Attendance' tab the
    rows it had (or the header row, when the tab was missing) followed by the
    rows of each person of the tracker, in the order of the tracker; the
    number of entries it reports as logged is the number of rows it added. *)
Theorem event_log_after_run
  (tza : Z) (ss : spreadsheet) (statsSheet : sheet) (uatData : list row)
  (today timeZone : Z)
  (Hstats : attendanceStats ss = Some statsSheet) (Hrows : uatData <> []) :
  let added :=
    flat_map (personRows tza today timeZone (getValues statsSheet)) uatData in
  exists final,
    updateActivityLevels tza ss uatData today timeZone
    = ({| attendanceStats := Some statsSheet;
          eventAttendance :=
            Some (match eventAttendance ss with
                  | Some existing => existing
                  | None => [eventAttendanceHeader]
                  end ++ added) |},
       ProcessingComplete final)
    /\ eventAttendancesLogged final = Z.of_nat (List.length added).
Proof.
  intros added.
  rewrite (updateActivityLevels_complete tza ss statsSheet uatData today timeZone
             Hstats Hrows).
  cbv zeta.
  match goal with |- context [fold_left ?f uatData ?i] => set (final := fold_left f uatData i) end.
  destruct (run_fields tza today timeZone (getValues statsSheet) uatData
              (initialState {| attendanceStats := Some statsSheet;
                               eventAttendance :=
                                 Some (match eventAttendance ss with
                                       | Some existing => existing
                                       | None => [eventAttendanceHeader]
                                       end) |}) _ eq_refl)
    as (H1 & H2 & _).
  fold final in H1, H2.
  exists final. rewrite H1. cbn [initialState statsSpreadsheets attendanceStats
                                    eventAttendancesLogged] in *.
  split; [reflexivity|]. rewrite H2. fold added. lia.
Qed.

Lemma event_log_after_run_witness :
  let uatData :=
    [[VString "a1"; VString "Ann Lee"; VString "Lee"; VString "Ann"; VString "Inactive"];
     [VString ""; VString "Cy Poe"; VString "Poe"; VString "Cy"; VString "core"]] in
  exists final,
    updateActivityLevels 0 {| attendanceStats := Some []; eventAttendance := None |}
      uatData 1704240000777 0
    = ({| attendanceStats := Some [];
          eventAttendance :=
            Some ([eventAttendanceHeader]
                  ++ flat_map (personRows 0 1704240000777 0 (getValues [])) uatData) |},
       ProcessingComplete final)
    /\ eventAttendancesLogged final = 1.
Proof.
  intros uatData.
  destruct (event_log_after_run 0
              {| attendanceStats := Some []; eventAttendance := None |} [] uatData
              1704240000777 0 eq_refl ltac:(discriminate)) as (final & H1 & H2).
  exists final. split; [exact H1|]. rewrite H2. reflexivity.
Defined.

(** X7. The counters of the closing message: the records attempted are the
    rows with an id, both names and a level; the records with missing
    details are the rows with a level but without an id or a name; the
    skipped records are, in order, the attempted rows whose level is not
    recognised.  No row counts twice, so attempted plus missing is at most
    the number of rows. *)
Theorem run_counters
  (tza : Z) (ss : spreadsheet) (statsSheet : sheet) (uatData : list row)
  (today timeZone : Z)
  (Hstats : attendanceStats ss = Some statsSheet) (Hrows : uatData <> []) :
  exists ss' final,
    updateActivityLevels tza ss uatData today timeZone = (ss', ProcessingComplete final)
    /\ recordsToProcessCount final = Z.of_nat (List.length (filter processed uatData))
    /\ recordsMissingDetailsUAT final
       = Z.of_nat (List.length (filter missingDetails uatData))
    /\ recordsSkippedOrFailed final
       = map (fun r => unknownLevelDetail (cell r (UAT_COL_ID - 1))
                         (cell r (UAT_COL_FIRST_NAME - 1))
                         (cell r (UAT_COL_LAST_NAME - 1)))
           (filter (unknownLevel (getValues statsSheet)) uatData)
    /\ recordsToProcessCount final + recordsMissingDetailsUAT final
       <= Z.of_nat (List.length uatData).
Proof.
  rewrite (updateActivityLevels_complete tza ss statsSheet uatData today timeZone
             Hstats Hrows).
  cbv zeta.
  match goal with |- context [fold_left ?f uatData ?i] => set (final := fold_left f uatData i) end.
  destruct (run_fields tza today timeZone (getValues statsSheet) uatData
              (initialState {| attendanceStats := Some statsSheet;
                               eventAttendance :=
                                 Some (match eventAttendance ss with
                                       | Some existing => existing
                                       | None => [eventAttendanceHeader]
                                       end) |}) _ eq_refl)
    as (_ & _ & H3 & H4 & H5).
  fold final in H3, H4, H5.
  cbn [initialState recordsToProcessCount recordsMissingDetailsUAT
         recordsSkippedOrFailed app] in H3, H4, H5.
  exists (statsSpreadsheets final), final.
  split; [reflexivity|]. split; [lia|]. split; [lia|]. split; [exact H5|].
  rewrite H3, H4. clear.
  induction uatData as [|r rest IH]; [cbn; lia|].
  rewrite !count_filter_cons. cbn [List.length].
  assert (Hex : (if processed r then 1 else 0) + (if missingDetails r then 1 else 0) <= 1).
  { destruct (processed r) eqn:Hp; [rewrite (missingDetails_processed r Hp); lia|].
    destruct (missingDetails r); lia. }
  lia.
Qed.

Lemma run_counters_witness :
  let uatData :=
    [[VString "a1"; VString "Ann Lee"; VString "Lee"; VString "Ann"; VString "Retired"];
     [VString ""; VString "Cy Poe"; VString "Poe"; VString "Cy"; VString "core"];
     [VString "b2"; VString "Bob Roe"; VString "Roe"; VString "Bob"; VString ""]] in
  exists ss' final,
    updateActivityLevels 0 {| attendanceStats := Some []; eventAttendance := None |}
      uatData 1704240000777 0 = (ss', ProcessingComplete final)
    /\ recordsToProcessCount final = 1
    /\ recordsMissingDetailsUAT final = 1
    /\ recordsSkippedOrFailed final = ["Ann Lee (ID: a1) - Unknown Level"].
Proof.
  intros uatData.
  destruct (run_counters 0 {| attendanceStats := Some []; eventAttendance := None |}
              [] uatData 1704240000777 0 eq_refl ltac:(discriminate))
    as (ss' & final & H0 & H1 & H2 & H3 & _).
  exists ss', final.
  split; [exact H0|]. split; [rewrite H1; reflexivity|].
  split; [rewrite H2; reflexivity|]. rewrite H3. reflexivity.
Defined.

(** ** The rows of one person *)

Lemma rowsOf_shape tza today timeZone r k :
  Forall (fun x => List.length x = 14%nat
                   /\ cell x 0 = cell r (UAT_COL_ID - 1)
                   /\ cell x 13 = VString (JsDate.formatDate today timeZone))
    (rowsOf tza today timeZone r k).
Proof.
  unfold rowsOf. rewrite rowsForEventAttendance_spec.
  apply Forall_map, Forall_forall. intros kd _. repeat split.
Qed.

(** X8. Every row that a run logs for a person has 14 cells, carries the
    person's id, which is not blank, and the execution date of the run; and
    no person gets more than 92 rows, whatever the stats sheet holds. *)
Theorem person_rows_shape_and_bound
  (tza today timeZone : Z) (statsData : list row) (r : row) :
  Forall (fun x => List.length x = 14%nat
                   /\ hasContent (cell x 0) = true
                   /\ cell x 13 = VString (JsDate.formatDate today timeZone))
    (personRows tza today timeZone statsData r)
  /\ (List.length (personRows tza today timeZone statsData r) <= 92)%nat.
Proof.
  unfold personRows.
  destruct (processed r) eqn:Hp; [|split; [constructor | cbn; lia]].
  destruct (scoreOf statsData r) as [k|] eqn:Hs; [|split; [constructor | cbn; lia]].
  split.
  - eapply Forall_impl; [|apply rowsOf_shape].
    intros x (H1 & H2 & H3). repeat split; auto.
    rewrite H2. unfold processed in Hp.
    apply andb_true_iff in Hp. destruct Hp as (Hp & _).
    apply andb_true_iff in Hp. destruct Hp as (Hp & _).
    apply andb_true_iff in Hp. now destruct Hp.
  - pose proof (rowsOf_length tza today timeZone r k).
    pose proof (daysIntoQuarter_le_92 tza today). lia.
Qed.



(** ** Rows fetched from a source sheet *)

Lemma fetchLoop_spec idCol firstNameCol lastNameCol rows outputData :
  fetchLoop idCol firstNameCol lastNameCol rows outputData
  = outputData
    ++ map (fetchedRow idCol firstNameCol lastNameCol)
         (filter (fetchKeeps idCol firstNameCol lastNameCol) rows).
Proof.
  revert outputData; induction rows as [|r rest IH]; intros outputData.
  - cbn. now rewrite app_nil_r.
  - cbn [fetchLoop filter]. unfold fetchKeeps at 1.
    destruct (List.length r <? _)%nat; cbn [negb andb]; [apply IH|].
    destruct (hasContent _ && hasContent _ && hasContent _); [|apply IH].
    rewrite IH, <- app_assoc. reflexivity.
Qed.

Lemma fetchedNames_spec idCol firstNameCol lastNameCol sourceData :
  fetchedNames idCol firstNameCol lastNameCol sourceData
  = map (fetchedRow idCol firstNameCol lastNameCol)
      (filter (fetchKeeps idCol firstNameCol lastNameCol) (tl sourceData)).
Proof.
  unfold fetchedNames.
  destruct (Nat.ltb_spec (List.length sourceData) 2) as [Hlt|Hge].
  - destruct sourceData as [|h [|r rest]]; cbn in *; try reflexivity; lia.
  - now rewrite fetchLoop_spec.
Qed.

(** X10. The rows fetched are, in the order of the source, one row for each
    source row after the first that is wide enough and has an id and both
    names: the id, the trimmed first name, a space and the trimmed last name,
    the last name, the first name and an empty level.  The first row of the
    source is never fetched, so fewer rows are fetched than the source has,
    and none from a source of one row or none. *)
Theorem fetched_rows_in_source_order
  (idCol firstNameCol lastNameCol : nat) (sourceData : list row) :
  fetchedNames idCol firstNameCol lastNameCol sourceData
  = map (fetchedRow idCol firstNameCol lastNameCol)
      (filter (fetchKeeps idCol firstNameCol lastNameCol) (tl sourceData))
  /\ (List.length (fetchedNames idCol firstNameCol lastNameCol sourceData)
      <= List.length sourceData - 1)%nat
  /\ Forall (fun o => List.length o = 5%nat /\ cell o 4 = VNull
                      /\ hasContent (cell o 0) = true
                      /\ hasContent (cell o 2) = true
                      /\ hasContent (cell o 3) = true)
       (fetchedNames idCol firstNameCol lastNameCol sourceData).
Proof.
  rewrite fetchedNames_spec.
  split; [reflexivity|]. split.
  - rewrite length_map.
    pose proof (filter_length_le (fetchKeeps idCol firstNameCol lastNameCol)
                  (tl sourceData)).
    destruct sourceData; cbn [tl List.length] in *; lia.
  - apply Forall_map, Forall_forall. intros r Hr.
    apply filter_In in Hr. destruct Hr as (_ & Hk).
    unfold fetchKeeps in Hk.
    apply andb_true_iff in Hk. destruct Hk as (_ & Hk).
    apply andb_true_iff in Hk. destruct Hk as (Hk & H3).
    apply andb_true_iff in Hk. destruct Hk as (H1 & H2).
    cbn [fetchedRow cell nth List.length]. auto.
Qed.

Lemma statsRowMatches_refl r :
  statsRowMatches r (cell r (STATS_COL_PERSON_ID - 1))
    (cell r (STATS_COL_FIRST_NAME - 1)) (cell r (STATS_COL_LAST_NAME - 1)) = true.
Proof. unfold statsRowMatches. now rewrite !String.eqb_refl. Qed.

Lemma currentStats_found statsData pid fn ln :
  (exists r, In r statsData /\ statsRowMatches r pid fn ln = true) ->
  exists r, In r statsData /\ statsRowMatches r pid fn ln = true
            /\ currentStats statsData pid fn ln
               = (parseIntOrZero (cell r (STATS_COL_QUARTER_EVENTS - 1)),
                  parseIntOrZero (cell r (STATS_COL_ACTIVITY_SCORE - 1))).
Proof.
  induction statsData as [|x rest IH]; intros (r & Hin & Hm); [destruct Hin|].
  cbn [currentStats].
  destruct (statsRowMatches x pid fn ln) eqn:Hx.
  - exists x. split; [now left|]. auto.
  - destruct Hin as [->|Hin]; [congruence|].
    destruct IH as (r' & Hin' & Hm' & Hc); [now exists r|].
    exists r'. split; [now right|]. auto.
Qed.

(** X11. A person fetched from the stats sheet is found again in it: the row
    built for the tracker matches the stats row it was built from under the
    test of [updateActivityLevels], so the E and K fetched for that person
    are read from a matching row of the sheet, never the (0, 0) of a miss. *)
Theorem fetched_from_stats_is_found (statsData : list row) (o : row)
  (Ho : In o (fetchedNames STATS_COL_PERSON_ID STATS_COL_FIRST_NAME
                STATS_COL_LAST_NAME statsData)) :
  exists r,
    In r statsData
    /\ statsRowMatches r (cell o (UAT_COL_ID - 1)) (cell o (UAT_COL_FIRST_NAME - 1))
         (cell o (UAT_COL_LAST_NAME - 1)) = true
    /\ statsOf statsData o
       = (parseIntOrZero (cell r (STATS_COL_QUARTER_EVENTS - 1)),
          parseIntOrZero (cell r (STATS_COL_ACTIVITY_SCORE - 1))).
Proof.
  rewrite fetchedNames_spec in Ho.
  apply in_map_iff in Ho. destruct Ho as (r & <- & Hr).
  apply filter_In in Hr. destruct Hr as (Hin & _).
  unfold statsOf.
  apply currentStats_found.
  exists r. split.
  - destruct statsData; [destruct Hin | now right].
  - exact (statsRowMatches_refl r).
Qed.

Lemma fetched_from_stats_is_found_witness :
  let statsData :=
    [[VString "Person ID"; VString "Full Name"; VString "First Name";
      VString "Last Name"; VString "Events This Quarter"];
     [VString "a1"; VString "Ann Lee"; VString "Ann"; VString "Lee"; VNumber 5;
      VNull; VNull; VNull; VNull; VNull; VNull; VString "7"]] in
  exists r,
    In r statsData
    /\ statsOf statsData [VString "a1"; VString "Ann Lee"; VString "Lee"; VString "Ann"; VNull]
       = (parseIntOrZero (cell r (STATS_COL_QUARTER_EVENTS - 1)),
          parseIntOrZero (cell r (STATS_COL_ACTIVITY_SCORE - 1))).
Proof.
  intros statsData.
  destruct (fetched_from_stats_is_found statsData
              [VString "a1"; VString "Ann Lee"; VString "Lee"; VString "Ann"; VNull])
    as (r & H1 & _ & H3).
  - left. reflexivity.
  - exists r. split; assumption.
Defined.

Lemma fetched_not_processed idCol firstNameCol lastNameCol sourceData o :
  In o (fetchedNames idCol firstNameCol lastNameCol sourceData) ->
  processed o = false /\ missingDetails o = false.
Proof.
  intros Ho. rewrite fetchedNames_spec in Ho.
  apply in_map_iff in Ho. destruct Ho as (r & <- & _).
  unfold processed, missingDetails.
  cbn [fetchedRow cell nth UAT_COL_ACTIVITY_LEVEL Nat.sub hasContent ToBoolean andb].
  now rewrite !andb_false_r.
Qed.

(** X12. Rows as fetched carry no level, so a run of [updateActivityLevels]
    over them logs nothing: the 'Event Attendance' tab keeps its rows (or
    gets only its header) and every counter of the run is 0. *)
Theorem run_on_fetched_rows_logs_nothing
  (tza : Z) (ss : spreadsheet) (statsSheet : sheet) (today timeZone : Z)
  (idCol firstNameCol lastNameCol : nat) (sourceData : list row)
  (Hstats : attendanceStats ss = Some statsSheet)
  (Hrows : fetchedNames idCol firstNameCol lastNameCol sourceData <> []) :
  exists final,
    updateActivityLevels tza ss
      (fetchedNames idCol firstNameCol lastNameCol sourceData) today timeZone
    = ({| attendanceStats := Some statsSheet;
          eventAttendance :=
            Some (match eventAttendance ss with
                  | Some existing => existing
                  | None => [eventAttendanceHeader]
                  end) |},
       ProcessingComplete final)
    /\ eventAttendancesLogged final = 0
    /\ recordsToProcessCount final = 0
    /\ recordsMissingDetailsUAT final = 0
    /\ recordsSkippedOrFailed final = [].
Proof.
  set (fetched := fetchedNames idCol firstNameCol lastNameCol sourceData) in *.
  rewrite (updateActivityLevels_complete tza ss statsSheet fetched today timeZone
             Hstats Hrows).
  cbv zeta.
  match goal with |- context [fold_left ?f fetched ?i] => set (final := fold_left f fetched i) end.
  destruct (run_fields tza today timeZone (getValues statsSheet) fetched
              (initialState {| attendanceStats := Some statsSheet;
                               eventAttendance :=
                                 Some (match eventAttendance ss with
                                       | Some existing => existing
                                       | None => [eventAttendanceHeader]
                                       end) |}) _ eq_refl)
    as (H1 & H2 & H3 & H4 & H5).
  fold final in H1, H2, H3, H4, H5.
  assert (Hnone : forall o, In o fetched ->
                    processed o = false /\ missingDetails o = false)
    by (intros o; apply fetched_not_processed).
  assert (Hflat : flat_map (personRows tza today timeZone (getValues statsSheet)) fetched
                  = []).
  { clear -Hnone. induction fetched as [|o rest IH]; [reflexivity|].
    cbn [flat_map]. unfold personRows at 1.
    destruct (Hnone o (or_introl eq_refl)) as (-> & _).
    apply IH. intros x Hx. apply Hnone. now right. }
  assert (Hf1 : filter processed fetched = []).
  { clear -Hnone. induction fetched as [|o rest IH]; [reflexivity|].
    cbn [filter]. destruct (Hnone o (or_introl eq_refl)) as (-> & _).
    apply IH. intros x Hx. apply Hnone. now right. }
  assert (Hf2 : filter missingDetails fetched = []).
  { clear -Hnone. induction fetched as [|o rest IH]; [reflexivity|].
    cbn [filter]. destruct (Hnone o (or_introl eq_refl)) as (_ & ->).
    apply IH. intros x Hx. apply Hnone. now right. }
  assert (Hf3 : filter (unknownLevel (getValues statsSheet)) fetched = []).
  { clear -Hnone. induction fetched as [|o rest IH]; [reflexivity|].
    cbn [filter]. unfold unknownLevel at 1.
    destruct (Hnone o (or_introl eq_refl)) as (-> & _). cbn [andb].
    apply IH. intros x Hx. apply Hnone. now right. }
  rewrite Hflat in H1, H2. rewrite Hf1 in H3. rewrite Hf2 in H4. rewrite Hf3 in H5.
  rewrite app_nil_r in H1.
  exists final. rewrite H1, H2, H3, H4, H5.
  cbn. auto.
Qed.

Lemma run_on_fetched_rows_logs_nothing_witness :
  let sourceData :=
    [[VString "Person ID"; VString "Full Name"; VString "First Name"; VString "Last Name"];
     [VString "a1"; VString "Ann Lee"; VString "Ann"; VString "Lee"]] in
  exists final,
    updateActivityLevels 0 {| attendanceStats := Some sourceData; eventAttendance := None |}
      (fetchedNames 1 3 4 sourceData) 1704240000777 0
    = ({| attendanceStats := Some sourceData;
          eventAttendance := Some [eventAttendanceHeader] |},
       ProcessingComplete final)
    /\ eventAttendancesLogged final = 0.
Proof.
  intros sourceData.
  destruct (run_on_fetched_rows_logs_nothing 0
              {| attendanceStats := Some sourceData; eventAttendance := None |}
              sourceData 1704240000777 0 1 3 4 sourceData eq_refl ltac:(discriminate))
    as (final & H1 & H2 & _).
  exists final. split; assumption.
Defined.

(** ** [loadData] *)

Lemma cell_setIndex a i v j :
  cell (setIndex a i v) j = if (i =? j)%nat then v else cell a j.
Proof.
  unfold cell. revert a j; induction i as [|i IH]; intros [|x a] [|j];
    cbn [setIndex nth Nat.eqb]; try reflexivity.
  - now destruct j.
  - rewrite IH. destruct (i =? j)%nat; [reflexivity | now destruct j].
  - apply IH.
Qed.

Lemma setIndex_twice a i v w : setIndex (setIndex a i v) i w = setIndex a i w.
Proof.
  revert a; induction i as [|i IH]; intros [|x a]; cbn [setIndex]; try reflexivity.
  - now rewrite IH.
  - now rewrite IH.
Qed.

Lemma setIndex_swap a i j v w :
  i <> j -> setIndex (setIndex a i v) j w = setIndex (setIndex a j w) i v.
Proof.
  revert a j; induction i as [|i IH]; intros [|x a] [|j] Hij;
    cbn [setIndex]; try congruence; try reflexivity.
  - rewrite IH by congruence. reflexivity.
  - rewrite IH by congruence. reflexivity.
Qed.

Lemma setIndex_fill_twice a v w :
  setIndex (setIndex (setIndex (setIndex a 0 v) 1 w) 0 v) 1 w
  = setIndex (setIndex a 0 v) 1 w.
Proof.
  rewrite (setIndex_swap (setIndex a 0 v) 1 0 w v) by discriminate.
  now rewrite !setIndex_twice.
Qed.

Section Load.

Variable directoryData : list row.

Lemma loadRow_fields st r :
  uatValuesUpdated (loadRow directoryData st r)
  = uatValuesUpdated st ++ [loadedRow directoryData r]
  /\ namesProcessed (loadRow directoryData st r)
     = namesProcessed st + (if hasBothNames r then 1 else 0)
  /\ namesFound (loadRow directoryData st r) + Z.of_nat (List.length (namesNotFoundList (loadRow directoryData st r)))
     = namesFound st + Z.of_nat (List.length (namesNotFoundList st))
       + (if hasBothNames r then 1 else 0).
Proof.
  unfold loadRow, loadedRow, hasBothNames. cbv zeta.
  destruct (hasContent _ && hasContent _).
  - destruct (directoryScan _ _ _) as [[personId fullName]|];
      cbn [uatValuesUpdated namesProcessed namesFound namesNotFoundList];
      rewrite ?length_app; cbn [List.length]; repeat split; lia.
  - cbn [uatValuesUpdated namesProcessed namesFound namesNotFoundList].
    repeat split; lia.
Qed.

Lemma loadRows_fields rows st :
  let final := fold_left (loadRow directoryData) rows st in
  uatValuesUpdated final = uatValuesUpdated st ++ map (loadedRow directoryData) rows
  /\ namesProcessed final
     = namesProcessed st + Z.of_nat (List.length (filter hasBothNames rows))
  /\ namesFound final + Z.of_nat (List.length (namesNotFoundList final))
     = namesFound st + Z.of_nat (List.length (namesNotFoundList st))
       + Z.of_nat (List.length (filter hasBothNames rows)).
Proof.
  revert st; induction rows as [|r rest IH]; intros st final.
  - unfold final. cbn. rewrite app_nil_r. repeat split; lia.
  - unfold final. cbn [fold_left map].
    destruct (loadRow_fields st r) as (H1 & H2 & H3).
    destruct (IH (loadRow directoryData st r)) as (I1 & I2 & I3).
    rewrite I1, I2, I3, H1, H2, H3, <- app_assoc, !count_filter_cons.
    cbn [app]. repeat split; lia.
Qed.

Lemma loadRows_updated rows :
  uatValuesUpdated (loadRows directoryData rows) = map (loadedRow directoryData) rows.
Proof.
  unfold loadRows. destruct (loadRows_fields rows
    {| uatValuesUpdated := []; namesProcessed := 0; namesFound := 0;
       namesNotFoundList := [] |}) as (H & _).
  exact H.
Qed.

Lemma loadedRow_names_found r personId fullName :
  hasBothNames r = true ->
  directoryScan directoryData (cell r (UAT_COL_LAST_NAME - UAT_COL_ID))
    (cell r (UAT_COL_FIRST_NAME - UAT_COL_ID)) = Some (personId, fullName) ->
  let r' := loadedRow directoryData r in
  cell r' 0 = personId /\ cell r' 1 = VString fullName
  /\ cell r' 2 = cell r 2 /\ cell r' 3 = cell r 3.
Proof.
  intros Hb Hs r'. unfold r', loadedRow. rewrite Hb, Hs.
  rewrite !cell_setIndex. cbn. auto.
Qed.

Lemma loadedRow_names_missing r :
  hasBothNames r = true ->
  directoryScan directoryData (cell r (UAT_COL_LAST_NAME - UAT_COL_ID))
    (cell r (UAT_COL_FIRST_NAME - UAT_COL_ID)) = None ->
  let r' := loadedRow directoryData r in
  cell r' 0 = VNull /\ cell r' 1 = VNull /\ cell r' 2 = VNull /\ cell r' 3 = VNull.
Proof.
  intros Hb Hs r'. unfold r', loadedRow. rewrite Hb, Hs.
  rewrite !cell_setIndex. cbn. auto.
Qed.

(** Handing a row back a second time changes nothing. *)
Lemma loadedRow_idempotent r :
  loadedRow directoryData (loadedRow directoryData r) = loadedRow directoryData r.
Proof.
  destruct (hasBothNames r) eqn:Hb.
  - destruct (directoryScan directoryData (cell r (UAT_COL_LAST_NAME - UAT_COL_ID))
                (cell r (UAT_COL_FIRST_NAME - UAT_COL_ID)))
      as [[personId fullName]|] eqn:Hs.
    + destruct (loadedRow_names_found r personId fullName Hb Hs) as (_ & _ & H2 & H3).
      set (r' := loadedRow directoryData r) in *.
      assert (Hb' : hasBothNames r' = true).
      { unfold hasBothNames in *. cbn [UAT_COL_LAST_NAME UAT_COL_FIRST_NAME UAT_COL_ID Nat.sub] in *.
        now rewrite H2, H3. }
      unfold loadedRow at 1. rewrite Hb'.
      cbn [UAT_COL_LAST_NAME UAT_COL_FIRST_NAME UAT_COL_ID Nat.sub] in *.
      rewrite H2, H3, Hs.
      unfold r', loadedRow. rewrite Hb.
      cbn [UAT_COL_LAST_NAME UAT_COL_FIRST_NAME UAT_COL_ID UAT_COL_FULL_NAME Nat.sub].
      rewrite Hs.
      apply setIndex_fill_twice.
    + destruct (loadedRow_names_missing r Hb Hs) as (_ & _ & H2 & _).
      set (r' := loadedRow directoryData r) in *.
      unfold loadedRow at 1.
      assert (Hb' : hasBothNames r' = false).
      { unfold hasBothNames. cbn [UAT_COL_LAST_NAME UAT_COL_ID Nat.sub].
        now rewrite H2. }
      now rewrite Hb'.
  - unfold loadedRow. now rewrite Hb, Hb.
Qed.

End Load.

(** X13. [loadData] hands back as many rows as it read, and its counters add
    up: the names processed are the rows with both names, and each of them
    is either found or listed as not found. *)
Theorem load_counters_add_up (directoryData uatValuesToUpdate : list row) :
  let st := loadRows directoryData uatValuesToUpdate in
  List.length (uatValuesUpdated st) = List.length uatValuesToUpdate
  /\ namesProcessed st = Z.of_nat (List.length (filter hasBothNames uatValuesToUpdate))
  /\ namesFound st + Z.of_nat (List.length (namesNotFoundList st)) = namesProcessed st.
Proof.
  intros st. unfold st, loadRows.
  destruct (loadRows_fields directoryData uatValuesToUpdate
    {| uatValuesUpdated := []; namesProcessed := 0; namesFound := 0;
       namesNotFoundList := [] |}) as (H1 & H2 & H3).
  cbv zeta in H1, H2, H3. rewrite H1, H2, H3.
  cbn [uatValuesUpdated namesProcessed namesFound namesNotFoundList app List.length].
  rewrite length_map. repeat split; lia.
Qed.

Lemma Forall2_first {A B : Type} (P : A -> B -> Prop) a l l' d :
  Forall2 P (a :: l) l' -> P a (nth 0 l' d).
Proof. intros H. inversion H; subst. assumption. Qed.

Lemma directoryRowMatches_iff d lastName firstName :
  directoryRowMatches d lastName firstName = true
  <-> Text.toLowerCase (Text.trim (ToString (cell d (DIR_COL_LAST_NAME - 1))))
      = Text.toLowerCase (Text.trim (ToString lastName))
      /\ Text.toLowerCase (Text.trim (ToString (cell d (DIR_COL_FIRST_NAME - 1))))
         = Text.toLowerCase (Text.trim (ToString firstName)).
Proof.
  unfold directoryRowMatches. rewrite andb_true_iff, !String.eqb_eq. reflexivity.
Qed.

Lemma directoryScan_first_match before d after lastName firstName :
  Forall (fun x => directoryRowMatches x lastName firstName = false) before ->
  directoryRowMatches d lastName firstName = true ->
  directoryScan (before ++ d :: after) lastName firstName
  = Some (cell d (DIR_COL_PERSON_ID - 1),
          (Text.trim (ToString (cell d (DIR_COL_FIRST_NAME - 1))) ++ " "
           ++ Text.trim (ToString (cell d (DIR_COL_LAST_NAME - 1))))%string).
Proof.
  intros Hb Hd. induction Hb as [|x rest Hx _ IH]; cbn [app directoryScan].
  - now rewrite Hd.
  - now rewrite Hx.
Qed.

Lemma directoryScan_miss directoryData lastName firstName :
  Forall (fun x => directoryRowMatches x lastName firstName = false) directoryData ->
  directoryScan directoryData lastName firstName = None.
Proof.
  induction 1 as [|x rest Hx _ IH]; cbn [directoryScan]; [reflexivity|].
  now rewrite Hx.
Qed.

(** X14. Row by row.  A directory row matches a tracker row when the trimmed
    last names and the trimmed first names are equal without regard to letter
    case.  A row without both names is handed back as it is; a row with both
    names keeps them as typed and receives the id of the first directory row
    that matches and, as full name, that row's trimmed first name, a space
    and its trimmed last name; when no directory row matches, the row is
    handed back with all four cells empty, names included. *)
Theorem load_row_by_row (directoryData uatValuesToUpdate : list row) :
  (forall d lastName firstName,
      directoryRowMatches d lastName firstName = true
      <-> Text.toLowerCase (Text.trim (ToString (cell d (DIR_COL_LAST_NAME - 1))))
          = Text.toLowerCase (Text.trim (ToString lastName))
          /\ Text.toLowerCase (Text.trim (ToString (cell d (DIR_COL_FIRST_NAME - 1))))
             = Text.toLowerCase (Text.trim (ToString firstName)))
  /\ Forall2
       (fun r r' =>
          (hasBothNames r = false -> r' = r)
          /\ (hasBothNames r = true ->
              (forall before d after,
                  directoryData = before ++ d :: after ->
                  Forall (fun x => directoryRowMatches x (cell r 2) (cell r 3) = false)
                    before ->
                  directoryRowMatches d (cell r 2) (cell r 3) = true ->
                  cell r' 0 = cell d (DIR_COL_PERSON_ID - 1)
                  /\ cell r' 1
                     = VString (Text.trim (ToString (cell d (DIR_COL_FIRST_NAME - 1)))
                                ++ " "
                                ++ Text.trim (ToString (cell d (DIR_COL_LAST_NAME - 1))))
                  /\ cell r' 2 = cell r 2 /\ cell r' 3 = cell r 3)
              /\ (Forall (fun x => directoryRowMatches x (cell r 2) (cell r 3) = false)
                    directoryData ->
                  cell r' 0 = VNull /\ cell r' 1 = VNull
                  /\ cell r' 2 = VNull /\ cell r' 3 = VNull)))
       uatValuesToUpdate
       (uatValuesUpdated (loadRows directoryData uatValuesToUpdate)).
Proof.
  split; [intros d lastName firstName; apply directoryRowMatches_iff|].
  rewrite loadRows_updated.
  induction uatValuesToUpdate as [|r rest IH]; cbn [map]; constructor; [|exact IH].
  split.
  - intros Hb. unfold loadedRow. now rewrite Hb.
  - intros Hb. split.
    + intros before d after -> Hbefore Hd.
      apply (loadedRow_names_found _ r _ _ Hb).
      now apply directoryScan_first_match.
    + intros Hmiss.
      apply (loadedRow_names_missing directoryData r Hb).
      now apply directoryScan_miss.
Qed.

Lemma load_row_by_row_witness :
  let directoryData :=
    [[VString "Person ID"; VString "Name"; VString "Last Name"; VString "First Name"];
     [VNumber 7; VNull; VString " Lee "; VString "Ann"];
     [VNumber 9; VNull; VString "LEE"; VString "ANN"]] in
  let r := [VNull; VNull; VString "lee"; VString " ann"] in
  let r' := nth 0 (uatValuesUpdated (loadRows directoryData [r])) [] in
  cell r' 0 = VNumber 7 /\ cell r' 1 = VString "Ann Lee"
  /\ cell r' 2 = VString "lee" /\ cell r' 3 = VString " ann".
Proof.
  intros directoryData r r'.
  destruct (load_row_by_row directoryData [r]) as (_ & H).
  destruct (Forall2_first _ _ _ _ [] H) as (_ & Hfound).
  destruct (Hfound eq_refl) as (Hfirst & _).
  apply (Hfirst [nth 0 directoryData []] (nth 1 directoryData [])
           [nth 2 directoryData []]).
  - reflexivity.
  - constructor; [reflexivity | constructor].
  - reflexivity.
Defined.

(** X15. Loading twice is loading once: applied to the rows it handed back,
    the loop hands back the same rows. *)
Theorem load_twice_is_load_once (directoryData uatValuesToUpdate : list row) :
  uatValuesUpdated
    (loadRows directoryData
       (uatValuesUpdated (loadRows directoryData uatValuesToUpdate)))
  = uatValuesUpdated (loadRows directoryData uatValuesToUpdate).
Proof.
  rewrite !loadRows_updated, map_map.
  apply map_ext. intros r. apply loadedRow_idempotent.
Qed.

Lemma directoryRowMatches_refl r :
  directoryRowMatches r (cell r (DIR_COL_LAST_NAME - 1)) (cell r (DIR_COL_FIRST_NAME - 1))
  = true.
Proof. unfold directoryRowMatches. now rewrite !String.eqb_refl. Qed.

Lemma directoryScan_found directoryData lastName firstName :
  (exists r, In r directoryData /\ directoryRowMatches r lastName firstName = true) ->
  exists found, directoryScan directoryData lastName firstName = Some found.
Proof.
  induction directoryData as [|x rest IH]; intros (r & Hin & Hm); [destruct Hin|].
  cbn [directoryScan].
  destruct (directoryRowMatches x lastName firstName) eqn:Hx; [eexists; reflexivity|].
  destruct Hin as [->|Hin]; [congruence|].
  apply IH. now exists r.
Qed.

Lemma loadRows_all_found directoryData rows :
  Forall (fun r => hasBothNames r = true
                   /\ exists found,
                        directoryScan directoryData (cell r (UAT_COL_LAST_NAME - UAT_COL_ID))
                          (cell r (UAT_COL_FIRST_NAME - UAT_COL_ID)) = Some found) rows ->
  forall st,
    namesNotFoundList (fold_left (loadRow directoryData) rows st) = namesNotFoundList st
    /\ namesFound (fold_left (loadRow directoryData) rows st)
       = namesFound st + Z.of_nat (List.length rows).
Proof.
  induction 1 as [|r rest (Hb & (id & full) & Hs) _ IH]; intros st.
  - cbn. split; [reflexivity | lia].
  - cbn [fold_left]. destruct (IH (loadRow directoryData st r)) as (I1 & I2).
    rewrite I1, I2. unfold loadRow. cbv zeta.
    unfold hasBothNames in Hb. rewrite Hb, Hs.
    cbn [namesNotFoundList namesFound List.length]. split; [reflexivity | lia].
Qed.

(** X16. Names fetched from the directory are all found by [loadData] in the
    same directory: applied to columns A to D of the rows built by
    [fetchAndPopulateNames] from the directory, the loop finds every name and
    lists none as not found. *)
Theorem names_fetched_from_directory_are_found (directoryData : list row) :
  let fetched :=
    fetchedNames DIR_COL_PERSON_ID DIR_COL_FIRST_NAME DIR_COL_LAST_NAME directoryData in
  let st := loadRows directoryData (map (firstn 4) fetched) in
  namesNotFoundList st = []
  /\ namesFound st = Z.of_nat (List.length fetched)
  /\ namesProcessed st = Z.of_nat (List.length fetched).
Proof.
  intros fetched st.
  assert (Hall :
    Forall (fun r => hasBothNames r = true
                     /\ exists found,
                          directoryScan directoryData
                            (cell r (UAT_COL_LAST_NAME - UAT_COL_ID))
                            (cell r (UAT_COL_FIRST_NAME - UAT_COL_ID)) = Some found)
      (map (firstn 4) fetched)).
  { unfold fetched. rewrite fetchedNames_spec, map_map.
    apply Forall_map, Forall_forall. intros r Hr.
    apply filter_In in Hr. destruct Hr as (Hin & Hk).
    unfold fetchKeeps in Hk.
    apply andb_true_iff in Hk. destruct Hk as (_ & Hk).
    apply andb_true_iff in Hk. destruct Hk as (Hk & H3).
    apply andb_true_iff in Hk. destruct Hk as (_ & H2).
    split.
    - change (hasContent (cell r (DIR_COL_LAST_NAME - 1))
              && hasContent (cell r (DIR_COL_FIRST_NAME - 1)) = true).
      now rewrite H3, H2.
    - apply directoryScan_found. exists r. split.
      + destruct directoryData; [destruct Hin | now right].
      + exact (directoryRowMatches_refl r). }
  destruct (loadRows_all_found directoryData _ Hall
    {| uatValuesUpdated := []; namesProcessed := 0; namesFound := 0;
       namesNotFoundList := [] |}) as (H1 & H2).
  destruct (loadRows_fields directoryData (map (firstn 4) fetched)
    {| uatValuesUpdated := []; namesProcessed := 0; namesFound := 0;
       namesNotFoundList := [] |}) as (_ & H4 & H3).
  cbv zeta in H3, H4.
  fold (loadRows directoryData (map (firstn 4) fetched)) in H1, H2, H3, H4.
  fold st in H1, H2, H3, H4.
  cbn [namesProcessed namesFound namesNotFoundList List.length Z.of_nat] in H1, H2, H3, H4.
  rewrite length_map in H2.
  rewrite H1 in H3. cbn [List.length Z.of_nat] in H3.
  clearbody st. clear Hall. unfold row in *.
  split; [exact H1|]. split; lia.
Qed.

Lemma lastRowScan_spec lasts firsts n :
  (6 <= lastRowScan lasts firsts n <= 6 + n)%nat
  /\ (forall i, (lastRowScan lasts firsts n - 7 < i < n)%nat ->
                hasNameAt lasts firsts i = false)
  /\ ((7 <= lastRowScan lasts firsts n)%nat ->
      hasNameAt lasts firsts (lastRowScan lasts firsts n - 7) = true)
  /\ (lastRowScan lasts firsts n = 6%nat ->
      forall i, (i < n)%nat -> hasNameAt lasts firsts i = false).
Proof.
  induction n as [|n IH].
  - cbn. repeat split; intros; lia.
  - cbn [lastRowScan]. fold (hasNameAt lasts firsts n).
    unfold UAT_START_DATA_ROW.
    destruct (hasNameAt lasts firsts n) eqn:Hn.
    + split; [lia|]. split; [intros i Hi; lia|].
      split; [intros _; now replace (7 + n - 7)%nat with n by lia|].
      intros Habs; lia.
    + destruct IH as (I1 & I2 & I3 & I4).
      split; [lia|]. split.
      * intros i Hi. destruct (Nat.eq_dec i n) as [->|Hne]; [exact Hn|].
        apply I2. lia.
      * split; [exact I3|].
        intros Hm i Hi. destruct (Nat.eq_dec i n) as [->|Hne]; [exact Hn|].
        apply I4; [exact Hm | lia].
Qed.

(** X17. The last row with input is row 6 exactly when no row of the two name
    columns has a name; otherwise it is the sheet row (7 or below) of the
    last row that has a first or a last name: that row has one and no row
    below it has. *)
Theorem last_row_with_input (lastNameColValues firstNameColValues : list row) :
  let m := lastRowWithInput lastNameColValues firstNameColValues in
  (6 <= m <= 6 + List.length lastNameColValues)%nat
  /\ (forall i, (m - 7 < i < List.length lastNameColValues)%nat ->
                hasNameAt lastNameColValues firstNameColValues i = false)
  /\ ((7 <= m)%nat -> hasNameAt lastNameColValues firstNameColValues (m - 7) = true)
  /\ (m = 6%nat ->
      forall i, (i < List.length lastNameColValues)%nat ->
                hasNameAt lastNameColValues firstNameColValues i = false).
Proof.
  exact (lastRowScan_spec lastNameColValues firstNameColValues
           (List.length lastNameColValues)).
Qed.

Lemma last_row_with_input_witness :
  let lasts := [[VString "Lee"]; [VString ""]; [VString ""]; [VString ""]] in
  let firsts := [[VString "Ann"]; [VString ""]; [VString "Bob"]; [VString ""]] in
  lastRowWithInput lasts firsts = 9%nat
  /\ hasNameAt lasts firsts 2 = true
  /\ hasNameAt lasts firsts 3 = false.
Proof.
  intros lasts firsts.
  destruct (last_row_with_input lasts firsts) as (_ & H2 & H3 & _).
  assert (Hm : lastRowWithInput lasts firsts = 9%nat) by reflexivity.
  rewrite Hm in H2, H3.
  split; [exact Hm|]. split.
  - apply H3. lia.
  - apply H2. cbn. lia.
Defined.

(** ** [resetActivityLevelValues]: the scores of the stats sheet *)

Lemma getValue_eq s i c :
  getValue s (i + 1) (c + 1)
  = match nth_error s i with
    | Some cells => match nth_error cells c with Some v => v | None => VString "" end
    | None => VString ""
    end.
Proof. unfold getValue. now rewrite !Nat.add_sub. Qed.

Lemma setValue_eq s i c v : setValue s (i + 1) (c + 1) v = setValueBelow s i (c + 1) v.
Proof. unfold setValue. now rewrite Nat.add_sub. Qed.

Lemma nth_error_setCellOfRow cells i v j :
  match nth_error (setCellOfRow cells i v) j with Some x => x | None => VString "" end
  = if (i =? j)%nat then v
    else match nth_error cells j with Some x => x | None => VString "" end.
Proof.
  revert cells j; induction i as [|i IH]; intros [|x cells] [|j];
    cbn [setCellOfRow nth_error Nat.eqb]; try reflexivity.
  - now destruct j.
  - rewrite IH. destruct (i =? j)%nat; [reflexivity | now destruct j].
  - apply IH.
Qed.

Lemma setCellOfRow_twice cells i v : setCellOfRow (setCellOfRow cells i v) i v = setCellOfRow cells i v.
Proof.
  revert cells; induction i as [|i IH]; intros [|x cells]; cbn [setCellOfRow];
    try reflexivity; now rewrite IH.
Qed.

Lemma setCellOfRow_inside cells i v :
  (i < List.length cells)%nat ->
  List.length (setCellOfRow cells i v) = List.length cells
  /\ forall j, j <> i -> cell (setCellOfRow cells i v) j = cell cells j.
Proof.
  unfold cell. revert cells; induction i as [|i IH]; intros [|x cells] Hi;
    cbn [List.length] in Hi; try lia; cbn [setCellOfRow List.length].
  - split; [reflexivity|]. intros [|j] Hj; [congruence | reflexivity].
  - destruct (IH cells) as (Hl & Hc); [lia|].
    split; [now rewrite Hl|].
    intros [|j] Hj; [reflexivity|]. cbn [nth]. apply Hc. congruence.
Qed.

Lemma nth_error_nil_value (d : nat) :
  match @nth_error value [] d with Some x => x | None => VString "" end = VString "".
Proof. now destruct d. Qed.

Lemma nth_error_nil_row (k d : nat) :
  match @nth_error row [] k with
  | Some cells => match nth_error cells d with Some x => x | None => VString "" end
  | None => VString ""
  end = VString "".
Proof. now destruct k. Qed.

Lemma getValue_setValueBelow s i c v k d :
  match nth_error (setValueBelow s i (c + 1) v) k with
  | Some cells => match nth_error cells d with Some x => x | None => VString "" end
  | None => VString ""
  end
  = if ((i =? k) && (c =? d))%nat then v
    else match nth_error s k with
         | Some cells => match nth_error cells d with Some x => x | None => VString "" end
         | None => VString ""
         end.
Proof.
  revert s k; induction i as [|i IH]; intros s k.
  - destruct s as [|cells s], k as [|k];
      cbn [setValueBelow nth_error Nat.eqb andb]; rewrite ?Nat.add_sub.
    + rewrite nth_error_setCellOfRow. now rewrite nth_error_nil_value.
    + now rewrite nth_error_nil_row.
    + apply nth_error_setCellOfRow.
    + reflexivity.
  - destruct s as [|cells s], k as [|k];
      cbn [setValueBelow nth_error Nat.eqb andb].
    + now rewrite nth_error_nil_value.
    + rewrite IH. now rewrite nth_error_nil_row.
    + reflexivity.
    + apply IH.
Qed.

(** Reading a cell after writing one. *)
Lemma getValue_setValue s i c v k d :
  getValue (setValue s (i + 1) (c + 1) v) (k + 1) (d + 1)
  = if ((i =? k) && (c =? d))%nat then v else getValue s (k + 1) (d + 1).
Proof.
  rewrite setValue_eq, !getValue_eq. apply getValue_setValueBelow.
Qed.

Lemma zeroOrEmpty_cases v :
  zeroOrEmpty v = true -> v = VNumber 0 \/ v = VString "".
Proof.
  unfold zeroOrEmpty, notZero, notEmptyString.
  destruct v as [| |b|n|s]; cbn; try discriminate.
  - rewrite orb_false_r, negb_involutive. intros H. apply Z.eqb_eq in H. subst. now left.
  - rewrite negb_involutive. intros H. apply String.eqb_eq in H. subst. now right.
Qed.

Lemma zeroOrEmpty_complement v :
  notZero v && notEmptyString v = negb (zeroOrEmpty v).
Proof.
  unfold zeroOrEmpty. now rewrite negb_orb, !negb_involutive.
Qed.

Lemma rowReset_length r0 r1 : rowReset r0 r1 -> List.length r1 = List.length r0.
Proof.
  intros [->|(Hl & ->)]; [reflexivity|]. now apply setCellOfRow_inside.
Qed.

Lemma rowReset_cell r0 r1 j : rowReset r0 r1 -> j <> 11%nat -> cell r1 j = cell r0 j.
Proof.
  intros [->|(Hl & ->)] Hj; [reflexivity|]. now apply setCellOfRow_inside.
Qed.

Lemma rowReset_score r0 r1 :
  rowReset r0 r1 -> cell r1 11 = cell r0 11 \/ cell r1 11 = VNumber 0.
Proof.
  intros [->|(Hl & ->)]; [now left|]. right.
  unfold cell. clear -Hl. revert Hl. generalize 11%nat as i.
  intros i; revert r0; induction i as [|i IH]; intros [|x r0] Hl;
    cbn [List.length] in Hl; try lia; cbn [setCellOfRow nth]; [reflexivity|].
  apply IH. lia.
Qed.

Lemma rowReset_matches r0 r1 pid fn ln :
  rowReset r0 r1 -> statsRowMatches r1 pid fn ln = statsRowMatches r0 pid fn ln.
Proof.
  intros H. unfold statsRowMatches.
  now rewrite !(rowReset_cell r0 r1 _ H) by (cbn; discriminate).
Qed.

(** Writing 0 over a score that is there keeps the sheet a reset of the
    original. *)
Lemma write_keeps_reset s0 s i :
  Forall2 rowReset s0 s ->
  notEmptyString (getValue s (i + 1) (11 + 1)) = true ->
  Forall2 rowReset s0 (setValue s (i + 1) (11 + 1) (VNumber 0)).
Proof.
  rewrite setValue_eq, getValue_eq.
  intros H; revert i; induction H as [|r0 r1 s0 s Hr Hs IH]; intros i Hv.
  - rewrite nth_error_nil_row in Hv. cbn in Hv. discriminate Hv.
  - destruct i as [|i]; cbn [setValueBelow].
    + change (nth_error (r1 :: s) 0) with (Some r1) in Hv.
      rewrite Nat.add_sub. constructor; [|exact Hs].
      assert (Hl : (11 < List.length r1)%nat).
      { cbn beta iota in Hv.
        destruct (nth_error r1 11) eqn:He; [|cbn in Hv; discriminate Hv].
        apply nth_error_Some. congruence. }
      destruct Hr as [->|(Hl0 & ->)].
      * right. split; [exact Hl | reflexivity].
      * right. split; [exact Hl0|]. apply setCellOfRow_twice.
    + change (nth_error (r1 :: s) (S i)) with (nth_error s i) in Hv.
      constructor; [exact Hr|]. now apply IH.
Qed.

Lemma resetScan_firstMatch statsData j pid fn ln s c :
  resetScan statsData j pid fn ln s c
  = match firstMatch statsData pid fn ln with
    | Some i =>
        Some (if zeroOrEmpty (getValue s (j + i + 1) (11 + 1)) then s
              else setValue s (j + i + 1) (11 + 1) (VNumber 0),
              c + 1)
    | None => None
    end.
Proof.
  revert j; induction statsData as [|r rest IH]; intros j; [reflexivity|].
  cbn [resetScan firstMatch].
  destruct (statsRowMatches r pid fn ln).
  - rewrite Nat.add_0_r. change STATS_COL_ACTIVITY_SCORE with (11 + 1)%nat.
    rewrite zeroOrEmpty_complement.
    fold (zeroOrEmpty (getValue s (j + 1) (11 + 1))).
    now destruct (zeroOrEmpty (getValue s (j + 1) (11 + 1))).
  - rewrite IH. destruct (firstMatch rest pid fn ln) as [i|]; [|reflexivity].
    cbn [option_map]. now replace (j + 1 + i + 1)%nat with (j + S i + 1)%nat by lia.
Qed.

Lemma resetScan_from_top statsData pid fn ln s c :
  resetScan statsData 0 pid fn ln s c
  = match firstMatch statsData pid fn ln with
    | Some i =>
        Some (if zeroOrEmpty (getValue s (i + 1) (11 + 1)) then s
              else setValue s (i + 1) (11 + 1) (VNumber 0),
              c + 1)
    | None => None
    end.
Proof. apply resetScan_firstMatch. Qed.

Lemma currentStats_firstMatch statsData pid fn ln :
  currentStats statsData pid fn ln
  = match firstMatch statsData pid fn ln with
    | Some i =>
        (parseIntOrZero (cell (nth i statsData []) (STATS_COL_QUARTER_EVENTS - 1)),
         parseIntOrZero (cell (nth i statsData []) (STATS_COL_ACTIVITY_SCORE - 1)))
    | None => (0, 0)
    end.
Proof.
  induction statsData as [|r rest IH]; [reflexivity|].
  cbn [currentStats firstMatch].
  destruct (statsRowMatches r pid fn ln); [reflexivity|].
  rewrite IH. now destruct (firstMatch rest pid fn ln).
Qed.

Lemma firstMatch_reset d0 d1 pid fn ln :
  Forall2 rowReset d0 d1 -> firstMatch d1 pid fn ln = firstMatch d0 pid fn ln.
Proof.
  induction 1 as [|r0 r1 d0 d1 Hr _ IH]; [reflexivity|].
  cbn [firstMatch]. now rewrite (rowReset_matches r0 r1 pid fn ln Hr), IH.
Qed.

Lemma getValues_reset s0 s :
  Forall2 rowReset s0 s -> Forall2 rowReset (getValues s0) (getValues s).
Proof.
  intros H. destruct H as [|r0 r1 s0 s Hr Hs]; cbn [getValues].
  - constructor; [now left | constructor].
  - now constructor.
Qed.

Lemma Forall2_rowReset_nth d0 d1 i :
  Forall2 rowReset d0 d1 -> rowReset (nth i d0 []) (nth i d1 []).
Proof.
  intros H; revert i; induction H as [|r0 r1 d0 d1 Hr _ IH]; intros [|i]; cbn [nth];
    try (now left); auto.
Qed.

(** A score that reads 0 or blank from the sheet reads 0 in the stats fetch. *)
Lemma blank_score_parses_zero s i :
  zeroOrEmpty (getValue s (i + 1) (11 + 1)) = true ->
  parseIntOrZero (cell (nth i (getValues s) []) (STATS_COL_ACTIVITY_SCORE - 1)) = 0.
Proof.
  rewrite getValue_eq. change (STATS_COL_ACTIVITY_SCORE - 1)%nat with 11%nat.
  destruct s as [|r0 s].
  - intros _. cbn [getValues]. destruct i as [|[|i]]; reflexivity.
  - cbn [getValues]. unfold cell.
    destruct (nth_error (r0 :: s) i) as [cells|] eqn:Hi.
    + unfold row in *. rewrite (nth_error_nth _ _ [] Hi).
      destruct (nth_error cells 11) as [v|] eqn:Hv.
      * rewrite (nth_error_nth _ _ VUndefined Hv). intros Hz.
        destruct (zeroOrEmpty_cases v Hz) as [->| ->]; reflexivity.
      * intros _. apply nth_error_None in Hv.
        rewrite nth_overflow by exact Hv. reflexivity.
    + intros _. apply nth_error_None in Hi. unfold row in *.
      rewrite (nth_overflow _ _ Hi). reflexivity.
Qed.

Section Reset.

Variable statsSheet : sheet.

Let statsData := getValues statsSheet.
Let step := resetPerson statsData.

Lemma resetPerson_fields st r :
  Forall2 rowReset statsSheet (statsSheetNow st) ->
  Forall2 rowReset statsSheet (statsSheetNow (step st r))
  /\ uatPeopleProcessedForStatsReset (step st r)
     = uatPeopleProcessedForStatsReset st + (if hasIdentity r then 1 else 0)
  /\ statsScoresResetCount (step st r)
     + Z.of_nat (List.length (notFoundInStatsSheet (step st r)))
     = statsScoresResetCount st + Z.of_nat (List.length (notFoundInStatsSheet st))
       + (if hasIdentity r then 1 else 0)
  /\ (forall i, zeroOrEmpty (getValue (statsSheetNow st) (i + 1) (11 + 1)) = true ->
                zeroOrEmpty (getValue (statsSheetNow (step st r)) (i + 1) (11 + 1)) = true)
  /\ (hasIdentity r = true ->
      forall i,
        firstMatch statsData (cell r (UAT_COL_ID - 1)) (cell r (UAT_COL_FIRST_NAME - 1))
          (cell r (UAT_COL_LAST_NAME - 1)) = Some i ->
        zeroOrEmpty (getValue (statsSheetNow (step st r)) (i + 1) (11 + 1)) = true).
Proof.
  intros Hinv. unfold step, resetPerson, hasIdentity. cbv zeta.
  destruct (hasContent _ && hasContent _ && hasContent _).
  2: { split; [exact Hinv|]. split; [lia|]. split; [lia|]. split; [auto | discriminate]. }
  rewrite resetScan_from_top.
  destruct (firstMatch statsData _ _ _) as [i|].
  2: { cbn [statsSheetNow uatPeopleProcessedForStatsReset statsScoresResetCount
              notFoundInStatsSheet].
       rewrite length_app. cbn [List.length].
       split; [exact Hinv|]. split; [lia|]. split; [lia|].
       split; [auto | intros _ k Hk; discriminate Hk]. }
  cbn [statsSheetNow uatPeopleProcessedForStatsReset statsScoresResetCount
         notFoundInStatsSheet].
  destruct (zeroOrEmpty (getValue (statsSheetNow st) (i + 1) (11 + 1))) eqn:Hz.
  - split; [exact Hinv|]. split; [lia|]. split; [lia|].
    split; [auto | intros _ k Hk; injection Hk as <-; exact Hz].
  - split.
    { apply write_keeps_reset; [exact Hinv|].
      unfold zeroOrEmpty in Hz. apply orb_false_iff in Hz. destruct Hz as (_ & Hz).
      now apply negb_false_iff in Hz. }
    split; [lia|]. split; [lia|]. split.
    + intros k Hk. rewrite getValue_setValue.
      destruct ((i =? k) && (11 =? 11))%nat; [reflexivity | exact Hk].
    + intros _ k Hk. injection Hk as <-. rewrite getValue_setValue.
      now rewrite Nat.eqb_refl.
Qed.

Lemma reset_fields uat st :
  Forall2 rowReset statsSheet (statsSheetNow st) ->
  let final := fold_left step uat st in
  Forall2 rowReset statsSheet (statsSheetNow final)
  /\ uatPeopleProcessedForStatsReset final
     = uatPeopleProcessedForStatsReset st
       + Z.of_nat (List.length (filter hasIdentity uat))
  /\ statsScoresResetCount final + Z.of_nat (List.length (notFoundInStatsSheet final))
     = statsScoresResetCount st + Z.of_nat (List.length (notFoundInStatsSheet st))
       + Z.of_nat (List.length (filter hasIdentity uat))
  /\ (forall i, zeroOrEmpty (getValue (statsSheetNow st) (i + 1) (11 + 1)) = true ->
                zeroOrEmpty (getValue (statsSheetNow final) (i + 1) (11 + 1)) = true)
  /\ (forall r i,
        In r uat -> hasIdentity r = true ->
        firstMatch statsData (cell r (UAT_COL_ID - 1)) (cell r (UAT_COL_FIRST_NAME - 1))
          (cell r (UAT_COL_LAST_NAME - 1)) = Some i ->
        zeroOrEmpty (getValue (statsSheetNow final) (i + 1) (11 + 1)) = true).
Proof.
  revert st; induction uat as [|r rest IH]; intros st Hinv final.
  - unfold final. cbn [fold_left filter List.length Z.of_nat].
    split; [exact Hinv|]. split; [lia|]. split; [lia|]. split; [auto | intros r i []].
  - unfold final. cbn [fold_left].
    destruct (resetPerson_fields st r Hinv) as (H1 & H2 & H3 & H4 & H5).
    destruct (IH (step st r) H1) as (I1 & I2 & I3 & I4 & I5).
    rewrite !count_filter_cons.
    split; [exact I1|]. split; [lia|]. split; [lia|]. split.
    + intros i Hi. apply I4, H4, Hi.
    + intros x i [<-|Hin] Hid Hm.
      * apply I4. now apply H5.
      * now apply (I5 x).
Qed.

End Reset.

Lemma Forall2_rowReset_refl s : Forall2 rowReset s s.
Proof. induction s; constructor; [now left | assumption]. Qed.

(** X18. The reset loop touches nothing but scores: the stats sheet keeps its
    rows and their widths, every cell outside the score column is as it was,
    and every score is as it was or is 0. *)
Theorem reset_touches_only_scores (statsSheet : sheet) (uatDataForMatching : list row) :
  Forall2
    (fun before after =>
       List.length after = List.length before
       /\ (forall j, j <> (STATS_COL_ACTIVITY_SCORE - 1)%nat -> cell after j = cell before j)
       /\ (cell after (STATS_COL_ACTIVITY_SCORE - 1)
           = cell before (STATS_COL_ACTIVITY_SCORE - 1)
           \/ cell after (STATS_COL_ACTIVITY_SCORE - 1) = VNumber 0))
    statsSheet (statsSheetNow (resetScores statsSheet uatDataForMatching)).
Proof.
  unfold resetScores.
  destruct (reset_fields statsSheet uatDataForMatching
              {| statsSheetNow := statsSheet; statsScoresResetCount := 0;
                 uatPeopleProcessedForStatsReset := 0; notFoundInStatsSheet := [] |}
              (Forall2_rowReset_refl statsSheet)) as (H & _).
  cbv zeta in H.
  eapply Forall2_impl; [|exact H].
  intros r0 r1 Hr. split; [now apply rowReset_length|].
  split; [intros j Hj; now apply rowReset_cell | now apply rowReset_score].
Qed.

(** X19. The counters of the reset: the people processed are the tracker rows
    with an id and both names, and each of them is either counted as reset
    (or already 0 or blank) or listed as not found. *)
Theorem reset_counters_add_up (statsSheet : sheet) (uatDataForMatching : list row) :
  let st := resetScores statsSheet uatDataForMatching in
  uatPeopleProcessedForStatsReset st
  = Z.of_nat (List.length (filter hasIdentity uatDataForMatching))
  /\ statsScoresResetCount st + Z.of_nat (List.length (notFoundInStatsSheet st))
     = uatPeopleProcessedForStatsReset st.
Proof.
  intros st. unfold st, resetScores.
  destruct (reset_fields statsSheet uatDataForMatching
              {| statsSheetNow := statsSheet; statsScoresResetCount := 0;
                 uatPeopleProcessedForStatsReset := 0; notFoundInStatsSheet := [] |}
              (Forall2_rowReset_refl statsSheet)) as (_ & H2 & H3 & _).
  cbv zeta in H2, H3.
  cbn [uatPeopleProcessedForStatsReset statsScoresResetCount notFoundInStatsSheet
         List.length Z.of_nat] in H2, H3.
  split; lia.
Qed.

(** X20. After the reset loop, the stats fetch of [updateActivityLevels]
    reads K = 0 for every tracker person that has an id and both names, and
    the E it reads for that person is the one it read before. *)
Theorem score_reads_zero_after_reset
  (statsSheet : sheet) (uatDataForMatching : list row) (r : row)
  (Hin : In r uatDataForMatching) (Hid : hasIdentity r = true) :
  let after := statsSheetNow (resetScores statsSheet uatDataForMatching) in
  statsOf (getValues after) r = (fst (statsOf (getValues statsSheet) r), 0).
Proof.
  intros after. unfold after, resetScores.
  destruct (reset_fields statsSheet uatDataForMatching
              {| statsSheetNow := statsSheet; statsScoresResetCount := 0;
                 uatPeopleProcessedForStatsReset := 0; notFoundInStatsSheet := [] |}
              (Forall2_rowReset_refl statsSheet)) as (Hinv & _ & _ & _ & Hz).
  cbv zeta in Hinv, Hz.
  set (final := statsSheetNow (fold_left _ _ _)) in *.
  pose proof (getValues_reset _ _ Hinv) as Hdata.
  unfold statsOf. rewrite !currentStats_firstMatch.
  rewrite (firstMatch_reset _ _ _ _ _ Hdata).
  destruct (firstMatch (getValues statsSheet) (cell r (UAT_COL_ID - 1))
              (cell r (UAT_COL_FIRST_NAME - 1)) (cell r (UAT_COL_LAST_NAME - 1)))
    as [i|] eqn:Hm; [|reflexivity].
  cbn [fst]. f_equal.
  - f_equal. apply rowReset_cell; [|cbn; discriminate].
    now apply Forall2_rowReset_nth.
  - apply blank_score_parses_zero. now apply (Hz r).
Qed.

Lemma score_reads_zero_after_reset_witness :
  let statsSheet :=
    [[VString "Person ID"; VString "Full Name"; VString "First Name";
      VString "Last Name"; VString "Events This Quarter"];
     [VString "a1"; VString "Ann Lee"; VString "Ann"; VString "Lee"; VNumber 5;
      VString ""; VString ""; VString ""; VString ""; VString ""; VString "";
      VNumber 7]] in
  let r := [VString "a1"; VString "Ann Lee"; VString "Lee"; VString "Ann"] in
  statsOf (getValues statsSheet) r = (5, 7)
  /\ statsOf (getValues (statsSheetNow (resetScores statsSheet [r]))) r = (5, 0).
Proof.
  intros statsSheet r.
  split; [reflexivity|].
  rewrite (score_reads_zero_after_reset statsSheet [r] r (or_introl eq_refl) eq_refl).
  reflexivity.
Defined.

(** ** [getCommunityUrls] *)

Lemma settingsScan_first looseEq before r after communityId :
  Forall (fun x => looseEq (cell x (SETTINGS_COL_COMMUNITY_ID - 1)) communityId = false)
    before ->
  looseEq (cell r (SETTINGS_COL_COMMUNITY_ID - 1)) communityId = true ->
  settingsScan looseEq (before ++ r :: after) communityId
  = Urls (cell r (SETTINGS_COL_DIRECTORY_URL - 1))
         (cell r (SETTINGS_COL_ATTENDANCE_STATS_URL - 1)).
Proof.
  intros Hb Hr. induction Hb as [|x rest Hx _ IH]; cbn [app settingsScan].
  - now rewrite Hr.
  - now rewrite Hx.
Qed.

Lemma settingsScan_result looseEq settingsData communityId :
  match settingsScan looseEq settingsData communityId with
  | Urls d s =>
      exists r, In r settingsData
                /\ looseEq (cell r (SETTINGS_COL_COMMUNITY_ID - 1)) communityId = true
                /\ d = cell r (SETTINGS_COL_DIRECTORY_URL - 1)
                /\ s = cell r (SETTINGS_COL_ATTENDANCE_STATS_URL - 1)
  | CommunityNotFound =>
      Forall (fun x => looseEq (cell x (SETTINGS_COL_COMMUNITY_ID - 1)) communityId
                       = false) settingsData
  | _ => False
  end.
Proof.
  induction settingsData as [|x rest IH]; cbn [settingsScan]; [constructor|].
  destruct (looseEq (cell x (SETTINGS_COL_COMMUNITY_ID - 1)) communityId) eqn:Hx.
  - exists x. split; [now left|]. auto.
  - destruct (settingsScan looseEq rest communityId); try exact IH.
    + now constructor.
    + destruct IH as (r & Hin & H). exists r. split; [now right | exact H].
Qed.

(** X21. [getCommunityUrls] gives nothing for a missing community id,
    whatever the Settings hold, and nothing when the Settings tab is
    missing; otherwise it gives the two URLs of the first Settings row whose
    column B equals the id, directory URL from column D and stats URL from
    column C, and nothing exactly when no row has the id. *)
Theorem community_urls_of_first_matching_row
  (looseEq : value -> value -> bool) (settingsSheet : option sheet) (communityId : value) :
  (ToBoolean communityId = false ->
   getCommunityUrls looseEq settingsSheet communityId = NoCommunitySelected)
  /\ (ToBoolean communityId = true -> settingsSheet = None ->
      getCommunityUrls looseEq settingsSheet communityId = SettingsTabNotFound)
  /\ (forall settings before r after,
        ToBoolean communityId = true -> settingsSheet = Some settings ->
        getValues settings = before ++ r :: after ->
        Forall (fun x => looseEq (cell x (SETTINGS_COL_COMMUNITY_ID - 1)) communityId
                         = false) before ->
        looseEq (cell r (SETTINGS_COL_COMMUNITY_ID - 1)) communityId = true ->
        getCommunityUrls looseEq settingsSheet communityId
        = Urls (cell r (SETTINGS_COL_DIRECTORY_URL - 1))
               (cell r (SETTINGS_COL_ATTENDANCE_STATS_URL - 1)))
  /\ (forall settings,
        ToBoolean communityId = true -> settingsSheet = Some settings ->
        (getCommunityUrls looseEq settingsSheet communityId = CommunityNotFound
         <-> Forall (fun x => looseEq (cell x (SETTINGS_COL_COMMUNITY_ID - 1)) communityId
                              = false) (getValues settings))).
Proof.
  unfold getCommunityUrls.
  split; [intros ->; reflexivity|].
  split; [intros -> ->; reflexivity|].
  split.
  - intros settings before r after -> -> Hv Hb Hr. cbn [negb].
    rewrite Hv. now apply settingsScan_first.
  - intros settings -> ->. cbn [negb].
    pose proof (settingsScan_result looseEq (getValues settings) communityId) as H.
    split.
    + intros Hn. now rewrite Hn in H.
    + intros Hall.
      destruct (settingsScan looseEq (getValues settings) communityId);
        try contradiction; [reflexivity|].
      destruct H as (r & Hin & Hr & _).
      rewrite Forall_forall in Hall. rewrite (Hall r Hin) in Hr. discriminate Hr.
Qed.

Lemma community_urls_of_first_matching_row_witness :
  let sameText := fun a b : value => (ToString a =? ToString b)%string in
  let settings :=
    [[VString ""; VString "Community ID"; VString "Stats URL"; VString "Directory URL"];
     [VString ""; VString "north"; VString "https://stats/n"; VString "https://dir/n"];
     [VString ""; VString "north"; VString "https://stats/x"; VString "https://dir/x"]] in
  getCommunityUrls sameText (Some settings) (VString "") = NoCommunitySelected
  /\ getCommunityUrls sameText None (VString "north") = SettingsTabNotFound
  /\ getCommunityUrls sameText (Some settings) (VString "north")
     = Urls (VString "https://dir/n") (VString "https://stats/n")
  /\ getCommunityUrls sameText (Some settings) (VString "south") = CommunityNotFound.
Proof.
  intros sameText settings.
  split.
  { apply (community_urls_of_first_matching_row sameText (Some settings) (VString "")).
    reflexivity. }
  split.
  { apply (community_urls_of_first_matching_row sameText None (VString "north"));
      reflexivity. }
  split.
  { destruct (community_urls_of_first_matching_row sameText (Some settings)
                (VString "north")) as (_ & _ & H & _).
    apply (H settings [nth 0 settings []] (nth 1 settings []) [nth 2 settings []]);
      try reflexivity.
    repeat constructor. }
  destruct (community_urls_of_first_matching_row sameText (Some settings)
              (VString "south")) as (_ & _ & _ & H).
  apply (H settings eq_refl eq_refl). repeat constructor.
Defined.

Lemma reset_touches_only_scores_witness :
  let statsSheet :=
    [[VString "a1"; VString "Ann Lee"; VString "Ann"; VString "Lee"; VNumber 5;
      VString ""; VString ""; VString ""; VString ""; VString ""; VString "";
      VNumber 7]] in
  let r := [VString "a1"; VString "Ann Lee"; VString "Lee"; VString "Ann"] in
  let after := nth 0 (statsSheetNow (resetScores statsSheet [r])) [] in
  cell after 4 = VNumber 5 /\ List.length after = 12%nat.
Proof.
  intros statsSheet r after.
  pose proof (reset_touches_only_scores statsSheet [r]) as H.
  assert (Hafter : statsSheetNow (resetScores statsSheet [r]) = [after]) by reflexivity.
  rewrite Hafter in H.
  inversion H as [|before after' s0 s1 (Hlen & Hcells & _) Hrest]; subst.
  split; [rewrite Hcells; [reflexivity | discriminate] | exact Hlen].
Defined.

(** ** The loops on concrete sheets *)

Example fetch_skips_header_and_incomplete_rows :
  fetchedNames 1 3 4
    [[VString "Person ID"; VString "Full Name"; VString "First Name"; VString "Last Name"];
     [VString "a1"; VString "x"; VString " Ann "; VString "Lee"];
     [VString ""; VString "x"; VString "Bob"; VString "Roe"];
     [VNumber 7; VString "x"; VString "Cy"]]
  = [[VString "a1"; VString "Ann Lee"; VString "Lee"; VString " Ann "; VNull]].
Proof. reflexivity. Qed.

Example load_fills_found_and_erases_missing :
  uatValuesUpdated
    (loadRows
       [[VString "ID"; VString "Full"; VString "Last Name"; VString "First Name"];
        [VNumber 12; VString "x"; VString " Lee"; VString "Ann "]]
       [[VString ""; VString ""; VString "LEE"; VString "ann"];
        [VString ""; VString ""; VString "Roe"; VString "Bob"];
        [VString ""; VString ""; VString ""; VString "Cy"]])
  = [[VNumber 12; VString "Ann Lee"; VString "LEE"; VString "ann"];
     [VNull; VNull; VNull; VNull];
     [VString ""; VString ""; VString ""; VString "Cy"]].
Proof. reflexivity. Qed.

Example reset_zeroes_the_score_of_a_match :
  resetScores
    [[VString "a1"; VString "x"; VString "Ann"; VString "Lee"; VNumber 5;
      VString ""; VString ""; VString ""; VString ""; VString ""; VString "";
      VNumber 7];
     [VString "b2"; VString "x"; VString "Bob"; VString "Roe"; VNumber 1]]
    [[VString "a1"; VString "x"; VString "Lee"; VString "ann"];
     [VString "b2"; VString "x"; VString "Roe"; VString "Bob"];
     [VString "c3"; VString "x"; VString "Poe"; VString "Cy"]]
  = {| statsSheetNow :=
         [[VString "a1"; VString "x"; VString "Ann"; VString "Lee"; VNumber 5;
           VString ""; VString ""; VString ""; VString ""; VString ""; VString "";
           VNumber 0];
          [VString "b2"; VString "x"; VString "Bob"; VString "Roe"; VNumber 1]];
       statsScoresResetCount := 2;
       uatPeopleProcessedForStatsReset := 3;
       notFoundInStatsSheet := ["Cy Poe (ID: c3)"] |}.
Proof. reflexivity. Qed.
